(** * AX.25 KISS interface: framing, addressing, reader and flow control

    A shallow embedding of [RNS/Interfaces/AX25KISSInterface.py].

    - Python [bytes] values are lists of integers; [bytes([x])] is the
      one-element list [[x]] and is defined in Python only for
      [0 <= x < 256] (lemma [address_in_range] shows the header bytes
      built below stay in that range for every accepted configuration).
    - A Python [str] that the code transforms (the callsign) is the list
      of its code points, so that [upper] can lengthen it as the Unicode
      case tables do; names and messages, which are only concatenated,
      are strings.
    - Integers are unbounded; the true division [x / 10] of the timing
      setters is the binary64 division of CPython, correctly rounded, and
      raises [OverflowError] beyond the largest float.
    - The interface object is the record [iface]; methods are computations
      in a state monad with exceptions, [M], whose state survives a raise
      the way the attributes of a Python object do.
    - The collaborators (serial transport, owning router, reader thread)
      are observed through the interaction log [io_log]; what the
      transport answers (the count [serial.write] returns, whether the
      port opens) and what the clock reads are parameters of the
      operation that asks.
    - Logging calls ([RNS.log]) and [sleep] calls have no effect on the
      modelled state and are left out; serial line settings (speed,
      data bits, parity, stop bits) are only handed to the transport and
      are left out as well. *)

From Stdlib Require Import ZArith List String Ascii Bool Lia QArith DecimalString.
Import ListNotations.
Local Open Scope Z_scope.

(** ** Python values *)

Definition bytes := list Z.

Definition len {A : Type} (l : list A) : Z := Z.of_nat (List.length l).

(** [str(n)] for an integer. *)
Definition str (n : Z) : string := NilZero.string_of_int (Z.to_int n).

(** [range(a, b)] *)
Definition range (a b : Z) : list Z :=
  map (fun k => a + Z.of_nat k) (seq 0 (Z.to_nat (b - a))).

(** [data[i]] for an index inside the value. *)
Definition index (data : bytes) (i : Z) : Z := nth (Z.to_nat i) data 0.

(** [data.replace(bytes([old]), new)]: every occurrence of the one-byte
    pattern is replaced, left to right. *)
Definition replace (old : Z) (new : bytes) (data : bytes) : bytes :=
  flat_map (fun b => if b =? old then new else [b]) data.

(** The character code of an ASCII character. *)
Definition code (a : ascii) : Z := Z.of_N (N_of_ascii a).

(** A Python [str]: its code points. *)
Definition text := list Z.

(** The [str] an ASCII literal stands for. *)
Definition text_of (s : string) : text := map code (list_ascii_of_string s).

(** The uppercase form of one character, as [str.upper] gives it.  Of the
    ASCII characters only [a]..[z] change.  Above ASCII, the Unicode case
    tables give ten characters an uppercase form that is all ASCII: sharp
    s, dotless i, long s and the seven Latin ligatures; they are mapped as
    the tables have them.  The uppercase form of every other character
    above ASCII contains a character above ASCII, which is all that
    [encode] below looks at, and such a character is left as it is: so
    [upper s] is [s.upper()] whenever that is an ASCII string, and has a
    character above ASCII whenever [s.upper()] has one. *)
Definition upper_char (c : Z) : text :=
  if (97 <=? c) && (c <=? 122) then [c - 32]
  else if c =? 0xDF then [83; 83]
  else if c =? 0x131 then [73]
  else if c =? 0x17F then [83]
  else if c =? 0xFB00 then [70; 70]
  else if c =? 0xFB01 then [70; 73]
  else if c =? 0xFB02 then [70; 76]
  else if c =? 0xFB03 then [70; 70; 73]
  else if c =? 0xFB04 then [70; 70; 76]
  else if c =? 0xFB05 then [83; 84]
  else if c =? 0xFB06 then [83; 84]
  else [c].

(** [s.upper()] *)
Definition upper (s : text) : text := flat_map upper_char s.

Definition ascii_text (s : text) : bool :=
  forallb (fun c => (0 <=? c) && (c <? 128)) s.

(** [s.encode("ascii")]: the character codes, or [None] where Python raises
    [UnicodeEncodeError]. *)
Definition encode_ascii (s : text) : option bytes :=
  if ascii_text s then Some s else None.

(** ** class KISS *)

Module KISS.
Definition FEND            : Z := 0xC0.
Definition FESC            : Z := 0xDB.
Definition TFEND           : Z := 0xDC.
Definition TFESC           : Z := 0xDD.
Definition CMD_UNKNOWN     : Z := 0xFE.
Definition CMD_DATA        : Z := 0x00.
Definition CMD_TXDELAY     : Z := 0x01.
Definition CMD_P           : Z := 0x02.
Definition CMD_SLOTTIME    : Z := 0x03.
Definition CMD_TXTAIL      : Z := 0x04.
Definition CMD_FULLDUPLEX  : Z := 0x05.
Definition CMD_SETHARDWARE : Z := 0x06.
Definition CMD_READY       : Z := 0x0F.
Definition CMD_RETURN      : Z := 0xFF.

Definition escape (data : bytes) : bytes :=
  let data := replace 0xdb [0xdb; 0xdd] data in
  let data := replace 0xc0 [0xdb; 0xdc] data in
  data.
End KISS.

(** ** class AX25 *)

Module AX25.
Definition PID_NOLAYER3 : Z := 0xF0.
Definition CTRL_UI      : Z := 0x03.
Definition CRC_CORRECT  : bytes := [0xF0] ++ [0xB8].
Definition HEADER_SIZE  : Z := 16.
End AX25.

(** ** Exceptions and interactions *)

Inductive exn : Type :=
| ValueError (msg : string)
| UnicodeEncodeError
| IOError (msg : string)
| OverflowError (msg : string)
| SerialException.

(** [UnicodeEncodeError] is a subclass of [ValueError]. *)
Definition is_ValueError (e : exn) : bool :=
  match e with
  | ValueError _ | UnicodeEncodeError => true
  | _ => false
  end.

(** What the interface does to its collaborators, in order. *)
Inductive io : Type :=
| OpenPort (port : string)      (* pyserial.Serial(port = ..., ...) *)
| StartReader                   (* Thread(target=self.readLoop).start() *)
| Write (data : bytes)          (* self.serial.write(data) *)
| ClosePort                     (* self.serial.close() *)
| Inbound (payload : bytes).    (* self.owner.inbound(payload, self) *)

(** ** The interface object *)

Record iface : Type := mk_iface {
  name                 : string;
  port                 : option string;
  src_call             : bytes;
  src_ssid             : Z;
  dst_call             : bytes;
  dst_ssid             : Z;
  HW_MTU               : Z;
  timeout              : Z;
  online               : bool;
  packet_queue         : list bytes;
  flow_control         : bool;
  interface_ready      : bool;
  flow_control_timeout : Z;
  flow_control_locked  : Q;
  preamble             : Z;
  txtail               : Z;
  persistence          : Z;
  slottime             : Z;
  serial               : option bool;  (* None, or a Serial with is_open *)
  txb                  : Z;
  rxb                  : Z;
  io_log               : list io
}.

Definition set_online (v : bool) (s : iface) : iface :=
  mk_iface (name s) (port s) (src_call s) (src_ssid s) (dst_call s) (dst_ssid s)
    (HW_MTU s) (timeout s) v (packet_queue s) (flow_control s)
    (interface_ready s) (flow_control_timeout s) (flow_control_locked s)
    (preamble s) (txtail s) (persistence s) (slottime s) (serial s)
    (txb s) (rxb s) (io_log s).

Definition set_packet_queue (v : list bytes) (s : iface) : iface :=
  mk_iface (name s) (port s) (src_call s) (src_ssid s) (dst_call s) (dst_ssid s)
    (HW_MTU s) (timeout s) (online s) v (flow_control s)
    (interface_ready s) (flow_control_timeout s) (flow_control_locked s)
    (preamble s) (txtail s) (persistence s) (slottime s) (serial s)
    (txb s) (rxb s) (io_log s).

Definition set_interface_ready (v : bool) (s : iface) : iface :=
  mk_iface (name s) (port s) (src_call s) (src_ssid s) (dst_call s) (dst_ssid s)
    (HW_MTU s) (timeout s) (online s) (packet_queue s) (flow_control s)
    v (flow_control_timeout s) (flow_control_locked s)
    (preamble s) (txtail s) (persistence s) (slottime s) (serial s)
    (txb s) (rxb s) (io_log s).

Definition set_flow_control_locked (v : Q) (s : iface) : iface :=
  mk_iface (name s) (port s) (src_call s) (src_ssid s) (dst_call s) (dst_ssid s)
    (HW_MTU s) (timeout s) (online s) (packet_queue s) (flow_control s)
    (interface_ready s) (flow_control_timeout s) v
    (preamble s) (txtail s) (persistence s) (slottime s) (serial s)
    (txb s) (rxb s) (io_log s).

Definition set_serial (v : option bool) (s : iface) : iface :=
  mk_iface (name s) (port s) (src_call s) (src_ssid s) (dst_call s) (dst_ssid s)
    (HW_MTU s) (timeout s) (online s) (packet_queue s) (flow_control s)
    (interface_ready s) (flow_control_timeout s) (flow_control_locked s)
    (preamble s) (txtail s) (persistence s) (slottime s) v
    (txb s) (rxb s) (io_log s).

Definition set_txb (v : Z) (s : iface) : iface :=
  mk_iface (name s) (port s) (src_call s) (src_ssid s) (dst_call s) (dst_ssid s)
    (HW_MTU s) (timeout s) (online s) (packet_queue s) (flow_control s)
    (interface_ready s) (flow_control_timeout s) (flow_control_locked s)
    (preamble s) (txtail s) (persistence s) (slottime s) (serial s)
    v (rxb s) (io_log s).

Definition set_rxb (v : Z) (s : iface) : iface :=
  mk_iface (name s) (port s) (src_call s) (src_ssid s) (dst_call s) (dst_ssid s)
    (HW_MTU s) (timeout s) (online s) (packet_queue s) (flow_control s)
    (interface_ready s) (flow_control_timeout s) (flow_control_locked s)
    (preamble s) (txtail s) (persistence s) (slottime s) (serial s)
    (txb s) v (io_log s).

Definition set_io_log (v : list io) (s : iface) : iface :=
  mk_iface (name s) (port s) (src_call s) (src_ssid s) (dst_call s) (dst_ssid s)
    (HW_MTU s) (timeout s) (online s) (packet_queue s) (flow_control s)
    (interface_ready s) (flow_control_timeout s) (flow_control_locked s)
    (preamble s) (txtail s) (persistence s) (slottime s) (serial s)
    (txb s) (rxb s) v.

Definition set_tuning (p t pe sl : Z) (s : iface) : iface :=
  mk_iface (name s) (port s) (src_call s) (src_ssid s) (dst_call s) (dst_ssid s)
    (HW_MTU s) (timeout s) (online s) (packet_queue s) (flow_control s)
    (interface_ready s) (flow_control_timeout s) (flow_control_locked s)
    p t pe sl (serial s) (txb s) (rxb s) (io_log s).

(** [str(self)] *)
Definition __str__ (s : iface) : string :=
  ("AX25KISSInterface[" ++ name s ++ "]")%string.

(** ** Methods as computations over the object *)

Definition M (A : Type) : Type := iface -> (exn + A) * iface.

Definition ret {A : Type} (a : A) : M A := fun s => (inr a, s).

Definition bind {A B : Type} (m : M A) (k : A -> M B) : M B :=
  fun s =>
    match m s with
    | (inl e, s') => (inl e, s')
    | (inr a, s') => k a s'
    end.

Definition raise {A : Type} (e : exn) : M A := fun s => (inl e, s).

Definition gets {A : Type} (f : iface -> A) : M A := fun s => (inr (f s), s).

Definition modify (f : iface -> iface) : M unit := fun s => (inr tt, f s).

(** [try: m  except Exception: pass] *)
Definition try_pass (m : M unit) : M unit :=
  fun s => (inr tt, snd (m s)).

Notation "x <- m ;; k" := (bind m (fun x => k))
  (at level 61, m at next level, right associativity).
Notation "m ;; k" := (bind m (fun _ => k))
  (at level 61, right associativity).

Definition log_io (e : io) : M unit :=
  modify (fun s => set_io_log (io_log s ++ [e]) s).

(** [self.serial.write(data)]: the transport's answer is [wr data]. *)
Definition serial_write (wr : bytes -> Z) (data : bytes) : M Z :=
  log_io (Write data) ;; ret (wr data).

(** ** Device configuration commands *)

(** The integer nearest [n / d], halves going to the even one. *)
Definition round_half_even (n d : Z) : Z :=
  let k := n / d in
  let r := n mod d in
  if 2 * r <? d then k
  else if d <? 2 * r then k + 1
  else if Z.even k then k else k + 1.

(** The exponent [e] of [n / 10]: [2^e <= n / 10 < 2^(e+1)]. *)
Definition float_exponent (n : Z) : Z :=
  let l := Z.log2 n in
  if 10 * 2 ^ (l - 3) <=? n then l - 3 else l - 4.

(** [a / 10] for an integer [a > 0]: true division gives the binary64
    number nearest the quotient, with a 53-bit significand and ties going
    to the even one, and raises [OverflowError] when that is beyond the
    largest float.  The result here is that float times [2^64], an
    integer since the quotient is at least a tenth; [None] stands for the
    overflow. *)
Definition float_div10 (a : Z) : option Z :=
  let n := a * 2 ^ 64 in
  let e := float_exponent n in
  let v := round_half_even n (10 * 2 ^ (e - 52)) * 2 ^ (e - 52) in
  if 2 ^ (1024 + 64) <=? v then None else Some v.

(** [int(x / 10)]: true division, then truncation towards zero; [None]
    where the division raises [OverflowError]. *)
Definition int_div10 (x : Z) : option Z :=
  if x =? 0 then Some 0
  else
    match float_div10 (Z.abs x) with
    | None => None
    | Some v => Some (Z.sgn x * (v / 2 ^ 64))
    end.

Definition division_overflow : exn :=
  OverflowError "integer division result too large for a float".

Definition clamp_byte (v : Z) : Z :=
  let v := if v <? 0 then 0 else v in
  let v := if 255 <? v then 255 else v in
  v.

(** [int(x / 10)] inside a method. *)
Definition int_div10_or_raise (x : Z) : M Z :=
  match int_div10 x with
  | Some v => ret v
  | None => raise division_overflow
  end.

Definition setPreamble (wr : bytes -> Z) (preamble : Z) : M unit :=
  let preamble_ms := preamble in
  preamble <- int_div10_or_raise preamble_ms ;;
  let preamble := clamp_byte preamble in
  let kiss_command := [KISS.FEND] ++ [KISS.CMD_TXDELAY] ++ [preamble] ++ [KISS.FEND] in
  written <- serial_write wr kiss_command ;;
  if negb (written =? len kiss_command) then
    raise (IOError ("Could not configure AX.25 KISS interface preamble to "
                    ++ str preamble_ms ++ " (command value " ++ str preamble ++ ")")%string)
  else ret tt.

Definition setTxTail (wr : bytes -> Z) (txtail : Z) : M unit :=
  let txtail_ms := txtail in
  txtail <- int_div10_or_raise txtail_ms ;;
  let txtail := clamp_byte txtail in
  let kiss_command := [KISS.FEND] ++ [KISS.CMD_TXTAIL] ++ [txtail] ++ [KISS.FEND] in
  written <- serial_write wr kiss_command ;;
  if negb (written =? len kiss_command) then
    raise (IOError ("Could not configure AX.25 KISS interface TX tail to "
                    ++ str txtail_ms ++ " (command value " ++ str txtail ++ ")")%string)
  else ret tt.

Definition setPersistence (wr : bytes -> Z) (persistence : Z) : M unit :=
  let persistence := clamp_byte persistence in
  let kiss_command := [KISS.FEND] ++ [KISS.CMD_P] ++ [persistence] ++ [KISS.FEND] in
  written <- serial_write wr kiss_command ;;
  if negb (written =? len kiss_command) then
    raise (IOError ("Could not configure AX.25 KISS interface persistence to "
                    ++ str persistence)%string)
  else ret tt.

Definition setSlotTime (wr : bytes -> Z) (slottime : Z) : M unit :=
  let slottime_ms := slottime in
  slottime <- int_div10_or_raise slottime_ms ;;
  let slottime := clamp_byte slottime in
  let kiss_command := [KISS.FEND] ++ [KISS.CMD_SLOTTIME] ++ [slottime] ++ [KISS.FEND] in
  written <- serial_write wr kiss_command ;;
  if negb (written =? len kiss_command) then
    raise (IOError ("Could not configure AX.25 KISS interface slot time to "
                    ++ str slottime_ms ++ " (command value " ++ str slottime ++ ")")%string)
  else ret tt.

Definition setFlowControl (wr : bytes -> Z) (flow_control : bool) : M unit :=
  let kiss_command := [KISS.FEND] ++ [KISS.CMD_READY] ++ [0x01] ++ [KISS.FEND] in
  written <- serial_write wr kiss_command ;;
  if negb (written =? len kiss_command) then
    if flow_control then
      raise (IOError "Could not enable AX.25 KISS interface flow control")
    else
      raise (IOError "Could not enable AX.25 KISS interface flow control")
  else ret tt.

(** ** Opening and configuring the transport *)

(** [opens] is the transport's answer to [pyserial.Serial(...)]: [None]
    when it raises, [Some b] for a [Serial] object whose [is_open] is [b]. *)
Definition open_port (opens : option bool) : M unit :=
  p <- gets port ;;
  log_io (OpenPort (match p with Some p => p | None => EmptyString end)) ;;
  match opens with
  | None => raise SerialException
  | Some is_open => modify (set_serial (Some is_open))
  end.

Definition serial_is_open (s : iface) : bool :=
  match serial s with
  | Some true => true
  | _ => false
  end.

Definition serial_close : M unit :=
  log_io ClosePort ;; modify (set_serial (Some false)).

Definition configure_device (wr : bytes -> Z) : M unit :=
  log_io StartReader ;;
  modify (set_online true) ;;
  p <- gets preamble ;;
  setPreamble wr p ;;
  t <- gets txtail ;;
  setTxTail wr t ;;
  pe <- gets persistence ;;
  setPersistence wr pe ;;
  sl <- gets slottime ;;
  setSlotTime wr sl ;;
  fc <- gets flow_control ;;
  setFlowControl wr fc ;;
  modify (set_interface_ready true).

(** ** Construction *)

(** The configuration object: a key that may be absent is an option. *)
Record configuration : Type := mk_configuration {
  c_name         : string;
  c_preamble     : option Z;
  c_txtail       : option Z;
  c_persistence  : option Z;
  c_slottime     : option Z;
  c_flow_control : option bool;
  c_port         : option string;
  c_callsign     : option text;
  c_ssid         : option Z
}.

Definition or_default {A : Type} (o : option A) (d : A) : A :=
  match o with
  | Some a => a
  | None => d
  end.

(** The object before [__init__] runs: nothing logged, no transport, the
    counters at zero; the other attributes are not assigned yet and carry
    placeholders. *)
Definition fresh : iface :=
  mk_iface EmptyString None [] 0 [] 0 0 0 false [] false false 0 0 0 0 0 0
           None 0 0 [].

(** [now] is what [time.time()] reads in [__init__]. *)
Definition __init__ (now : Q) (opens : option bool) (wr : bytes -> Z)
    (c : configuration) : M unit :=
  let name := c_name c in
  let preamble' := c_preamble c in
  let txtail' := c_txtail c in
  let persistence' := c_persistence c in
  let slottime' := c_slottime c in
  let flow_control := or_default (c_flow_control c) false in
  let port := c_port c in
  let callsign := or_default (c_callsign c) [] in
  let ssid := or_default (c_ssid c) (-1) in
  match port with
  | None => raise (ValueError "No port specified for serial interface")
  | Some _ =>
    match encode_ascii (upper callsign) with
    | None => raise UnicodeEncodeError
    | Some src =>
      modify (fun s =>
        mk_iface name port src ssid (text_of "APZRNS") 0
                 564 100 false [] flow_control false 5 now
                 (preamble s) (txtail s) (persistence s) (slottime s)
                 None (txb s) (rxb s) (io_log s)) ;;
      self <- gets (fun s => s) ;;
      if (len (src_call self) <? 3) || (6 <? len (src_call self)) then
        raise (ValueError ("Invalid callsign for " ++ __str__ self)%string)
      else if (src_ssid self <? 0) || (15 <? src_ssid self) then
        raise (ValueError ("Invalid SSID for " ++ __str__ self)%string)
      else
        modify (set_tuning (or_default preamble' 350) (or_default txtail' 20)
                           (or_default persistence' 64) (or_default slottime' 20)) ;;
        open_port opens ;;
        is_open <- gets serial_is_open ;;
        if is_open then configure_device wr
        else raise (IOError "Could not open serial port")
    end
  end.

(** ** Sending *)

(** One of the two [for i in range(0,6)] loops of [process_outgoing]. *)
Definition append_call (call : bytes) (addr : bytes) : bytes :=
  fold_left
    (fun addr i =>
       if i <? len call then addr ++ [Z.shiftl (index call i) 1]
       else addr ++ [0x20])
    (range 0 6) addr.

(** The address field [addr] as [process_outgoing] builds it. *)
Definition address (self : iface) : bytes :=
  let encoded_dst_ssid := [Z.lor 0x60 (Z.shiftl (dst_ssid self) 1)] in
  let encoded_src_ssid :=
    [Z.lor (Z.lor 0x60 (Z.shiftl (src_ssid self) 1)) 0x01] in
  let addr := [] in
  let addr := append_call (dst_call self) addr in
  let addr := addr ++ encoded_dst_ssid in
  let addr := append_call (src_call self) addr in
  let addr := addr ++ encoded_src_ssid in
  addr.

(** The link-layer header: address field, control byte, protocol id. *)
Definition header (self : iface) : bytes :=
  address self ++ [AX25.CTRL_UI] ++ [AX25.PID_NOLAYER3].

(** [kiss_frame] as [process_outgoing] builds it for the payload [data]. *)
Definition kiss_frame (self : iface) (data : bytes) : bytes :=
  let data := header self ++ data in
  let data := replace 0xdb ([0xdb] ++ [0xdd]) data in
  let data := replace 0xc0 ([0xdb] ++ [0xdc]) data in
  [KISS.FEND] ++ [0x00] ++ data ++ [KISS.FEND].

Definition queue (data : bytes) : M unit :=
  modify (fun s => set_packet_queue (packet_queue s ++ [data]) s).

(** [now] is what [time.time()] reads when the flow-control lock is taken. *)
Definition process_outgoing (wr : bytes -> Z) (now : Q) (data : bytes) : M unit :=
  let datalen := len data in
  is_online <- gets online ;;
  if is_online then
    ready <- gets interface_ready ;;
    if ready then
      fc <- gets flow_control ;;
      (if fc then
         modify (set_interface_ready false) ;;
         modify (set_flow_control_locked now)
       else ret tt) ;;
      self <- gets (fun s => s) ;;
      let frame := kiss_frame self data in
      written <- serial_write wr frame ;;
      modify (fun s => set_txb (txb s + datalen) s) ;;
      if negb (written =? len frame) then
        (if fc then modify (set_interface_ready true) else ret tt) ;;
        raise (IOError ("AX.25 interface only wrote " ++ str written
                        ++ " bytes of " ++ str (len frame))%string)
      else ret tt
    else queue data
  else ret tt.

Definition process_queue (wr : bytes -> Z) (now : Q) : M unit :=
  q <- gets packet_queue ;;
  match q with
  | data :: rest =>
      modify (set_packet_queue rest) ;;
      modify (set_interface_ready true) ;;
      process_outgoing wr now data
  | [] => modify (set_interface_ready true)
  end.

(** ** Receiving *)

Definition process_incoming (data : bytes) : M unit :=
  if AX25.HEADER_SIZE <? len data then
    modify (fun s => set_rxb (rxb s + len data) s) ;;
    log_io (Inbound (skipn (Z.to_nat AX25.HEADER_SIZE) data))
  else ret tt.

(** The local variables of [readLoop]. *)
Record reader : Type := mk_reader {
  in_frame     : bool;
  escape       : bool;
  command      : Z;
  data_buffer  : bytes;
  last_read_ms : Z
}.

(** The locals as [readLoop] sets them before its loop; [now_ms] is
    [int(time.time()*1000)] at that moment. *)
Definition reader_start (now_ms : Z) : reader :=
  mk_reader false false KISS.CMD_UNKNOWN [] now_ms.

(** What one iteration of the loop meets: a byte waiting on the transport,
    or nothing.  Each carries the clock readings the iteration takes:
    [now_ms] is [int(time.time()*1000)]; [now_check] is [time.time()] in
    the flow-control time-out test; [now] is [time.time()] if the iteration
    goes on to send a queued packet. *)
Inductive event : Type :=
| Rx (byte : Z) (now_ms : Z) (now : Q)
| Idle (now_ms : Z) (now_check : Q) (now : Q).

(** Run a method of the object from inside the loop, keeping the locals. *)
Definition with_locals (r : reader) (res : (exn + unit) * iface)
  : (exn + unit) * (reader * iface) :=
  (fst res, (r, snd res)).

(** One iteration of [while self.serial.is_open] in [readLoop]. *)
Definition readLoop_body (wr : bytes -> Z) (ev : event) (r : reader) (self : iface)
  : (exn + unit) * (reader * iface) :=
  match ev with
  | Rx byte now_ms now =>
      let r := mk_reader (in_frame r) (escape r) (command r) (data_buffer r) now_ms in
      if in_frame r && (byte =? KISS.FEND) && (command r =? KISS.CMD_DATA) then
        let r := mk_reader false (escape r) (command r) (data_buffer r) (last_read_ms r) in
        with_locals r (process_incoming (data_buffer r) self)
      else if byte =? KISS.FEND then
        (inr tt, (mk_reader true (escape r) KISS.CMD_UNKNOWN [] (last_read_ms r), self))
      else if in_frame r && (len (data_buffer r) <? HW_MTU self + AX25.HEADER_SIZE) then
        if (len (data_buffer r) =? 0) && (command r =? KISS.CMD_UNKNOWN) then
          let byte := Z.land byte 0x0F in
          (inr tt, (mk_reader (in_frame r) (escape r) byte (data_buffer r) (last_read_ms r), self))
        else if command r =? KISS.CMD_DATA then
          if byte =? KISS.FESC then
            (inr tt, (mk_reader (in_frame r) true (command r) (data_buffer r) (last_read_ms r), self))
          else
            let '(byte, esc) :=
              if escape r then
                let byte := if byte =? KISS.TFEND then KISS.FEND else byte in
                let byte := if byte =? KISS.TFESC then KISS.FESC else byte in
                (byte, false)
              else (byte, escape r) in
            (inr tt, (mk_reader (in_frame r) esc (command r) (data_buffer r ++ [byte])
                                (last_read_ms r), self))
        else if command r =? KISS.CMD_READY then
          with_locals r (process_queue wr now self)
        else (inr tt, (r, self))
      else (inr tt, (r, self))
  | Idle now_ms now_check now =>
      let time_since_last := now_ms - last_read_ms r in
      let r :=
        if (0 <? len (data_buffer r)) && (timeout self <? time_since_last) then
          mk_reader false false KISS.CMD_UNKNOWN [] (last_read_ms r)
        else r in
      if flow_control self then
        if negb (interface_ready self) then
          if negb (Qle_bool now_check
                     (flow_control_locked self + inject_Z (flow_control_timeout self))%Q)
          then with_locals r (process_queue wr now self)
          else (inr tt, (r, self))
        else (inr tt, (r, self))
      else (inr tt, (r, self))
  end.

(** The loop over what arrives: it stops when the port is no longer open,
    or at the first exception, which [readLoop] catches outside the loop. *)
Fixpoint readLoop_run (wr : bytes -> Z) (evs : list event) (r : reader) (self : iface)
  : (exn + unit) * (reader * iface) :=
  match evs with
  | [] => (inr tt, (r, self))
  | ev :: evs' =>
      if serial_is_open self then
        match readLoop_body wr ev r self with
        | (inr _, (r', self')) => readLoop_run wr evs' r' self'
        | (inl e, rs) => (inl e, rs)
        end
      else (inr tt, (r, self))
  end.

(** What [readLoop] does once its loop is over, however it ended, before it
    calls [reconnect_port]. *)
Definition readLoop_exit : M unit :=
  modify (set_online false) ;;
  serial_close.

(** One round of [while not self.online] in [reconnect_port]. *)
Definition reconnect_attempt (opens : option bool) (wr : bytes -> Z) : M unit :=
  try_pass
    (open_port opens ;;
     is_open <- gets serial_is_open ;;
     if is_open then configure_device wr else ret tt).

(** The byte an event delivers, if any. *)
Definition rx_byte (ev : event) : option Z :=
  match ev with
  | Rx byte _ _ => Some byte
  | Idle _ _ _ => None
  end.

(** [reconnect_port]: the rounds of [while not self.online], each with the
    transport's answers for that round.  [None] when the answers run out
    with the interface still offline: the loop would go on. *)
Fixpoint reconnect_port (answers : list (option bool * (bytes -> Z))) (self : iface)
  : option iface :=
  if online self then Some self
  else
    match answers with
    | [] => None
    | (opens, wr) :: rest =>
        reconnect_port rest (snd (reconnect_attempt opens wr self))
    end.

(** [should_ingress_limit] *)
Definition should_ingress_limit (self : iface) : bool := false.

(** ** Vocabulary of the statements *)

(** What escaping does to one byte. *)
Definition escape_byte (b : Z) : bytes :=
  if b =? KISS.FESC then [KISS.FESC; KISS.TFESC]
  else if b =? KISS.FEND then [KISS.FESC; KISS.TFEND]
  else [b].

(** A byte sequence with no delimiter in it, in which every escape byte is
    followed by a transposed delimiter or a transposed escape. *)
Fixpoint well_escaped (l : bytes) : bool :=
  match l with
  | [] => true
  | b :: rest =>
      if b =? KISS.FEND then false
      else if b =? KISS.FESC then
        match rest with
        | c :: rest' =>
            ((c =? KISS.TFEND) || (c =? KISS.TFESC)) && well_escaped rest'
        | [] => false
        end
      else well_escaped rest
  end.

(** The two substitutions of [KISS.escape] in the other order. *)
Definition escape_delimiter_first (data : bytes) : bytes :=
  replace 0xdb [0xdb; 0xdd] (replace 0xc0 [0xdb; 0xdc] data).

(** A value [bytes([x])] accepts. *)
Definition is_byte (x : Z) : Prop := 0 <= x < 256.

(** A transport that takes every byte it is given. *)
Definition writes_all : bytes -> Z := fun data => len data.

(** A configuration with a port, a callsign and an SSID, the other keys
    absent. *)
Definition configuration_of (callsign : string) (ssid : option Z) : configuration :=
  mk_configuration "ax25" None None None None None
                   (Some "/dev/ttyUSB0"%string) (Some (text_of callsign)) ssid.

(** The interface constructed for callsign [abc], SSID 5, on a transport
    that opens and takes every byte. *)
Definition example_iface : iface :=
  snd (__init__ 0%Q (Some true) writes_all (configuration_of "abc" (Some 5)) fresh).

(** The attributes that only [__init__] assigns. *)
Definition settings (s : iface)
  : string * option string * bytes * Z * bytes * Z * Z * Z * bool * Z :=
  (name s, port s, src_call s, src_ssid s, dst_call s, dst_ssid s,
   HW_MTU s, timeout s, flow_control s, flow_control_timeout s).

(** The states of the interface once construction has returned: the
    owner sends, the reader loop iterates while the port is open and
    leaves, and [reconnect_port] tries again while the interface is
    offline.  Each method call is one step. *)
Inductive reachable : iface -> Prop :=
| reach_init (now : Q) (opens : option bool) (wr : bytes -> Z) (c : configuration) :
    fst (__init__ now opens wr c fresh) = inr tt ->
    reachable (snd (__init__ now opens wr c fresh))
| reach_send (s : iface) (wr : bytes -> Z) (now : Q) (data : bytes) :
    reachable s ->
    reachable (snd (process_outgoing wr now data s))
| reach_read (s : iface) (wr : bytes -> Z) (ev : event) (r : reader) :
    reachable s ->
    serial_is_open s = true ->
    reachable (snd (snd (readLoop_body wr ev r s)))
| reach_exit (s : iface) :
    reachable s ->
    reachable (snd (readLoop_exit s))
| reach_reconnect (s : iface) (opens : option bool) (wr : bytes -> Z) :
    reachable s ->
    online s = false ->
    reachable (snd (reconnect_attempt opens wr s)).

(** Bytes arriving back to back, every clock reading being 0. *)
Definition rx_all (bs : bytes) : list event := map (fun b => Rx b 0 0%Q) bs.

(** With flow control off the interface is ready and nothing is queued. *)
Definition always_ready (s : iface) : Prop :=
  flow_control s = false -> interface_ready s = true /\ packet_queue s = [].

(** A step keeps the settings and keeps [always_ready]. *)
Definition steady (s s' : iface) : Prop :=
  settings s' = settings s /\ (always_ready s -> always_ready s').

(** A ready-signal frame as the reader meets it: a delimiter, a command
    byte whose low nibble is [CMD_READY], one value byte, a delimiter. *)
Definition is_ready_frame (evs : list event) : Prop :=
  exists c v,
    map rx_byte evs = [Some KISS.FEND; Some c; Some v; Some KISS.FEND] /\
    Z.land c 0x0F = KISS.CMD_READY /\
    v <> KISS.FEND.

(** The reader is not inside a data frame. *)
Definition between_frames (r : reader) : Prop :=
  in_frame r = false \/ command r <> KISS.CMD_DATA.

(** An interface constructed with flow control on, after the owner has
    sent the payloads [[1]], [[2]] and [[3]]: the first went out and the
    interface waits for the ready signal with the other two queued. *)
Definition example_busy : iface :=
  let c := mk_configuration "ax25" None None None None (Some true)
             (Some "/dev/ttyUSB0"%string) (Some (text_of "abc")) (Some 5) in
  let s := snd (__init__ 0%Q (Some true) writes_all c fresh) in
  let s := snd (process_outgoing writes_all 0%Q [1] s) in
  let s := snd (process_outgoing writes_all 0%Q [2] s) in
  snd (process_outgoing writes_all 0%Q [3] s).

(** What every constructed interface has in its settings. *)
Definition well_configured (s : iface) : Prop :=
  HW_MTU s = 564 /\ timeout s = 100 /\ flow_control_timeout s = 5 /\
  dst_call s = [65; 80; 90; 82; 78; 83] /\ dst_ssid s = 0 /\
  0 <= src_ssid s <= 15 /\ 3 <= len (src_call s) <= 6 /\
  Forall (fun c => 0 <= c < 128) (src_call s).

(** The ready frame [C0 0F 01 C0], the form [setFlowControl] writes. *)
Definition ready_frame_events : list event := rx_all [0xC0; 0x0F; 0x01; 0xC0].

(** The owner sends the payloads [ds] one after the other. *)
Definition send_all (wr : bytes -> Z) (now : Q) (ds : list bytes) (s : iface) : iface :=
  fold_left (fun s d => snd (process_outgoing wr now d s)) ds s.

(** The value byte of a timing command: tens of milliseconds, kept within
    a byte. *)
Definition tens_byte (ms : Z) : Z := Z.max 0 (Z.min 255 (Z.quot ms 10)).

(** The least magnitude whose tenth is beyond the largest float: ten
    times the midpoint between the largest float, [2^1024 - 2^971], and
    [2^1024]. *)
Definition division_limit : Z := 10 * (2 ^ 1024 - 2 ^ 970).

(** The timing settings are within the range where the division by ten
    returns. *)
Definition timings_in_float_range (s : iface) : Prop :=
  Z.abs (preamble s) < division_limit /\
  Z.abs (txtail s) < division_limit /\
  Z.abs (slottime s) < division_limit.

(** A command frame: delimiter, command, one value byte, delimiter. *)
Definition command_frame (cmd v : Z) : bytes := [KISS.FEND; cmd; v; KISS.FEND].

(** The frame of a timing command, [None] where the division by ten
    raises. *)
Definition timing_frame (cmd ms : Z) : option bytes :=
  match int_div10 ms with
  | Some v => Some (command_frame cmd (clamp_byte v))
  | None => None
  end.

(** The five commands of [configure_device], in the order it sends them. *)
Definition command_frames (s : iface) : list (option bytes) :=
  [timing_frame KISS.CMD_TXDELAY (preamble s);
   timing_frame KISS.CMD_TXTAIL (txtail s);
   Some (command_frame KISS.CMD_P (clamp_byte (persistence s)));
   timing_frame KISS.CMD_SLOTTIME (slottime s);
   Some (command_frame KISS.CMD_READY 1)].

(** What a command method does: raise [OverflowError] with nothing
    written, write the frame and return, or write the frame and raise
    [IOError] on a count that is not the frame's length. *)
Definition command_outcome (wr : bytes -> Z) (frame : option bytes) (s : iface)
    (res : (exn + unit) * iface) : Prop :=
  match frame with
  | None => res = (inl division_overflow, s)
  | Some f =>
    (wr f = len f /\ res = (inr tt, set_io_log (io_log s ++ [Write f]) s)) \/
    (wr f <> len f /\
     exists msg, res = (inl (IOError msg), set_io_log (io_log s ++ [Write f]) s))
  end.

(** [example_busy] gone offline, and [example_busy] with an empty queue
    and the ready flag up. *)
Definition example_offline : iface := set_online false example_busy.

Definition example_ready : iface :=
  set_interface_ready true (set_packet_queue [] example_busy).

(** ** Proof steps *)

Ltac run_M :=
  cbv [bind ret raise gets modify log_io serial_write try_pass].

Ltac split_ifs :=
  repeat match goal with
         | |- context [if ?b then _ else _] => destruct b eqn:?
         end.

Ltac fields :=
  cbn [fst snd settings name port src_call src_ssid dst_call dst_ssid HW_MTU
       timeout online packet_queue flow_control interface_ready
       flow_control_timeout flow_control_locked preamble txtail persistence
       slottime serial txb rxb io_log set_online set_packet_queue
       set_interface_ready set_flow_control_locked set_serial set_txb set_rxb
       set_io_log set_tuning] in *.

(** * Properties *)

(** ** Escaping *)

Lemma replace_app (old : Z) (new a b : bytes) :
  replace old new (a ++ b) = replace old new a ++ replace old new b.
Proof. unfold replace. apply flat_map_app. Qed.

Lemma escape_bytewise (data : bytes) :
  KISS.escape data = flat_map escape_byte data.
Proof.
  unfold KISS.escape, replace.
  induction data as [|b data IH]; [reflexivity|].
  cbn [flat_map]. rewrite flat_map_app, IH. f_equal.
  unfold escape_byte, KISS.FESC, KISS.FEND, KISS.TFESC, KISS.TFEND.
  destruct (Z.eqb_spec b 219) as [->|Hesc]; [reflexivity|].
  cbn [flat_map]. destruct (Z.eqb_spec b 192); reflexivity.
Qed.

Lemma escape_app (a b : bytes) :
  KISS.escape (a ++ b) = KISS.escape a ++ KISS.escape b.
Proof. rewrite !escape_bytewise. apply flat_map_app. Qed.

Lemma escape_no_delimiter (data : bytes) :
  count_occ Z.eq_dec (KISS.escape data) KISS.FEND = 0%nat.
Proof.
  rewrite escape_bytewise.
  induction data as [|b data IH]; [reflexivity|].
  cbn [flat_map]. rewrite count_occ_app, IH, Nat.add_0_r.
  unfold escape_byte, KISS.FESC, KISS.FEND, KISS.TFESC, KISS.TFEND.
  destruct (Z.eqb_spec b 219); [reflexivity|].
  destruct (Z.eqb_spec b 192); [reflexivity|].
  cbn. destruct (Z.eq_dec b 192); [contradiction | reflexivity].
Qed.

Lemma escape_well_escaped (data : bytes) :
  well_escaped (KISS.escape data) = true.
Proof.
  rewrite escape_bytewise.
  induction data as [|b data IH]; [reflexivity|].
  cbn [flat_map]. unfold escape_byte.
  destruct (Z.eqb_spec b KISS.FESC) as [->|Hesc]; [exact IH|].
  destruct (Z.eqb_spec b KISS.FEND) as [->|Hend]; [exact IH|].
  cbn [app well_escaped].
  destruct (Z.eqb_spec b KISS.FEND); [contradiction|].
  destruct (Z.eqb_spec b KISS.FESC); [contradiction|].
  exact IH.
Qed.

(** The frame that [process_outgoing] writes is the escaped header and
    payload between a command byte and two delimiters. *)
Lemma kiss_frame_eq (self : iface) (data : bytes) :
  kiss_frame self data =
  [KISS.FEND; 0] ++ KISS.escape (header self ++ data) ++ [KISS.FEND].
Proof. reflexivity. Qed.

(** In the other order the escape byte inserted for a delimiter is escaped
    again. *)
Example escape_order_matters :
  KISS.escape [0xC0] = [0xDB; 0xDC] /\
  escape_delimiter_first [0xC0] = [0xDB; 0xDD; 0xDC].
Proof. split; reflexivity. Qed.

(** C2: [KISS.escape] substitutes the escape byte first and the delimiter
    second, so that each byte is escaped once; the frame built for any
    payload is a delimiter, a body and a delimiter, the two delimiters are
    the only ones in the frame, and in the body every escape byte starts
    an escape pair. *)
Theorem kiss_frame_delimited (self : iface) (data : bytes) :
  (forall d, KISS.escape d =
             replace KISS.FEND [KISS.FESC; KISS.TFEND]
               (replace KISS.FESC [KISS.FESC; KISS.TFESC] d)) /\
  (forall d, KISS.escape d = flat_map escape_byte d) /\
  exists body,
    kiss_frame self data = [KISS.FEND] ++ body ++ [KISS.FEND] /\
    body = [KISS.CMD_DATA] ++ KISS.escape (header self ++ data) /\
    count_occ Z.eq_dec body KISS.FEND = 0%nat /\
    count_occ Z.eq_dec (kiss_frame self data) KISS.FEND = 2%nat /\
    well_escaped body = true.
Proof.
  split; [reflexivity|]. split; [exact escape_bytewise|].
  exists ([KISS.CMD_DATA] ++ KISS.escape (header self ++ data)).
  split; [reflexivity|]. split; [reflexivity|].
  assert (Hbody : count_occ Z.eq_dec
            ([KISS.CMD_DATA] ++ KISS.escape (header self ++ data)) KISS.FEND = 0%nat).
  { rewrite count_occ_app, escape_no_delimiter. reflexivity. }
  split; [exact Hbody|]. split.
  - rewrite kiss_frame_eq.
    change ([KISS.FEND; 0] ++ KISS.escape (header self ++ data) ++ [KISS.FEND])
      with ([KISS.FEND] ++ ([KISS.CMD_DATA] ++ KISS.escape (header self ++ data))
              ++ [KISS.FEND]).
    rewrite 2!count_occ_app, Hbody. reflexivity.
  - change (well_escaped (KISS.escape (header self ++ data)) = true).
    apply escape_well_escaped.
Qed.

(** ** The link-layer header *)

Lemma append_call_eq (call addr : bytes) :
  append_call call addr =
  addr ++ map (fun i => if i <? len call then Z.shiftl (index call i) 1 else 0x20)
              (range 0 6).
Proof.
  unfold append_call.
  generalize (range 0 6) as l. intros l. revert addr.
  induction l as [|i l IH]; intros addr; cbn [fold_left map].
  - now rewrite app_nil_r.
  - rewrite IH. destruct (i <? len call); now rewrite <- app_assoc.
Qed.

Lemma append_call_length (call addr : bytes) :
  len (append_call call addr) = len addr + 6.
Proof.
  rewrite append_call_eq. unfold len.
  rewrite length_app, length_map.
  change (List.length (range 0 6)) with 6%nat. lia.
Qed.

(** The header is 16 bytes whatever the callsigns are. *)
Lemma header_length (self : iface) : len (header self) = AX25.HEADER_SIZE.
Proof.
  unfold header, address.
  remember (append_call (dst_call self) []) as a eqn:Ha.
  remember (append_call (src_call self) (a ++ _)) as b eqn:Hb.
  assert (La : len a = 6) by (subst a; rewrite append_call_length; reflexivity).
  assert (Lb : len b = 13).
  { subst b. rewrite append_call_length. unfold len in *.
    rewrite length_app. cbn [List.length]. lia. }
  unfold len in *. rewrite !length_app. cbn [List.length].
  unfold AX25.HEADER_SIZE. lia.
Qed.

Lemma header_length_nat (self : iface) : List.length (header self) = 16%nat.
Proof.
  pose proof (header_length self) as H. unfold len, AX25.HEADER_SIZE in H. lia.
Qed.

(** The SSID bytes and the two trailing bytes of the header. *)
Lemma header_layout (self : iface) :
  exists dst src,
    List.length dst = 6%nat /\ List.length src = 6%nat /\
    header self =
      dst ++ [Z.lor 0x60 (Z.shiftl (dst_ssid self) 1)] ++
      src ++ [Z.lor (Z.lor 0x60 (Z.shiftl (src_ssid self) 1)) 0x01] ++
      [0x03; 0xF0] /\
    (forall i, 0 <= i < len (dst_call self) -> i < 6 ->
               index dst i = Z.shiftl (index (dst_call self) i) 1) /\
    (forall i, 0 <= i < len (src_call self) -> i < 6 ->
               index src i = Z.shiftl (index (src_call self) i) 1) /\
    (forall i, len (src_call self) <= i < 6 -> index src i = 0x20).
Proof.
  set (enc := fun call : bytes =>
     map (fun i => if i <? len call then Z.shiftl (index call i) 1 else 0x20)
         (range 0 6)).
  assert (Hidx : forall call i, 0 <= i < 6 ->
            index (enc call) i =
            if i <? len call then Z.shiftl (index call i) 1 else 0x20).
  { intros call i Hi. unfold enc, index.
    assert (Hc : i = 0 \/ i = 1 \/ i = 2 \/ i = 3 \/ i = 4 \/ i = 5) by lia.
    destruct Hc as [->|[->|[->|[->|[->| ->]]]]]; reflexivity. }
  exists (enc (dst_call self)), (enc (src_call self)).
  split; [reflexivity|]. split; [reflexivity|]. split.
  - unfold header, address. rewrite !append_call_eq. fold (enc (dst_call self)).
    fold (enc (src_call self)). cbn [app]. now rewrite <- !app_assoc.
  - split; [|split].
    + intros i Hi Hi'. rewrite Hidx by lia.
      destruct (Z.ltb_spec i (len (dst_call self))); [reflexivity | lia].
    + intros i Hi Hi'. rewrite Hidx by lia.
      destruct (Z.ltb_spec i (len (src_call self))); [reflexivity | lia].
    + intros i Hi. assert (0 <= len (src_call self)) by (unfold len; lia).
      rewrite Hidx by lia.
      destruct (Z.ltb_spec i (len (src_call self))); [lia | reflexivity].
Qed.

(** C3 (evaluation): for the three-letter callsign [abc] with SSID 5 the
    header is 16 bytes with the SSID bytes 0x60 and 0x6B, control 0x03 and
    protocol id 0xF0, and the three pad positions of the source callsign
    hold 0x20, the space character itself, where the space character
    shifted one bit is 0x40. *)
Theorem header_pad_is_unshifted_space :
  src_call example_iface = [65; 66; 67] /\
  src_ssid example_iface = 5 /\
  header example_iface =
    [0x82; 0xA0; 0xB4; 0xA4; 0x9C; 0xA6; 0x60;
     0x82; 0x84; 0x86; 0x20; 0x20; 0x20; 0x6B; 0x03; 0xF0] /\
  firstn 3 (skipn 10 (header example_iface)) = [code " "; code " "; code " "] /\
  Z.shiftl (code " ") 1 = 0x40 /\
  index (header example_iface) 10 <> Z.shiftl (code " ") 1.
Proof. repeat split; try reflexivity. vm_compute. discriminate. Qed.

(** ** Construction *)

Lemma upper_char_ascii (c : Z) :
  0 <= c < 128 -> exists u, upper_char c = [u] /\ 0 <= u < 128.
Proof.
  intros H. unfold upper_char.
  destruct ((97 <=? c) && (c <=? 122)) eqn:E.
  - apply andb_true_iff in E. destruct E as [E1 E2].
    apply Z.leb_le in E1. apply Z.leb_le in E2.
    exists (c - 32). split; [reflexivity | lia].
  - repeat match goal with
           | |- context [?a =? ?b] =>
               destruct (Z.eqb_spec a b) as [Heq|_]; [exfalso; lia|]
           end.
    exists c. split; [reflexivity | lia].
Qed.

Lemma upper_char_nonempty (c : Z) : (1 <= List.length (upper_char c))%nat.
Proof.
  unfold upper_char.
  repeat match goal with
         | |- context [if ?b then _ else _] => destruct b
         end; cbn [List.length]; lia.
Qed.

(** Upper-casing never shortens a string. *)
Lemma upper_no_shorter (s : text) : len s <= len (upper s).
Proof.
  unfold len. induction s as [|c s IH]; [cbn; lia|].
  cbn [upper flat_map]. fold (upper s). rewrite length_app.
  pose proof (upper_char_nonempty c). cbn [List.length]. lia.
Qed.

Lemma upper_ascii (s : text) :
  ascii_text s = true ->
  ascii_text (upper s) = true /\ List.length (upper s) = List.length s.
Proof.
  unfold ascii_text. induction s as [|c s IH]; [split; reflexivity|].
  cbn [forallb]. rewrite !andb_true_iff. intros [[H0 H1] Hs].
  apply Z.leb_le in H0. apply Z.ltb_lt in H1.
  destruct (upper_char_ascii c (conj H0 H1)) as [u [Hu [Hu0 Hu1]]].
  destruct (IH Hs) as [IH1 IH2].
  cbn [upper flat_map]. fold (upper s). rewrite Hu.
  cbn [app forallb List.length]. rewrite IH1, IH2. split; [|reflexivity].
  apply Z.leb_le in Hu0. apply Z.ltb_lt in Hu1. now rewrite Hu0, Hu1.
Qed.

Lemma upper_ascii_text (s : text) :
  ascii_text s = true -> ascii_text (upper s) = true.
Proof. intros H. apply (upper_ascii s H). Qed.

Lemma upper_length (s : text) :
  ascii_text s = true -> List.length (upper s) = List.length s.
Proof. intros H. apply (upper_ascii s H). Qed.

Lemma ascii_text_range (s : text) :
  ascii_text s = true -> Forall (fun c => 0 <= c < 128) s.
Proof.
  unfold ascii_text. rewrite forallb_forall, Forall_forall.
  intros H c Hc. specialize (H c Hc). apply andb_true_iff in H.
  destruct H as [H0 H1]. apply Z.leb_le in H0. apply Z.ltb_lt in H1. lia.
Qed.

(** What [encode] returns is the string itself, all ASCII. *)
Lemma encode_ascii_some (s : text) (src : bytes) :
  encode_ascii s = Some src -> src = s /\ ascii_text s = true.
Proof.
  unfold encode_ascii. destruct (ascii_text s); [|discriminate].
  intros H. injection H as <-. split; reflexivity.
Qed.

(** An ASCII callsign encodes to as many bytes as it has characters. *)
Lemma encode_upper (s : text) :
  ascii_text s = true ->
  exists src, encode_ascii (upper s) = Some src /\
              len src = len s /\
              Forall (fun c => 0 <= c < 128) src.
Proof.
  intros H. unfold encode_ascii. pose proof (upper_ascii_text s H) as Hu.
  rewrite Hu. eexists. split; [reflexivity|]. split.
  - unfold len. now rewrite upper_length.
  - now apply ascii_text_range.
Qed.

(** The two checks of [__init__] on the stored callsign and SSID. *)
Lemma init_checks (now : Q) (opens : option bool) (wr : bytes -> Z)
    (c : configuration) (p : string) (src : bytes) :
  c_port c = Some p ->
  encode_ascii (upper (or_default (c_callsign c) [])) = Some src ->
  len src < 3 \/ 6 < len src \/
    or_default (c_ssid c) (-1) < 0 \/ 15 < or_default (c_ssid c) (-1) ->
  exists msg,
    fst (__init__ now opens wr c fresh) = inl (ValueError msg) /\
    io_log (snd (__init__ now opens wr c fresh)) = [] /\
    serial (snd (__init__ now opens wr c fresh)) = None.
Proof.
  intros Hp Hsrc Hbad. unfold __init__. rewrite Hp, Hsrc.
  cbv [bind modify gets raise]. cbn [src_call src_ssid].
  destruct ((len src <? 3) || (6 <? len src)) eqn:Hcall.
  - eexists. repeat split; reflexivity.
  - apply orb_false_iff in Hcall. destruct Hcall as [H3 H6].
    apply Z.ltb_ge in H3. apply Z.ltb_ge in H6.
    destruct ((or_default (c_ssid c) (-1) <? 0)
              || (15 <? or_default (c_ssid c) (-1))) eqn:Hssid.
    + eexists. repeat split; reflexivity.
    + apply orb_false_iff in Hssid. destruct Hssid as [H0 H15].
      apply Z.ltb_ge in H0. apply Z.ltb_ge in H15. lia.
Qed.

(** C6 (as the code has it): a configuration whose SSID is outside 0..15
    (the default -1 and 16 among them), whose callsign has more than 6
    characters, or whose callsign in the upper case that [__init__] stores
    is not an ASCII string of 3 to 6 characters (for an ASCII callsign:
    whose length is below 3) is refused with a [ValueError], or its
    subclass [UnicodeEncodeError], before anything is asked of the
    transport: nothing is logged and the object has no [Serial]. *)
Theorem init_rejects_invalid (now : Q) (opens : option bool) (wr : bytes -> Z)
    (c : configuration) :
  let callsign := or_default (c_callsign c) [] in
  let ssid := or_default (c_ssid c) (-1) in
  ssid < 0 \/ 15 < ssid \/
    6 < len callsign \/
    (ascii_text callsign = true /\ len callsign < 3) \/
    (forall src, encode_ascii (upper callsign) = Some src ->
                 len src < 3 \/ 6 < len src) ->
  exists e,
    fst (__init__ now opens wr c fresh) = inl e /\
    is_ValueError e = true /\
    io_log (snd (__init__ now opens wr c fresh)) = [] /\
    serial (snd (__init__ now opens wr c fresh)) = None.
Proof.
  intros callsign ssid Hbad.
  destruct (c_port c) as [p|] eqn:Hp.
  2:{ unfold __init__. rewrite Hp. eexists. repeat split; reflexivity. }
  destruct (encode_ascii (upper callsign)) as [src|] eqn:Hsrc.
  2:{ unfold __init__. rewrite Hp. fold callsign. rewrite Hsrc.
      eexists. repeat split; reflexivity. }
  assert (Hchk : len src < 3 \/ 6 < len src \/ ssid < 0 \/ 15 < ssid).
  { destruct (encode_ascii_some _ _ Hsrc) as [-> Hup].
    destruct Hbad as [H|[H|[H|[[Ha H]|H]]]].
    - right; right; left; exact H.
    - right; right; right; exact H.
    - right; left. pose proof (upper_no_shorter callsign). lia.
    - left. unfold len in *. rewrite (upper_length callsign Ha). exact H.
    - destruct (H _ eq_refl) as [H3|H6]; [left | right; left]; assumption. }
  destruct (init_checks now opens wr c p src Hp Hsrc Hchk) as [msg [H1 [H2 H3]]].
  exists (ValueError msg). repeat split; assumption.
Qed.

(** The configuration with no [ssid] key, whose SSID defaults to -1. *)
Lemma init_rejects_invalid_witness :
  or_default (c_ssid (configuration_of "abc" None)) (-1) < 0 /\
  exists e,
    fst (__init__ 0%Q (Some true) writes_all (configuration_of "abc" None) fresh)
      = inl e /\
    is_ValueError e = true /\
    io_log (snd (__init__ 0%Q (Some true) writes_all (configuration_of "abc" None) fresh))
      = [] /\
    serial (snd (__init__ 0%Q (Some true) writes_all (configuration_of "abc" None) fresh))
      = None.
Proof.
  split; [reflexivity|].
  apply (init_rejects_invalid 0%Q (Some true) writes_all (configuration_of "abc" None)).
  left. reflexivity.
Defined.

(** C6 (as stated) fails: the two-character callsign [a], sharp s
    has the upper case [ASS], three characters, and is accepted; the port
    is opened and configured. *)
Lemma two_character_callsign_accepted :
  let c := mk_configuration "ax25" None None None None None
             (Some "/dev/ttyUSB0"%string) (Some [97; 0xDF]) (Some 5) in
  len (or_default (c_callsign c) []) = 2 /\
  or_default (c_ssid c) (-1) = 5 /\
  fst (__init__ 0%Q (Some true) writes_all c fresh) = inr tt /\
  src_call (snd (__init__ 0%Q (Some true) writes_all c fresh)) = [65; 83; 83] /\
  serial (snd (__init__ 0%Q (Some true) writes_all c fresh)) = Some true /\
  hd_error (io_log (snd (__init__ 0%Q (Some true) writes_all c fresh)))
    = Some (OpenPort "/dev/ttyUSB0").
Proof. vm_compute. repeat split; reflexivity. Qed.

Example init_rejects_ssid_16 :
  __init__ 0%Q (Some true) writes_all (configuration_of "abc" (Some 16)) fresh =
  (inl (ValueError "Invalid SSID for AX25KISSInterface[ax25]"),
   mk_iface "ax25" (Some "/dev/ttyUSB0"%string) [65; 66; 67] 16
            [65; 80; 90; 82; 78; 83] 0 564 100 false [] false false 5 0%Q
            0 0 0 0 None 0 0 []).
Proof. reflexivity. Qed.

Example init_rejects_long_callsign :
  fst (__init__ 0%Q (Some true) writes_all (configuration_of "abcdefg" (Some 1)) fresh) =
  inl (ValueError "Invalid callsign for AX25KISSInterface[ax25]").
Proof. reflexivity. Qed.

(** ** Single steps of the reader *)

Lemma process_incoming_long (data : bytes) (self : iface) :
  AX25.HEADER_SIZE < len data ->
  process_incoming data self =
  (inr tt, set_io_log (io_log self ++ [Inbound (skipn 16 data)])
                      (set_rxb (rxb self + len data) self)).
Proof.
  intros H. unfold process_incoming.
  destruct (Z.ltb_spec AX25.HEADER_SIZE (len data)); [reflexivity | lia].
Qed.

Lemma process_incoming_short (data : bytes) (self : iface) :
  len data <= AX25.HEADER_SIZE ->
  process_incoming data self = (inr tt, self).
Proof.
  intros H. unfold process_incoming.
  destruct (Z.ltb_spec AX25.HEADER_SIZE (len data)); [lia | reflexivity].
Qed.

(** C7: a delimiter met inside a data frame ends the frame.  The reader
    leaves the frame; the buffer goes to the owner without its first 16
    bytes when it is longer than 16 bytes, and nothing at all happens to
    the interface when it is not. *)
Theorem data_frame_end (wr : bytes -> Z) (now_ms : Z) (now : Q)
    (r : reader) (self : iface) :
  in_frame r = true ->
  command r = KISS.CMD_DATA ->
  let res := readLoop_body wr (Rx KISS.FEND now_ms now) r self in
  fst res = inr tt /\
  fst (snd res) = mk_reader false (escape r) (command r) (data_buffer r) now_ms /\
  (16 < len (data_buffer r) ->
     io_log (snd (snd res)) = io_log self ++ [Inbound (skipn 16 (data_buffer r))] /\
     rxb (snd (snd res)) = rxb self + len (data_buffer r)) /\
  (len (data_buffer r) <= 16 -> snd (snd res) = self).
Proof.
  intros Hin Hcmd res. subst res.
  unfold readLoop_body. cbn [in_frame command data_buffer escape last_read_ms].
  rewrite Hin, Hcmd. cbn [andb Z.eqb KISS.FEND KISS.CMD_DATA Pos.eqb].
  unfold with_locals.
  split; [|split; [reflexivity|split]].
  - unfold process_incoming.
    destruct (AX25.HEADER_SIZE <? len (data_buffer r)); reflexivity.
  - intros H. rewrite process_incoming_long by exact H. split; reflexivity.
  - intros H. rewrite process_incoming_short by exact H. reflexivity.
Qed.

Lemma data_frame_end_witness :
  let r := mk_reader true false KISS.CMD_DATA (header example_iface ++ [104; 105]) 0 in
  let res := readLoop_body writes_all (Rx KISS.FEND 7 0%Q) r example_iface in
  in_frame r = true /\ command r = KISS.CMD_DATA /\
  fst res = inr tt /\
  fst (snd res) = mk_reader false (escape r) (command r) (data_buffer r) 7 /\
  (16 < len (data_buffer r) ->
     io_log (snd (snd res)) =
       io_log example_iface ++ [Inbound (skipn 16 (data_buffer r))] /\
     rxb (snd (snd res)) = rxb example_iface + len (data_buffer r)) /\
  (len (data_buffer r) <= 16 -> snd (snd res) = example_iface).
Proof.
  intros r res. split; [reflexivity|]. split; [reflexivity|].
  apply (data_frame_end writes_all 7 0%Q r example_iface); reflexivity.
Defined.

(** A data frame whose buffer is exactly the header is dropped. *)
Example empty_payload_frame_dropped :
  readLoop_body writes_all (Rx KISS.FEND 7 0%Q)
    (mk_reader true false KISS.CMD_DATA (header example_iface) 0) example_iface =
  (inr tt, (mk_reader false false KISS.CMD_DATA (header example_iface) 7, example_iface)).
Proof. reflexivity. Qed.

(** The reader's locals are not touched by the flow-control part of an
    idle iteration. *)
Lemma idle_locals (wr : bytes -> Z) (now_ms : Z) (now_check now : Q)
    (r : reader) (self : iface) :
  fst (snd (readLoop_body wr (Idle now_ms now_check now) r self)) =
  if (0 <? len (data_buffer r)) && (timeout self <? now_ms - last_read_ms r)
  then mk_reader false false KISS.CMD_UNKNOWN [] (last_read_ms r)
  else r.
Proof.
  unfold readLoop_body, with_locals.
  destruct (flow_control self); [|reflexivity].
  destruct (negb (interface_ready self)); [|reflexivity].
  destruct (negb (Qle_bool _ _)); reflexivity.
Qed.

(** ** What the methods leave alone *)

Lemma setPreamble_outcome (wr : bytes -> Z) (x : Z) (s : iface) :
  command_outcome wr (timing_frame KISS.CMD_TXDELAY x) s (setPreamble wr x s).
Proof.
  unfold command_outcome, timing_frame, setPreamble, int_div10_or_raise.
  destruct (int_div10 x) as [v|]; [|reflexivity].
  run_M. unfold command_frame. cbn [app len List.length Z.of_nat Pos.of_succ_nat Pos.succ].
  destruct (Z.eqb_spec (wr [KISS.FEND; KISS.CMD_TXDELAY; clamp_byte v; KISS.FEND]) 4);
    [left | right]; (split; [assumption|]); [reflexivity | eexists; reflexivity].
Qed.

Lemma setTxTail_outcome (wr : bytes -> Z) (x : Z) (s : iface) :
  command_outcome wr (timing_frame KISS.CMD_TXTAIL x) s (setTxTail wr x s).
Proof.
  unfold command_outcome, timing_frame, setTxTail, int_div10_or_raise.
  destruct (int_div10 x) as [v|]; [|reflexivity].
  run_M. unfold command_frame. cbn [app len List.length Z.of_nat Pos.of_succ_nat Pos.succ].
  destruct (Z.eqb_spec (wr [KISS.FEND; KISS.CMD_TXTAIL; clamp_byte v; KISS.FEND]) 4);
    [left | right]; (split; [assumption|]); [reflexivity | eexists; reflexivity].
Qed.

Lemma setPersistence_outcome (wr : bytes -> Z) (x : Z) (s : iface) :
  command_outcome wr (Some (command_frame KISS.CMD_P (clamp_byte x))) s
                  (setPersistence wr x s).
Proof.
  unfold command_outcome, setPersistence.
  run_M. unfold command_frame. cbn [app len List.length Z.of_nat Pos.of_succ_nat Pos.succ].
  destruct (Z.eqb_spec (wr [KISS.FEND; KISS.CMD_P; clamp_byte x; KISS.FEND]) 4);
    [left | right]; (split; [assumption|]); [reflexivity | eexists; reflexivity].
Qed.

Lemma setSlotTime_outcome (wr : bytes -> Z) (x : Z) (s : iface) :
  command_outcome wr (timing_frame KISS.CMD_SLOTTIME x) s (setSlotTime wr x s).
Proof.
  unfold command_outcome, timing_frame, setSlotTime, int_div10_or_raise.
  destruct (int_div10 x) as [v|]; [|reflexivity].
  run_M. unfold command_frame. cbn [app len List.length Z.of_nat Pos.of_succ_nat Pos.succ].
  destruct (Z.eqb_spec (wr [KISS.FEND; KISS.CMD_SLOTTIME; clamp_byte v; KISS.FEND]) 4);
    [left | right]; (split; [assumption|]); [reflexivity | eexists; reflexivity].
Qed.

Lemma setFlowControl_outcome (wr : bytes -> Z) (fc : bool) (s : iface) :
  command_outcome wr (Some (command_frame KISS.CMD_READY 1)) s
                  (setFlowControl wr fc s).
Proof.
  unfold command_outcome, setFlowControl.
  run_M. unfold command_frame. cbn [app len List.length Z.of_nat Pos.of_succ_nat Pos.succ].
  destruct (Z.eqb_spec (wr [KISS.FEND; KISS.CMD_READY; 1; KISS.FEND]) 4);
    [left | right]; (split; [assumption|]); [reflexivity|].
  destruct fc; eexists; reflexivity.
Qed.

(** [configure_device] as the chain of its five commands. *)
Lemma configure_device_chain (wr : bytes -> Z) (s : iface) :
  configure_device wr s =
  let s0 := set_online true (set_io_log (io_log s ++ [StartReader]) s) in
  match setPreamble wr (preamble s) s0 with
  | (inl e, s1) => (inl e, s1)
  | (inr _, s1) =>
    match setTxTail wr (txtail s) s1 with
    | (inl e, s2) => (inl e, s2)
    | (inr _, s2) =>
      match setPersistence wr (persistence s) s2 with
      | (inl e, s3) => (inl e, s3)
      | (inr _, s3) =>
        match setSlotTime wr (slottime s) s3 with
        | (inl e, s4) => (inl e, s4)
        | (inr _, s4) =>
          match setFlowControl wr (flow_control s) s4 with
          | (inl e, s5) => (inl e, s5)
          | (inr _, s5) => (inr tt, set_interface_ready true s5)
          end
        end
      end
    end
  end.
Proof.
  unfold configure_device. cbv [bind gets modify log_io]. fields. cbv zeta.
  pose proof (setPreamble_outcome wr (preamble s)
                (set_online true (set_io_log (io_log s ++ [StartReader]) s))) as O1.
  destruct (setPreamble wr (preamble s) _) as [[e|[]] s1]; [reflexivity|].
  assert (E1 : txtail s1 = txtail s /\ persistence s1 = persistence s /\
               slottime s1 = slottime s /\ flow_control s1 = flow_control s).
  { unfold command_outcome in O1.
    destruct (timing_frame _ _); [|discriminate].
    destruct O1 as [[_ O1]|[_ [msg O1]]]; [|discriminate].
    injection O1 as ->. repeat split. }
  destruct E1 as (-> & E1p & E1s & E1f). clear O1.
  pose proof (setTxTail_outcome wr (txtail s) s1) as O2.
  destruct (setTxTail wr (txtail s) s1) as [[e|[]] s2]; [reflexivity|].
  assert (E2 : persistence s2 = persistence s /\
               slottime s2 = slottime s /\ flow_control s2 = flow_control s).
  { unfold command_outcome in O2.
    destruct (timing_frame _ _); [|discriminate].
    destruct O2 as [[_ O2]|[_ [msg O2]]]; [|discriminate].
    injection O2 as ->. repeat split; assumption. }
  destruct E2 as (-> & E2s & E2f). clear O2.
  pose proof (setPersistence_outcome wr (persistence s) s2) as O3.
  destruct (setPersistence wr (persistence s) s2) as [[e|[]] s3]; [reflexivity|].
  assert (E3 : slottime s3 = slottime s /\ flow_control s3 = flow_control s).
  { unfold command_outcome in O3.
    destruct O3 as [[_ O3]|[_ [msg O3]]]; [|discriminate].
    injection O3 as ->. repeat split; assumption. }
  destruct E3 as (-> & E3f). clear O3.
  pose proof (setSlotTime_outcome wr (slottime s) s3) as O4.
  destruct (setSlotTime wr (slottime s) s3) as [[e|[]] s4]; [reflexivity|].
  assert (E4 : flow_control s4 = flow_control s).
  { unfold command_outcome in O4.
    destruct (timing_frame _ _); [|discriminate].
    destruct O4 as [[_ O4]|[_ [msg O4]]]; [|discriminate].
    injection O4 as ->. assumption. }
  rewrite E4.
  destruct (setFlowControl wr (flow_control s) s4) as [[e|[]] s5]; reflexivity.
Qed.

Lemma configure_device_spec (wr : bytes -> Z) (s : iface) :
  let res := configure_device wr s in
  settings (snd res) = settings s /\
  packet_queue (snd res) = packet_queue s /\
  serial (snd res) = serial s /\
  online (snd res) = true /\
  (fst res = inr tt -> interface_ready (snd res) = true) /\
  (interface_ready s = true -> interface_ready (snd res) = true).
Proof.
  cbv zeta. rewrite configure_device_chain. cbv zeta.
  set (s0 := set_online true (set_io_log (io_log s ++ [StartReader]) s)).
  assert (B : forall fr t res,
             command_outcome wr fr t res ->
             settings (snd res) = settings t /\
             packet_queue (snd res) = packet_queue t /\
             serial (snd res) = serial t /\ online (snd res) = online t /\
             interface_ready (snd res) = interface_ready t).
  { intros fr t res O. unfold command_outcome in O.
    destruct fr as [f|]; [destruct O as [[_ ->]|[_ [msg ->]]] | rewrite O];
      repeat split. }
  pose proof (B _ _ _ (setPreamble_outcome wr (preamble s) s0)) as B1.
  destruct (setPreamble wr (preamble s) s0) as [[e|[]] s1]; fields.
  { destruct B1 as (-> & -> & -> & -> & ->). subst s0.
    repeat split; auto; discriminate. }
  pose proof (B _ _ _ (setTxTail_outcome wr (txtail s) s1)) as B2.
  destruct (setTxTail wr (txtail s) s1) as [[e|[]] s2]; fields.
  { destruct B2 as (-> & -> & -> & -> & ->).
    destruct B1 as (-> & -> & -> & -> & ->). subst s0.
    repeat split; auto; discriminate. }
  pose proof (B _ _ _ (setPersistence_outcome wr (persistence s) s2)) as B3.
  destruct (setPersistence wr (persistence s) s2) as [[e|[]] s3]; fields.
  { destruct B3 as (-> & -> & -> & -> & ->).
    destruct B2 as (-> & -> & -> & -> & ->).
    destruct B1 as (-> & -> & -> & -> & ->). subst s0.
    repeat split; auto; discriminate. }
  pose proof (B _ _ _ (setSlotTime_outcome wr (slottime s) s3)) as B4.
  destruct (setSlotTime wr (slottime s) s3) as [[e|[]] s4]; fields.
  { destruct B4 as (-> & -> & -> & -> & ->).
    destruct B3 as (-> & -> & -> & -> & ->).
    destruct B2 as (-> & -> & -> & -> & ->).
    destruct B1 as (-> & -> & -> & -> & ->). subst s0.
    repeat split; auto; discriminate. }
  pose proof (B _ _ _ (setFlowControl_outcome wr (flow_control s) s4)) as B5.
  destruct (setFlowControl wr (flow_control s) s4) as [[e|[]] s5]; fields.
  { destruct B5 as (-> & -> & -> & -> & ->).
    destruct B4 as (-> & -> & -> & -> & ->).
    destruct B3 as (-> & -> & -> & -> & ->).
    destruct B2 as (-> & -> & -> & -> & ->).
    destruct B1 as (-> & -> & -> & -> & ->). subst s0.
    repeat split; auto; discriminate. }
  destruct B5 as (E5 & -> & -> & -> & _).
  destruct B4 as (E4 & -> & -> & -> & _).
  destruct B3 as (E3 & -> & -> & -> & _).
  destruct B2 as (E2 & -> & -> & -> & _).
  destruct B1 as (E1 & -> & -> & -> & _). subst s0.
  unfold settings in *. fields.
  rewrite E5, E4, E3, E2, E1. repeat split; auto.
Qed.

Lemma open_port_spec (opens : option bool) (s : iface) :
  let res := open_port opens s in
  settings (snd res) = settings s /\
  packet_queue (snd res) = packet_queue s /\
  online (snd res) = online s /\
  interface_ready (snd res) = interface_ready s /\
  (fst res = inr tt -> serial (snd res) = opens).
Proof.
  unfold open_port. run_M. destruct opens; cbn; repeat split; auto; discriminate.
Qed.

(** What a successful construction leaves. *)
Lemma init_success (now : Q) (opens : option bool) (wr : bytes -> Z)
    (c : configuration) :
  fst (__init__ now opens wr c fresh) = inr tt ->
  let s := snd (__init__ now opens wr c fresh) in
  HW_MTU s = 564 /\ timeout s = 100 /\ flow_control_timeout s = 5 /\
  flow_control s = or_default (c_flow_control c) false /\
  dst_call s = [65; 80; 90; 82; 78; 83] /\ dst_ssid s = 0 /\
  0 <= src_ssid s <= 15 /\ 3 <= len (src_call s) <= 6 /\
  Forall (fun c => 0 <= c < 128) (src_call s) /\
  online s = true /\ interface_ready s = true /\ packet_queue s = [] /\
  serial s = Some true.
Proof.
  remember (__init__ now opens wr c fresh) as res eqn:E.
  intros Hres s. subst s. unfold __init__ in E.
  destruct (c_port c) as [p|]; [|subst res; discriminate].
  destruct (encode_ascii (upper (or_default (c_callsign c) [])))
    as [src|] eqn:Henc; [|subst res; discriminate].
  assert (Hsrc : Forall (fun c => 0 <= c < 128) src).
  { destruct (encode_ascii_some _ _ Henc) as [-> Ha].
    now apply ascii_text_range. }
  cbv [bind modify gets raise] in E. cbn [src_call src_ssid] in E.
  destruct ((len src <? 3) || (6 <? len src)) eqn:Hcall; [subst res; discriminate|].
  destruct ((or_default (c_ssid c) (-1) <? 0) || (15 <? or_default (c_ssid c) (-1)))
    eqn:Hssid; [subst res; discriminate|].
  apply orb_false_iff in Hcall. destruct Hcall as [H3 H6].
  apply Z.ltb_ge in H3. apply Z.ltb_ge in H6.
  apply orb_false_iff in Hssid. destruct Hssid as [H0 H15].
  apply Z.ltb_ge in H0. apply Z.ltb_ge in H15.
  match type of E with context [open_port opens ?s0] => set (s1 := s0) in E end.
  pose proof (open_port_spec opens s1) as Hop. cbv zeta in Hop.
  destruct (open_port opens s1) as [[e|[]] s2] eqn:Eop; [subst res; discriminate|].
  cbn [fst snd] in Hop. destruct Hop as (Hset & Hq & Hon & Hrdy & Hser).
  specialize (Hser eq_refl).
  unfold serial_is_open in E. rewrite Hser in E.
  destruct opens as [[|]|]; try (subst res; discriminate).
  pose proof (configure_device_spec wr s2) as Hcd. cbv zeta in Hcd.
  rewrite <- E in Hcd. destruct Hcd as (Hset' & Hq' & Hser' & Hon' & Hrdy' & _).
  specialize (Hrdy' Hres).
  rewrite Hset in Hset'. unfold settings in Hset'. subst s1. cbn in Hset'.
  injection Hset' as E1 E2 E3 E4 E5 E6 E7 E8 E9 E10.
  rewrite ?E1, ?E2, ?E3, ?E4, ?E5, ?E6, ?E7, ?E8, ?E9, ?E10, Hq', Hq, Hser', Hser.
  cbn. repeat split; auto; lia.
Qed.

(** ** The idle time-out *)

(** C8: in an iteration that finds no input, a reader that holds bytes and
    has read nothing for longer than [self.timeout] milliseconds drops the
    buffer and is idle again, with the command unknown and the escape flag
    down; a reader with an empty buffer, or one that read recently, keeps
    its locals.  [__init__] sets the time-out to 100 ms. *)
Theorem idle_timeout_resets (wr : bytes -> Z) (now_ms : Z) (now_check now : Q)
    (r : reader) (self : iface) :
  let r' := fst (snd (readLoop_body wr (Idle now_ms now_check now) r self)) in
  (data_buffer r <> [] -> timeout self < now_ms - last_read_ms r ->
     r' = mk_reader false false KISS.CMD_UNKNOWN [] (last_read_ms r)) /\
  (data_buffer r = [] -> r' = r) /\
  (now_ms - last_read_ms r <= timeout self -> r' = r) /\
  (forall t opens w c,
     fst (__init__ t opens w c fresh) = inr tt ->
     timeout (snd (__init__ t opens w c fresh)) = 100).
Proof.
  intros r'. subst r'. rewrite idle_locals. repeat split.
  - intros Hbuf Hlate.
    destruct (data_buffer r) as [|b l] eqn:Eb; [contradiction|].
    destruct (Z.ltb_spec (timeout self) (now_ms - last_read_ms r)); [|lia].
    reflexivity.
  - intros ->. reflexivity.
  - intros Hrecent.
    destruct (Z.ltb_spec (timeout self) (now_ms - last_read_ms r)); [lia|].
    now rewrite andb_false_r.
  - intros t opens w c H. now apply init_success.
Qed.

Lemma idle_timeout_resets_witness :
  let stuck := mk_reader true true KISS.CMD_DATA [0x82; 0xA0] 1000 in
  let empty := mk_reader true true KISS.CMD_DATA [] 1000 in
  data_buffer stuck <> [] /\
  timeout example_iface < 1101 - last_read_ms stuck /\
  fst (snd (readLoop_body writes_all (Idle 1101 0%Q 0%Q) stuck example_iface)) =
    mk_reader false false KISS.CMD_UNKNOWN [] 1000 /\
  data_buffer empty = [] /\
  fst (snd (readLoop_body writes_all (Idle 1101 0%Q 0%Q) empty example_iface)) = empty.
Proof.
  intros stuck empty.
  assert (Hbuf : data_buffer stuck <> []) by discriminate.
  assert (Hlate : timeout example_iface < 1101 - last_read_ms stuck) by reflexivity.
  split; [exact Hbuf|]. split; [exact Hlate|]. split.
  - exact (proj1 (idle_timeout_resets writes_all 1101 0%Q 0%Q stuck example_iface)
             Hbuf Hlate).
  - split; [reflexivity|].
    exact (proj1 (proj2 (idle_timeout_resets writes_all 1101 0%Q 0%Q empty example_iface))
             eq_refl).
Defined.

(** ** The escape flag at a frame boundary *)

(** C10 (evaluation): after the bytes C0 00 DB C0 C0 the reader is at the
    start of a new frame with the escape flag still up, and the first data
    byte DC of that frame is stored as C0. *)
Theorem escape_flag_crosses_frame_boundary :
  fst (snd (readLoop_run writes_all (rx_all [0xC0; 0x00; 0xDB; 0xC0; 0xC0])
              (reader_start 0) example_iface))
    = mk_reader true true KISS.CMD_UNKNOWN [] 0 /\
  fst (snd (readLoop_run writes_all (rx_all [0xC0; 0x00; 0xDB; 0xC0; 0xC0; 0x00; 0xDC])
              (reader_start 0) example_iface))
    = mk_reader true false KISS.CMD_DATA [0xC0] 0.
Proof. split; reflexivity. Qed.

(** ** Sending *)

Lemma kiss_frame_same (s s' : iface) (data : bytes) :
  settings s' = settings s -> kiss_frame s' data = kiss_frame s data.
Proof.
  unfold settings. intros H. injection H as E1 E2 E3 E4 E5 E6 E7 E8 E9 E10.
  unfold kiss_frame, header, address. now rewrite E3, E4, E5, E6.
Qed.

(** What [process_outgoing] does on an interface that is online and ready. *)
Lemma process_outgoing_sends (wr : bytes -> Z) (now : Q) (data : bytes) (self : iface) :
  online self = true ->
  interface_ready self = true ->
  process_outgoing wr now data self =
  let s1 := if flow_control self
            then set_flow_control_locked now (set_interface_ready false self)
            else self in
  let frame := kiss_frame self data in
  let s2 := set_txb (txb s1 + len data) (set_io_log (io_log s1 ++ [Write frame]) s1) in
  if negb (wr frame =? len frame) then
    (inl (IOError ("AX.25 interface only wrote " ++ str (wr frame)
                   ++ " bytes of " ++ str (len frame))%string),
     if flow_control self then set_interface_ready true s2 else s2)
  else (inr tt, s2).
Proof.
  intros Hon Hrdy. unfold process_outgoing. run_M. rewrite Hon, Hrdy.
  destruct (flow_control self) eqn:Hfc; cbn [flow_control set_interface_ready
    set_flow_control_locked set_io_log set_txb].
  - change (kiss_frame (set_flow_control_locked now (set_interface_ready false self)) data)
      with (kiss_frame self data).
    destruct (negb (wr (kiss_frame self data) =? len (kiss_frame self data)));
      reflexivity.
  - destruct (negb (wr (kiss_frame self data) =? len (kiss_frame self data)));
      reflexivity.
Qed.

(** C9: when the transport reports fewer bytes written than the frame has,
    [process_outgoing] raises [IOError] for this call; the frame was handed
    to the transport once and the transmit queue is as it was. *)
Theorem partial_write_raises (wr : bytes -> Z) (now : Q) (data : bytes) (self : iface) :
  online self = true ->
  interface_ready self = true ->
  wr (kiss_frame self data) < len (kiss_frame self data) ->
  let res := process_outgoing wr now data self in
  (exists msg, fst res = inl (IOError msg)) /\
  packet_queue (snd res) = packet_queue self /\
  io_log (snd res) = io_log self ++ [Write (kiss_frame self data)].
Proof.
  intros Hon Hrdy Hshort res. subst res.
  rewrite process_outgoing_sends by assumption. cbv zeta.
  destruct (Z.eqb_spec (wr (kiss_frame self data)) (len (kiss_frame self data)));
    [lia|]. cbn [negb fst snd].
  split; [eexists; reflexivity|].
  destruct (flow_control self); split; reflexivity.
Qed.

Lemma partial_write_raises_witness :
  let wr := fun _ : bytes => 3 in
  let res := process_outgoing wr 0%Q [104; 105] example_iface in
  online example_iface = true /\
  interface_ready example_iface = true /\
  wr (kiss_frame example_iface [104; 105]) < len (kiss_frame example_iface [104; 105]) /\
  (exists msg, fst res = inl (IOError msg)) /\
  packet_queue (snd res) = packet_queue example_iface /\
  io_log (snd res) = io_log example_iface ++ [Write (kiss_frame example_iface [104; 105])].
Proof.
  intros wr res. split; [reflexivity|]. split; [reflexivity|]. split; [reflexivity|].
  apply (partial_write_raises wr 0%Q [104; 105] example_iface); reflexivity.
Defined.

Example partial_write_message :
  fst (process_outgoing (fun _ => 3) 0%Q [104; 105] example_iface) =
  inl (IOError "AX.25 interface only wrote 3 bytes of 21").
Proof. reflexivity. Qed.

(** ** Flow control switched off *)

Lemma steady_refl (s : iface) : steady s s.
Proof. split; auto. Qed.

Lemma process_outgoing_steady (wr : bytes -> Z) (now : Q) (data : bytes) (s : iface) :
  steady s (snd (process_outgoing wr now data s)).
Proof.
  unfold steady, always_ready, process_outgoing, queue. run_M.
  destruct (online s) eqn:Hon; [|fields; auto].
  destruct (interface_ready s) eqn:Hrdy.
  - destruct (flow_control s) eqn:Hfc; fields.
    + destruct (negb _); fields; rewrite ?Hfc; split; auto; discriminate.
    + destruct (negb _); fields; rewrite ?Hfc, ?Hrdy; split; auto.
  - fields. split; [reflexivity|]. intros H Hfc. destruct (H Hfc). discriminate.
Qed.

Lemma process_queue_steady (wr : bytes -> Z) (now : Q) (s : iface) :
  steady s (snd (process_queue wr now s)).
Proof.
  unfold process_queue. run_M.
  destruct (packet_queue s) as [|data rest] eqn:Hq.
  - unfold steady, always_ready. fields. rewrite Hq. auto.
  - pose proof (process_outgoing_steady wr now data
                  (set_interface_ready true (set_packet_queue rest s))) as [Hs Hr].
    split.
    + rewrite Hs. reflexivity.
    + intros H Hfc'. destruct (process_outgoing wr now data _) as [res s'].
      fields. unfold always_ready in *.
      assert (Hfc : flow_control s = false).
      { unfold settings in Hs. injection Hs as E1 E2 E3 E4 E5 E6 E7 E8 E9 E10.
        fields. congruence. }
      destruct (H Hfc) as [_ Hnil]. rewrite Hq in Hnil. discriminate.
Qed.

Lemma process_incoming_steady (data : bytes) (s : iface) :
  steady s (snd (process_incoming data s)).
Proof.
  unfold process_incoming. run_M.
  destruct (AX25.HEADER_SIZE <? len data); [|apply steady_refl].
  unfold steady, always_ready. fields. auto.
Qed.

Lemma readLoop_body_steady (wr : bytes -> Z) (ev : event) (r : reader) (s : iface) :
  steady s (snd (snd (readLoop_body wr ev r s))).
Proof.
  unfold readLoop_body, with_locals.
  destruct ev as [byte now_ms now | now_ms now_check now];
    split_ifs; cbn [fst snd];
    first [apply steady_refl | apply process_incoming_steady
          | apply process_queue_steady].
Qed.

Lemma readLoop_exit_steady (s : iface) : steady s (snd (readLoop_exit s)).
Proof.
  unfold readLoop_exit, serial_close, steady, always_ready. run_M. fields. auto.
Qed.

Lemma reconnect_attempt_steady (opens : option bool) (wr : bytes -> Z) (s : iface) :
  steady s (snd (reconnect_attempt opens wr s)).
Proof.
  unfold reconnect_attempt, try_pass. cbn [snd]. unfold bind at 1.
  pose proof (open_port_spec opens s) as Hop. cbv zeta in Hop.
  destruct (open_port opens s) as [[e|[]] s1]; cbn [fst snd] in Hop |- *;
    destruct Hop as (Hset & Hq & Hon & Hrdy & _).
  - unfold steady, always_ready. rewrite Hq, Hrdy. split; [exact Hset|].
    unfold settings in Hset. injection Hset as E1 E2 E3 E4 E5 E6 E7 E8 E9 E10.
    rewrite E9. auto.
  - unfold bind, gets.
    assert (H1 : steady s s1).
    { unfold steady, always_ready. rewrite Hq, Hrdy. split; [exact Hset|].
      unfold settings in Hset. injection Hset as E1 E2 E3 E4 E5 E6 E7 E8 E9 E10.
      rewrite E9. auto. }
    destruct (serial_is_open s1); [|exact H1].
    pose proof (configure_device_spec wr s1) as Hcd. cbv zeta in Hcd.
    destruct Hcd as (Hset' & Hq' & _ & _ & _ & Hrdy').
    destruct H1 as [H1s H1r]. split; [now rewrite Hset'|].
    intros H Hfc. unfold always_ready in *.
    assert (Hfc1 : flow_control s1 = false).
    { unfold settings in Hset'. injection Hset' as E1 E2 E3 E4 E5 E6 E7 E8 E9 E10.
      congruence. }
    assert (Hfc0 : flow_control s = false).
    { unfold settings in H1s. injection H1s as E1 E2 E3 E4 E5 E6 E7 E8 E9 E10.
      congruence. }
    destruct (H1r H Hfc1) as [Hr1 Hq1]. split; [now apply Hrdy'|].
    now rewrite Hq'.
Qed.

Lemma reachable_always_ready (s : iface) : reachable s -> always_ready s.
Proof.
  induction 1 as [now opens wr c Hok | s wr now data _ IH | s wr ev r _ IH _
                 | s _ IH | s opens wr _ IH _].
  - intros _. pose proof (init_success now opens wr c Hok) as H. cbv zeta in H.
    tauto.
  - now apply process_outgoing_steady.
  - now apply readLoop_body_steady.
  - now apply readLoop_exit_steady.
  - now apply reconnect_attempt_steady.
Qed.

(** An interface that is online has its port open. *)
Lemma process_outgoing_keeps (wr : bytes -> Z) (now : Q) (data : bytes) (s : iface) :
  online (snd (process_outgoing wr now data s)) = online s /\
  serial (snd (process_outgoing wr now data s)) = serial s.
Proof.
  unfold process_outgoing, queue. run_M.
  destruct (online s) eqn:Hon; [|fields; auto].
  destruct (interface_ready s); [|fields; auto].
  destruct (flow_control s); fields; destruct (negb _); fields; auto.
Qed.

Lemma process_queue_keeps (wr : bytes -> Z) (now : Q) (s : iface) :
  online (snd (process_queue wr now s)) = online s /\
  serial (snd (process_queue wr now s)) = serial s.
Proof.
  unfold process_queue. run_M.
  destruct (packet_queue s) as [|data rest]; [fields; auto|].
  destruct (process_outgoing_keeps wr now data
              (set_interface_ready true (set_packet_queue rest s))) as [-> ->].
  fields. auto.
Qed.

Lemma readLoop_body_keeps (wr : bytes -> Z) (ev : event) (r : reader) (s : iface) :
  online (snd (snd (readLoop_body wr ev r s))) = online s /\
  serial (snd (snd (readLoop_body wr ev r s))) = serial s.
Proof.
  assert (Hq : forall t, online (snd (process_queue wr t s)) = online s /\
                         serial (snd (process_queue wr t s)) = serial s).
  { intros t. pose proof (process_queue_keeps wr t s) as H. exact H. }
  assert (Hi : forall d, online (snd (process_incoming d s)) = online s /\
                         serial (snd (process_incoming d s)) = serial s).
  { intros d. unfold process_incoming. run_M.
    destruct (AX25.HEADER_SIZE <? len d); fields; auto. }
  unfold readLoop_body, with_locals.
  destruct ev as [byte now_ms now | now_ms now_check now];
    split_ifs; cbn [fst snd]; auto.
Qed.

Lemma reachable_online_open (s : iface) :
  reachable s -> online s = true -> serial_is_open s = true.
Proof.
  unfold serial_is_open.
  induction 1 as [now opens wr c Hok | s wr now data _ IH | s wr ev r _ IH _
                 | s _ IH | s opens wr _ IH Hoff].
  - intros _. pose proof (init_success now opens wr c Hok) as H. cbv zeta in H.
    destruct H as (_ & _ & _ & _ & _ & _ & _ & _ & _ & _ & _ & _ & ->). reflexivity.
  - destruct (process_outgoing_keeps wr now data s) as [-> ->]. exact IH.
  - destruct (readLoop_body_keeps wr ev r s) as [-> ->]. exact IH.
  - unfold readLoop_exit, serial_close. run_M. fields. discriminate.
  - unfold reconnect_attempt, open_port. run_M. unfold serial_is_open.
    destruct opens as [[|]|]; fields.
    + match goal with |- context [configure_device wr ?s0] => set (s1 := s0) end.
      pose proof (configure_device_spec wr s1) as Hcd. cbv zeta in Hcd.
      destruct Hcd as (_ & _ & -> & _). intros _. reflexivity.
    + rewrite Hoff. discriminate.
    + rewrite Hoff. discriminate.
Qed.

(** C5: with flow control off, in every state the interface reaches once
    it is constructed the ready flag is up and the transmit queue is empty,
    and a [process_outgoing] on the online interface, whose port is then
    open, hands the frame to the transport in that call and leaves the
    queue empty. *)
Theorem no_flow_control_sends_at_once (s : iface) :
  reachable s ->
  flow_control s = false ->
  interface_ready s = true /\
  packet_queue s = [] /\
  (online s = true ->
   serial_is_open s = true /\
   forall wr now data,
     io_log (snd (process_outgoing wr now data s)) =
       io_log s ++ [Write (kiss_frame s data)] /\
     interface_ready (snd (process_outgoing wr now data s)) = true /\
     packet_queue (snd (process_outgoing wr now data s)) = []).
Proof.
  intros Hreach Hfc.
  destruct (reachable_always_ready s Hreach Hfc) as [Hrdy Hq].
  split; [exact Hrdy|]. split; [exact Hq|].
  intros Hon. split; [now apply reachable_online_open|]. intros wr now data.
  rewrite process_outgoing_sends by assumption. cbv zeta. rewrite Hfc.
  destruct (negb _); fields; rewrite ?Hrdy, ?Hq; repeat split; reflexivity.
Qed.

Lemma example_iface_reachable : reachable example_iface.
Proof.
  apply (reach_init 0%Q (Some true) writes_all (configuration_of "abc" (Some 5))).
  reflexivity.
Qed.

Lemma no_flow_control_sends_at_once_witness :
  flow_control example_iface = false /\
  interface_ready example_iface = true /\
  packet_queue example_iface = [] /\
  (online example_iface = true ->
   serial_is_open example_iface = true /\
   forall wr now data,
     io_log (snd (process_outgoing wr now data example_iface)) =
       io_log example_iface ++ [Write (kiss_frame example_iface data)] /\
     interface_ready (snd (process_outgoing wr now data example_iface)) = true /\
     packet_queue (snd (process_outgoing wr now data example_iface)) = []).
Proof.
  split; [reflexivity|].
  apply (no_flow_control_sends_at_once example_iface).
  - apply (reach_init 0%Q (Some true) writes_all (configuration_of "abc" (Some 5))).
    reflexivity.
  - reflexivity.
Defined.

(** ** Running the reader over a stream *)

Lemma rx_inv (evs : list event) (b : Z) (rest : list (option Z)) :
  map rx_byte evs = Some b :: rest ->
  exists ms t evs', evs = Rx b ms t :: evs' /\ map rx_byte evs' = rest.
Proof.
  intros H. apply map_eq_cons in H. destruct H as (ev & evs' & -> & Hb & Hrest).
  destruct ev as [b' ms t | ms tc t]; [|discriminate].
  injection Hb as ->. now exists ms, t, evs'.
Qed.

Lemma readLoop_run_app (wr : bytes -> Z) (e1 e2 : list event) (r : reader) (s : iface) :
  readLoop_run wr (e1 ++ e2) r s =
  match readLoop_run wr e1 r s with
  | (inl e, rs) => (inl e, rs)
  | (inr _, (r', s')) => readLoop_run wr e2 r' s'
  end.
Proof.
  revert r s. induction e1 as [|ev e1 IH]; intros r s; cbn [app readLoop_run].
  - reflexivity.
  - destruct (serial_is_open s) eqn:Hopen.
    + destruct (readLoop_body wr ev r s) as [[e|u] [r' s']]; [reflexivity | apply IH].
    + destruct e2 as [|ev2 e2]; cbn [readLoop_run]; [|rewrite Hopen]; reflexivity.
Qed.

(** A delimiter met outside a data frame starts a frame. *)
Lemma body_frame_start (wr : bytes -> Z) (ms : Z) (t : Q) (r : reader) (s : iface) :
  between_frames r ->
  readLoop_body wr (Rx KISS.FEND ms t) r s =
  (inr tt, (mk_reader true (escape r) KISS.CMD_UNKNOWN [] ms, s)).
Proof.
  intros Hb. unfold readLoop_body. cbn [in_frame command escape data_buffer last_read_ms].
  rewrite Z.eqb_refl.
  destruct Hb as [Hin | Hcmd].
  - rewrite Hin. reflexivity.
  - destruct (Z.eqb_spec (command r) KISS.CMD_DATA); [contradiction|].
    now rewrite andb_false_r.
Qed.

(** The first byte of a frame gives the command. *)
Lemma body_command (wr : bytes -> Z) (b ms : Z) (t : Q) (esc : bool) (ms0 : Z) (s : iface) :
  b <> KISS.FEND ->
  0 < HW_MTU s + AX25.HEADER_SIZE ->
  readLoop_body wr (Rx b ms t) (mk_reader true esc KISS.CMD_UNKNOWN [] ms0) s =
  (inr tt, (mk_reader true esc (Z.land b 0x0F) [] ms, s)).
Proof.
  intros Hb Hcap. unfold readLoop_body.
  cbn [in_frame command escape data_buffer last_read_ms].
  destruct (Z.eqb_spec b KISS.FEND); [contradiction|].
  change (len (@nil Z)) with 0.
  destruct (Z.ltb_spec 0 (HW_MTU s + AX25.HEADER_SIZE)); [|lia].
  reflexivity.
Qed.

(** A byte that follows a ready command asks for the queue to be drained. *)
Lemma body_ready (wr : bytes -> Z) (v ms : Z) (t : Q) (esc : bool) (ms0 : Z) (s : iface) :
  v <> KISS.FEND ->
  0 < HW_MTU s + AX25.HEADER_SIZE ->
  readLoop_body wr (Rx v ms t) (mk_reader true esc KISS.CMD_READY [] ms0) s =
  with_locals (mk_reader true esc KISS.CMD_READY [] ms) (process_queue wr t s).
Proof.
  intros Hv Hcap. unfold readLoop_body.
  cbn [in_frame command escape data_buffer last_read_ms].
  destruct (Z.eqb_spec v KISS.FEND); [contradiction|].
  change (len (@nil Z)) with 0.
  destruct (Z.ltb_spec 0 (HW_MTU s + AX25.HEADER_SIZE)); [|lia].
  reflexivity.
Qed.

(** ** The ready signal and the transmit queue *)

Lemma process_queue_eq (wr : bytes -> Z) (now : Q) (s : iface) :
  process_queue wr now s =
  match packet_queue s with
  | [] => (inr tt, set_interface_ready true s)
  | data :: rest =>
      process_outgoing wr now data (set_interface_ready true (set_packet_queue rest s))
  end.
Proof. unfold process_queue. run_M. destruct (packet_queue s); reflexivity. Qed.

Lemma process_queue_spec (wr : bytes -> Z) (now : Q) (s : iface) :
  let res := process_queue wr now s in
  settings (snd res) = settings s /\
  serial (snd res) = serial s /\
  online (snd res) = online s /\
  packet_queue (snd res) = tl (packet_queue s) /\
  io_log (snd res) =
    io_log s ++ match packet_queue s with
                | data :: _ => if online s then [Write (kiss_frame s data)] else []
                | [] => []
                end /\
  ((forall f, wr f = len f) -> fst res = inr tt).
Proof.
  intros res. subst res. rewrite process_queue_eq.
  destruct (packet_queue s) as [|data rest] eqn:Hq.
  - fields. rewrite app_nil_r. repeat split; auto.
  - set (s1 := set_interface_ready true (set_packet_queue rest s)).
    assert (Hk : kiss_frame s1 data = kiss_frame s data) by reflexivity.
    destruct (online s) eqn:Hon.
    + rewrite process_outgoing_sends by (reflexivity || exact Hon).
      cbv zeta. rewrite Hk.
      destruct (flow_control s1) eqn:Hfc;
        destruct (Z.eqb_spec (wr (kiss_frame s data)) (len (kiss_frame s data)))
          as [Hw|Hw]; subst s1; fields; repeat split; auto;
        intros Hall; elim Hw; apply Hall.
    + unfold process_outgoing. run_M. subst s1. fields. rewrite Hon.
      fields. rewrite app_nil_r. repeat split; auto.
Qed.

Lemma ready_command_not_delimiter (c : Z) :
  Z.land c 0x0F = KISS.CMD_READY -> c <> KISS.FEND.
Proof. intros H ->. vm_compute in H. discriminate. Qed.

(** One ready frame makes one call of [process_queue]. *)
Lemma ready_frame_run (wr : bytes -> Z) (evs : list event) (r : reader) (s : iface) :
  is_ready_frame evs ->
  between_frames r ->
  serial_is_open s = true ->
  0 < HW_MTU s + AX25.HEADER_SIZE ->
  exists t r',
    between_frames r' /\
    readLoop_run wr evs r s = (fst (process_queue wr t s), (r', snd (process_queue wr t s))).
Proof.
  intros (c & v & Hevs & Hc & Hv) Hr Hopen Hcap.
  apply rx_inv in Hevs. destruct Hevs as (m1 & t1 & evs1 & -> & Hevs).
  apply rx_inv in Hevs. destruct Hevs as (m2 & t2 & evs2 & -> & Hevs).
  apply rx_inv in Hevs. destruct Hevs as (m3 & t3 & evs3 & -> & Hevs).
  apply rx_inv in Hevs. destruct Hevs as (m4 & t4 & evs4 & -> & Hevs).
  destruct evs4; [|discriminate].
  pose proof (ready_command_not_delimiter c Hc) as Hc'.
  exists t3. cbn [readLoop_run]. rewrite Hopen.
  rewrite body_frame_start by exact Hr. rewrite Hopen.
  rewrite body_command by assumption. rewrite Hopen. rewrite Hc.
  rewrite body_ready by assumption. unfold with_locals.
  pose proof (process_queue_spec wr t3 s) as Hpq. cbv zeta in Hpq.
  destruct (process_queue wr t3 s) as [[e|[]] s'] eqn:Epq; cbn [fst snd] in *.
  - eexists. split; [|reflexivity]. right. discriminate.
  - destruct Hpq as (_ & Hser & _).
    unfold serial_is_open in *. rewrite Hser, Hopen.
    rewrite body_frame_start by (right; discriminate).
    eexists. split; [|reflexivity]. right. discriminate.
Qed.

Lemma settings_HW_MTU (s s' : iface) : settings s' = settings s -> HW_MTU s' = HW_MTU s.
Proof.
  unfold settings. intros H. injection H as E1 E2 E3 E4 E5 E6 E7 E8 E9 E10. exact E7.
Qed.

(** Ready frames drain the queue from its head, one payload each. *)
Lemma ready_frames_drain (wr : bytes -> Z) (frames : list (list event)) :
  (forall f, wr f = len f) ->
  forall (r : reader) (s : iface),
  Forall is_ready_frame frames ->
  between_frames r ->
  serial_is_open s = true ->
  online s = true ->
  0 < HW_MTU s + AX25.HEADER_SIZE ->
  let res := readLoop_run wr (List.concat frames) r s in
  fst res = inr tt /\
  packet_queue (snd (snd res)) = skipn (List.length frames) (packet_queue s) /\
  io_log (snd (snd res)) =
    io_log s ++ map (fun data => Write (kiss_frame s data))
                    (firstn (List.length frames) (packet_queue s)).
Proof.
  intros Hwr. induction frames as [|evs frames IH]; intros r s Hall Hr Hopen Hon Hcap.
  - cbn. rewrite app_nil_r. auto.
  - inversion Hall as [|? ? Hevs Hall']; subst.
    cbn [List.concat]. rewrite readLoop_run_app.
    destruct (ready_frame_run wr evs r s Hevs Hr Hopen Hcap) as (t & r' & Hr' & ->).
    pose proof (process_queue_spec wr t s) as Hpq. cbv zeta in Hpq.
    destruct Hpq as (Hset & Hser & Hon' & Hq & Hlog & Hok).
    rewrite (Hok Hwr).
    assert (Hopen' : serial_is_open (snd (process_queue wr t s)) = true).
    { unfold serial_is_open in *. now rewrite Hser. }
    assert (Hcap' : 0 < HW_MTU (snd (process_queue wr t s)) + AX25.HEADER_SIZE).
    { now rewrite (settings_HW_MTU _ _ Hset). }
    rewrite Hon in Hon'.
    specialize (IH r' _ Hall' Hr' Hopen' Hon' Hcap'). cbv zeta in IH.
    destruct IH as (IH1 & IH2 & IH3).
    split; [exact IH1|]. rewrite IH2, IH3, Hq, Hlog, Hon.
    destruct (packet_queue s) as [|data rest]; cbn [tl List.length skipn firstn map].
    + rewrite ?skipn_nil, ?firstn_nil. cbn [map]. rewrite ?app_nil_r.
      split; reflexivity.
    + split; [reflexivity|]. rewrite <- app_assoc. cbn [app]. f_equal. f_equal.
      apply map_ext. intros d. f_equal. now apply kiss_frame_same.
Qed.

(** ** Settings of reachable states *)

Lemma well_configured_settings (s s' : iface) :
  settings s' = settings s -> well_configured s -> well_configured s'.
Proof.
  unfold settings, well_configured. intros H.
  injection H as E1 E2 E3 E4 E5 E6 E7 E8 E9 E10.
  now rewrite E3, E4, E5, E6, E7, E8, E10.
Qed.

Lemma reachable_well_configured (s : iface) : reachable s -> well_configured s.
Proof.
  induction 1 as [now opens wr c Hok | s wr now data _ IH | s wr ev r _ IH _
                 | s _ IH | s opens wr _ IH _].
  - pose proof (init_success now opens wr c Hok) as H. cbv zeta in H.
    unfold well_configured. tauto.
  - eapply well_configured_settings; [apply process_outgoing_steady | exact IH].
  - eapply well_configured_settings; [apply readLoop_body_steady | exact IH].
  - eapply well_configured_settings; [apply readLoop_exit_steady | exact IH].
  - eapply well_configured_settings; [apply reconnect_attempt_steady | exact IH].
Qed.

(** Every header byte of a constructed interface is a value [bytes([x])]
    accepts. *)
Lemma address_in_range (s : iface) :
  well_configured s -> Forall is_byte (header s).
Proof.
  intros (_ & _ & _ & Hdst & Hdssid & Hssid & Hlen & Hsrc).
  unfold header, address. rewrite !append_call_eq, Hdst, Hdssid.
  assert (Hs : src_ssid s = 0 \/ src_ssid s = 1 \/ src_ssid s = 2 \/ src_ssid s = 3 \/
               src_ssid s = 4 \/ src_ssid s = 5 \/ src_ssid s = 6 \/ src_ssid s = 7 \/
               src_ssid s = 8 \/ src_ssid s = 9 \/ src_ssid s = 10 \/ src_ssid s = 11 \/
               src_ssid s = 12 \/ src_ssid s = 13 \/ src_ssid s = 14 \/ src_ssid s = 15)
    by lia.
  assert (Hb : is_byte (Z.lor (Z.lor 0x60 (Z.shiftl (src_ssid s) 1)) 0x01)).
  { unfold is_byte.
    repeat (destruct Hs as [-> | Hs]; [vm_compute; split; congruence|]).
    rewrite Hs. vm_compute; split; congruence. }
  repeat rewrite Forall_app.
  repeat match goal with |- _ /\ _ => split end;
    try (vm_compute; repeat constructor; congruence).
  - apply Forall_forall. intros x Hx. apply in_map_iff in Hx.
    destruct Hx as (i & <- & Hi).
    destruct (i <? len (src_call s)) eqn:Hlt; [|unfold is_byte; lia].
    assert (Hc : 0 <= index (src_call s) i < 128).
    { unfold index. destruct (nth_in_or_default (Z.to_nat i) (src_call s) 0) as [Hin | ->];
        [|lia]. rewrite Forall_forall in Hsrc. now apply Hsrc. }
    unfold is_byte. rewrite Z.shiftl_mul_pow2 by lia. lia.
  - constructor; [exact Hb | constructor].
Qed.

(** The value bytes of a ready frame: each one makes one call of
    [process_queue], which sends the oldest queued payload. *)
Lemma ready_values_run (wr : bytes -> Z) :
  (forall f, wr f = len f) ->
  forall (vs : bytes) (evs : list event) (esc : bool) (ms : Z) (s : iface),
  map rx_byte evs = map Some vs ->
  Forall (fun v => v <> KISS.FEND) vs ->
  serial_is_open s = true ->
  online s = true ->
  0 < HW_MTU s + AX25.HEADER_SIZE ->
  exists ms' s',
    (forall after,
       readLoop_run wr (evs ++ after) (mk_reader true esc KISS.CMD_READY [] ms) s =
       readLoop_run wr after (mk_reader true esc KISS.CMD_READY [] ms') s') /\
    serial_is_open s' = true /\
    online s' = true /\
    packet_queue s' = skipn (List.length vs) (packet_queue s) /\
    io_log s' =
      io_log s ++ map (fun data => Write (kiss_frame s data))
                      (firstn (List.length vs) (packet_queue s)) /\
    (vs = [] -> s' = s).
Proof.
  intros Hwr. induction vs as [|v vs IH]; intros evs esc ms s Hevs Hvs Hopen Hon Hcap.
  - destruct evs; [|discriminate]. exists ms, s. cbn [app List.length skipn firstn map].
    rewrite app_nil_r. repeat split; auto.
  - cbn [map] in Hevs. apply rx_inv in Hevs.
    destruct Hevs as (m1 & t1 & evs1 & -> & Hevs).
    apply Forall_cons_iff in Hvs. destruct Hvs as [Hv Hvs].
    pose proof (process_queue_spec wr t1 s) as Hpq. cbv zeta in Hpq.
    destruct Hpq as (Hset & Hser & Hon' & Hq & Hlog & Hok). specialize (Hok Hwr).
    set (s1 := snd (process_queue wr t1 s)) in *.
    assert (Hopen1 : serial_is_open s1 = true).
    { unfold serial_is_open in *. now rewrite Hser. }
    assert (Hon1 : online s1 = true) by congruence.
    assert (Hcap1 : 0 < HW_MTU s1 + AX25.HEADER_SIZE).
    { now rewrite (settings_HW_MTU _ _ Hset). }
    destruct (IH evs1 esc m1 s1 Hevs Hvs Hopen1 Hon1 Hcap1)
      as (ms' & s' & Hrun & Ho' & Hon'' & Hq' & Hlog' & _).
    exists ms', s'. split; [|split; [exact Ho'|split; [exact Hon''|split; [|split]]]].
    + intros after. cbn [app readLoop_run]. rewrite Hopen.
      rewrite body_ready by assumption. unfold with_locals. rewrite Hok.
      fold s1. apply Hrun.
    + rewrite Hq', Hq. destruct (packet_queue s); cbn [tl List.length skipn];
        [now rewrite skipn_nil | reflexivity].
    + rewrite Hlog', Hlog, Hq, Hon.
      destruct (packet_queue s) as [|data rest]; cbn [tl List.length firstn map].
      * rewrite firstn_nil. cbn [map]. now rewrite !app_nil_r.
      * rewrite <- app_assoc. cbn [app]. f_equal. f_equal.
        apply map_ext. intros d. f_equal. now apply kiss_frame_same.
    + discriminate.
Qed.

(** The states the reader loop passes through are reachable. *)
Lemma readLoop_run_reachable (wr : bytes -> Z) (evs : list event) :
  forall (r : reader) (s : iface),
  reachable s -> reachable (snd (snd (readLoop_run wr evs r s))).
Proof.
  induction evs as [|ev evs IH]; intros r s H; cbn [readLoop_run]; [exact H|].
  destruct (serial_is_open s) eqn:Hopen; [|exact H].
  pose proof (reach_read s wr ev r H Hopen) as H1.
  destruct (readLoop_body wr ev r s) as [[e|u] [r' s']]; cbn [snd] in *;
    [exact H1 | apply IH; exact H1].
Qed.

(** C4 (as the code has it): wherever in the stream a ready frame stands
    (a delimiter, a command byte whose low nibble is [CMD_READY], bytes
    other than the delimiter, a delimiter), if the reader of an online
    interface whose transport takes every write meets it outside a data
    frame, the frame drains one queued payload for each byte that follows
    its command byte, oldest first, and the reader goes on with the rest
    of the stream outside a data frame.  A frame with one such byte, the
    form [setFlowControl] writes, drains exactly the oldest payload; a
    frame with none leaves the interface as it is. *)
Theorem ready_signals_drain_fifo (wr : bytes -> Z) (before evs after : list event)
    (c : Z) (vs : bytes) (r0 r : reader) (s0 s : iface) :
  (forall f, wr f = len f) ->
  reachable s0 ->
  readLoop_run wr before r0 s0 = (inr tt, (r, s)) ->
  between_frames r ->
  serial_is_open s = true ->
  online s = true ->
  map rx_byte evs = map Some ([KISS.FEND; c] ++ vs ++ [KISS.FEND]) ->
  Z.land c 0x0F = KISS.CMD_READY ->
  Forall (fun v => v <> KISS.FEND) vs ->
  exists r' s',
    readLoop_run wr (before ++ evs ++ after) r0 s0 = readLoop_run wr after r' s' /\
    between_frames r' /\
    serial_is_open s' = true /\
    online s' = true /\
    packet_queue s' = skipn (List.length vs) (packet_queue s) /\
    io_log s' =
      io_log s ++ map (fun data => Write (kiss_frame s data))
                      (firstn (List.length vs) (packet_queue s)) /\
    (forall v data rest,
       vs = [v] -> packet_queue s = data :: rest ->
       packet_queue s' = rest /\
       io_log s' = io_log s ++ [Write (kiss_frame s data)]) /\
    (vs = [] -> s' = s).
Proof.
  intros Hwr Hreach Hbefore Hr Hopen Hon Hevs Hc Hvs.
  assert (Hcap : 0 < HW_MTU s + AX25.HEADER_SIZE).
  { pose proof (readLoop_run_reachable wr before r0 s0 Hreach) as H.
    rewrite Hbefore in H. cbn [snd] in H.
    destruct (reachable_well_configured s H) as [-> _]. reflexivity. }
  cbn [app map] in Hevs.
  apply rx_inv in Hevs. destruct Hevs as (m1 & t1 & evs1 & -> & Hevs).
  apply rx_inv in Hevs. destruct Hevs as (m2 & t2 & evs2 & -> & Hevs).
  rewrite map_app in Hevs. apply map_eq_app in Hevs.
  destruct Hevs as (evs3 & evs4 & -> & Hevs3 & Hevs4).
  cbn [map] in Hevs4. apply rx_inv in Hevs4.
  destruct Hevs4 as (m4 & t4 & evs5 & -> & Hevs5).
  destruct evs5; [|discriminate].
  pose proof (ready_command_not_delimiter c Hc) as Hc'.
  destruct (ready_values_run wr Hwr vs evs3 (escape r) m2 s Hevs3 Hvs Hopen Hon Hcap)
    as (ms' & s' & Hrun & Hopen' & Hon' & Hq & Hlog & Hnil).
  exists (mk_reader true (escape r) KISS.CMD_UNKNOWN [] m4), s'.
  split; [|split; [right; discriminate|split; [exact Hopen'|split; [exact Hon'|
           split; [exact Hq|split; [exact Hlog|split; [|exact Hnil]]]]]]].
  - rewrite readLoop_run_app, Hbefore.
    cbn [app readLoop_run]. rewrite Hopen.
    rewrite body_frame_start by exact Hr. rewrite Hopen.
    rewrite body_command by assumption. rewrite Hc.
    rewrite <- app_assoc. rewrite Hrun.
    cbn [app readLoop_run]. rewrite Hopen'.
    rewrite body_frame_start by (right; discriminate). reflexivity.
  - intros v data rest -> Hqueue. rewrite Hq, Hlog, Hqueue. split; reflexivity.
Qed.

Lemma example_busy_reachable : reachable example_busy.
Proof.
  unfold example_busy. cbv zeta.
  do 3 apply reach_send. apply reach_init. reflexivity.
Qed.

Lemma ready_frame_events_ready : is_ready_frame ready_frame_events.
Proof.
  exists 0x0F, 0x01. repeat split; try reflexivity. discriminate.
Qed.

Lemma ready_signals_drain_fifo_witness :
  (forall f, writes_all f = len f) /\
  readLoop_run writes_all (rx_all [0x55; 0x66]) (reader_start 0) example_busy =
    (inr tt, (reader_start 0, example_busy)) /\
  packet_queue example_busy = [[2]; [3]] /\
  exists r' s',
    readLoop_run writes_all
      (rx_all [0x55; 0x66] ++ ready_frame_events ++ rx_all [0xC0; 0x0F; 0xC0])
      (reader_start 0) example_busy =
    readLoop_run writes_all (rx_all [0xC0; 0x0F; 0xC0]) r' s' /\
    between_frames r' /\
    serial_is_open s' = true /\
    online s' = true /\
    packet_queue s' = skipn (List.length [1]) (packet_queue example_busy) /\
    io_log s' =
      io_log example_busy ++
      map (fun data => Write (kiss_frame example_busy data))
          (firstn (List.length [1]) (packet_queue example_busy)) /\
    (forall v data rest,
       [1] = [v] -> packet_queue example_busy = data :: rest ->
       packet_queue s' = rest /\
       io_log s' = io_log example_busy ++ [Write (kiss_frame example_busy data)]) /\
    ([1] = [] -> s' = example_busy).
Proof.
  assert (Hbefore : readLoop_run writes_all (rx_all [0x55; 0x66]) (reader_start 0)
                      example_busy = (inr tt, (reader_start 0, example_busy)))
    by (vm_compute; reflexivity).
  assert (Hr : between_frames (reader_start 0)) by (left; reflexivity).
  assert (Hopen : serial_is_open example_busy = true) by (vm_compute; reflexivity).
  assert (Hon : online example_busy = true) by (vm_compute; reflexivity).
  assert (Hevs : map rx_byte ready_frame_events =
                 map Some ([KISS.FEND; 0x0F] ++ [1] ++ [KISS.FEND])) by reflexivity.
  assert (Hvs : Forall (fun v => v <> KISS.FEND) [1])
    by (repeat constructor; discriminate).
  split; [intros f; reflexivity|]. split; [exact Hbefore|].
  split; [vm_compute; reflexivity|].
  exact (ready_signals_drain_fifo writes_all (rx_all [0x55; 0x66]) ready_frame_events
           (rx_all [0xC0; 0x0F; 0xC0]) 0x0F [1] (reader_start 0) (reader_start 0)
           example_busy example_busy (fun f => eq_refl) example_busy_reachable
           Hbefore Hr Hopen Hon Hevs eq_refl Hvs).
Defined.

(** C4 (as stated) fails: a ready frame with no byte after its command
    byte, [C0 0F C0], leaves both queued payloads where they are and
    writes nothing. *)
Lemma empty_ready_frame_drains_nothing :
  let res := readLoop_run writes_all (rx_all [0xC0; 0x0F; 0xC0])
               (reader_start 0) example_busy in
  packet_queue example_busy = [[2]; [3]] /\
  fst res = inr tt /\
  command (fst (snd (readLoop_run writes_all (rx_all [0xC0; 0x0F])
                       (reader_start 0) example_busy))) = KISS.CMD_READY /\
  packet_queue (snd (snd res)) = [[2]; [3]] /\
  packet_queue (snd (snd res)) <> [[3]] /\
  io_log (snd (snd res)) = io_log example_busy.
Proof. repeat split; try reflexivity. vm_compute. discriminate. Qed.

(** ** Reading back a data frame *)

Lemma len_app {A : Type} (a b : list A) : len (a ++ b) = len a + len b.
Proof. unfold len. rewrite length_app. lia. Qed.

Lemma len_nonneg {A : Type} (a : list A) : 0 <= len a.
Proof. unfold len. lia. Qed.

Lemma escape_cons (x : Z) (xs : bytes) :
  KISS.escape (x :: xs) = escape_byte x ++ KISS.escape xs.
Proof. now rewrite !escape_bytewise. Qed.

(** A byte of a data frame that is neither delimiter nor escape is stored. *)
Lemma body_data_plain (wr : bytes -> Z) (b ms : Z) (t : Q) (buf : bytes) (ms0 : Z)
    (s : iface) :
  b <> KISS.FEND -> b <> KISS.FESC ->
  len buf < HW_MTU s + AX25.HEADER_SIZE ->
  readLoop_body wr (Rx b ms t) (mk_reader true false KISS.CMD_DATA buf ms0) s =
  (inr tt, (mk_reader true false KISS.CMD_DATA (buf ++ [b]) ms, s)).
Proof.
  intros Hend Hesc Hcap. unfold readLoop_body.
  cbn [in_frame command escape data_buffer last_read_ms].
  destruct (Z.eqb_spec b KISS.FEND); [contradiction|].
  destruct (Z.eqb_spec b KISS.FESC); [contradiction|].
  destruct (Z.ltb_spec (len buf) (HW_MTU s + AX25.HEADER_SIZE)); [|lia].
  destruct (len buf =? 0); reflexivity.
Qed.

(** The escape byte raises the flag and stores nothing. *)
Lemma body_data_escape (wr : bytes -> Z) (ms : Z) (t : Q) (esc : bool) (buf : bytes)
    (ms0 : Z) (s : iface) :
  len buf < HW_MTU s + AX25.HEADER_SIZE ->
  readLoop_body wr (Rx KISS.FESC ms t) (mk_reader true esc KISS.CMD_DATA buf ms0) s =
  (inr tt, (mk_reader true true KISS.CMD_DATA buf ms, s)).
Proof.
  intros Hcap. unfold readLoop_body.
  cbn [in_frame command escape data_buffer last_read_ms].
  destruct (Z.ltb_spec (len buf) (HW_MTU s + AX25.HEADER_SIZE)); [|lia].
  destruct (len buf =? 0); reflexivity.
Qed.

(** With the flag up, the transposed bytes are stored as the bytes they
    stand for, and the flag goes down. *)
Lemma body_data_transposed (wr : bytes -> Z) (b ms : Z) (t : Q) (buf : bytes) (ms0 : Z)
    (s : iface) :
  b = KISS.TFEND \/ b = KISS.TFESC ->
  len buf < HW_MTU s + AX25.HEADER_SIZE ->
  readLoop_body wr (Rx b ms t) (mk_reader true true KISS.CMD_DATA buf ms0) s =
  (inr tt, (mk_reader true false KISS.CMD_DATA
              (buf ++ [if b =? KISS.TFEND then KISS.FEND else KISS.FESC]) ms, s)).
Proof.
  intros Hb Hcap. unfold readLoop_body.
  cbn [in_frame command escape data_buffer last_read_ms].
  destruct (Z.ltb_spec (len buf) (HW_MTU s + AX25.HEADER_SIZE)); [|lia].
  destruct (len buf =? 0); destruct Hb as [-> | ->]; reflexivity.
Qed.

(** The delimiter that ends a data frame hands the buffer over. *)
Lemma body_data_end (wr : bytes -> Z) (ms : Z) (t : Q) (esc : bool) (buf : bytes)
    (ms0 : Z) (s : iface) :
  readLoop_body wr (Rx KISS.FEND ms t) (mk_reader true esc KISS.CMD_DATA buf ms0) s =
  with_locals (mk_reader false esc KISS.CMD_DATA buf ms) (process_incoming buf s).
Proof. reflexivity. Qed.

(** Inside a data frame the reader undoes [KISS.escape], as long as the
    buffer has room. *)
Lemma run_escaped (wr : bytes -> Z) (s : iface) (xs : bytes) :
  serial_is_open s = true ->
  forall (evs more : list event) (buf : bytes) (ms0 : Z),
  map rx_byte evs = map Some (KISS.escape xs) ->
  len buf + len xs <= HW_MTU s + AX25.HEADER_SIZE ->
  exists ms,
    readLoop_run wr (evs ++ more) (mk_reader true false KISS.CMD_DATA buf ms0) s =
    readLoop_run wr more (mk_reader true false KISS.CMD_DATA (buf ++ xs) ms) s.
Proof.
  intros Hopen. induction xs as [|x xs IH]; intros evs more buf ms0 Hevs Hcap.
  - destruct evs; [|discriminate]. exists ms0. now rewrite app_nil_r.
  - rewrite escape_cons in Hevs.
    change (x :: xs) with ([x] ++ xs) in Hcap. rewrite len_app in Hcap.
    change (len [x]) with 1 in Hcap. pose proof (len_nonneg xs) as Hxs.
    assert (Hstep : len (buf ++ [x]) + len xs <= HW_MTU s + AX25.HEADER_SIZE).
    { rewrite len_app. change (len [x]) with 1. lia. }
    replace (buf ++ x :: xs) with ((buf ++ [x]) ++ xs) by now rewrite <- app_assoc.
    unfold escape_byte in Hevs.
    destruct (Z.eqb_spec x KISS.FESC) as [->|Hesc];
      [|destruct (Z.eqb_spec x KISS.FEND) as [->|Hend]].
    + cbn [app map] in Hevs.
      apply rx_inv in Hevs. destruct Hevs as (m1 & t1 & evs1 & -> & Hevs).
      apply rx_inv in Hevs. destruct Hevs as (m2 & t2 & evs2 & -> & Hevs).
      cbn [app readLoop_run]. rewrite Hopen.
      rewrite body_data_escape by lia. rewrite Hopen.
      rewrite body_data_transposed by (auto; lia).
      change (if KISS.TFESC =? KISS.TFEND then KISS.FEND else KISS.FESC) with KISS.FESC.
      now apply IH.
    + cbn [app map] in Hevs.
      apply rx_inv in Hevs. destruct Hevs as (m1 & t1 & evs1 & -> & Hevs).
      apply rx_inv in Hevs. destruct Hevs as (m2 & t2 & evs2 & -> & Hevs).
      cbn [app readLoop_run]. rewrite Hopen.
      rewrite body_data_escape by lia. rewrite Hopen.
      rewrite body_data_transposed by (auto; lia).
      change (if KISS.TFEND =? KISS.TFEND then KISS.FEND else KISS.FESC) with KISS.FEND.
      now apply IH.
    + cbn [app map] in Hevs.
      apply rx_inv in Hevs. destruct Hevs as (m1 & t1 & evs1 & -> & Hevs).
      cbn [app readLoop_run]. rewrite Hopen.
      rewrite body_data_plain by (auto; lia).
      now apply IH.
Qed.

(** A reader that is idle with the escape flag down, fed a frame built by
    [process_outgoing] for a payload that fits the buffer, delivers that
    payload once. *)
Lemma frame_read_back (wr : bytes -> Z) (tx rx : iface) (payload : bytes)
    (evs : list event) (r : reader) :
  serial_is_open rx = true ->
  in_frame r = false ->
  escape r = false ->
  1 <= len payload <= HW_MTU rx ->
  map rx_byte evs = map Some (kiss_frame tx payload) ->
  let res := readLoop_run wr evs r rx in
  fst res = inr tt /\
  in_frame (fst (snd res)) = false /\
  io_log (snd (snd res)) = io_log rx ++ [Inbound payload] /\
  rxb (snd (snd res)) = rxb rx + AX25.HEADER_SIZE + len payload.
Proof.
  intros Hopen Hin Hesc Hlen Hevs res. subst res.
  rewrite kiss_frame_eq in Hevs. cbn [app map] in Hevs.
  apply rx_inv in Hevs. destruct Hevs as (m1 & t1 & evs1 & -> & Hevs).
  apply rx_inv in Hevs. destruct Hevs as (m2 & t2 & evs2 & -> & Hevs).
  rewrite map_app in Hevs. apply map_eq_app in Hevs.
  destruct Hevs as (body & last & -> & Hbody & Hlast).
  cbn [map] in Hlast. apply rx_inv in Hlast.
  destruct Hlast as (m3 & t3 & evs3 & -> & Hnil). destruct evs3; [|discriminate].
  assert (Hcap : 0 < HW_MTU rx + AX25.HEADER_SIZE) by (unfold AX25.HEADER_SIZE; lia).
  cbn [readLoop_run]. rewrite Hopen.
  rewrite body_frame_start by (left; exact Hin). rewrite Hopen, Hesc.
  rewrite body_command by (assumption || discriminate).
  change (Z.land 0 15) with KISS.CMD_DATA.
  destruct (run_escaped wr rx (header tx ++ payload) Hopen body [Rx KISS.FEND m3 t3]
              [] m2 Hbody) as [ms ->].
  { rewrite len_app, header_length. change (len (@nil Z)) with 0. lia. }
  cbn [app readLoop_run]. rewrite Hopen, body_data_end. unfold with_locals.
  rewrite process_incoming_long
    by (rewrite len_app, header_length; unfold AX25.HEADER_SIZE; lia).
  cbn [fst snd in_frame io_log rxb set_io_log set_rxb].
  rewrite skipn_app, <- (header_length_nat tx), skipn_all, Nat.sub_diag.
  rewrite len_app, header_length.
  repeat split; try reflexivity. lia.
Qed.

(** C1 (as the code has it): [process_outgoing] on an online, ready
    interface writes one frame for the payload; when the payload has
    between 1 and 564 bytes ([HW_MTU]), a reader that is idle with its
    escape flag down and is fed exactly the bytes of that frame, whatever
    the clock reads, makes exactly one delivery to the owner, of that
    payload, and is idle again. *)
Theorem frame_round_trip (wr wr' : bytes -> Z) (now : Q) (tx rx : iface)
    (payload : bytes) (r : reader) :
  online tx = true ->
  interface_ready tx = true ->
  reachable rx ->
  serial_is_open rx = true ->
  in_frame r = false ->
  escape r = false ->
  1 <= len payload <= 564 ->
  exists frame,
    io_log (snd (process_outgoing wr' now payload tx)) = io_log tx ++ [Write frame] /\
    forall evs,
      map rx_byte evs = map Some frame ->
      let res := readLoop_run wr evs r rx in
      fst res = inr tt /\
      in_frame (fst (snd res)) = false /\
      io_log (snd (snd res)) = io_log rx ++ [Inbound payload].
Proof.
  intros Hon Hrdy Hreach Hopen Hin Hesc Hlen.
  exists (kiss_frame tx payload). split.
  - rewrite process_outgoing_sends by assumption. cbv zeta.
    destruct (negb _); destruct (flow_control tx); reflexivity.
  - intros evs Hevs.
    destruct (reachable_well_configured rx Hreach) as [Hmtu _].
    pose proof (frame_read_back wr tx rx payload evs r Hopen Hin Hesc) as H.
    rewrite Hmtu in H. specialize (H Hlen Hevs). cbv zeta in H |- *.
    destruct H as (H1 & H2 & H3 & _). repeat split; assumption.
Qed.

Lemma frame_round_trip_witness :
  online example_iface = true /\
  interface_ready example_iface = true /\
  serial_is_open example_iface = true /\
  1 <= len [104; 105] <= 564 /\
  exists frame,
    io_log (snd (process_outgoing writes_all 0%Q [104; 105] example_iface)) =
      io_log example_iface ++ [Write frame] /\
    forall evs,
      map rx_byte evs = map Some frame ->
      let res := readLoop_run writes_all evs (reader_start 0) example_iface in
      fst res = inr tt /\
      in_frame (fst (snd res)) = false /\
      io_log (snd (snd res)) = io_log example_iface ++ [Inbound [104; 105]].
Proof.
  split; [reflexivity|]. split; [reflexivity|]. split; [reflexivity|].
  split; [split; discriminate|].
  apply (frame_round_trip writes_all writes_all 0%Q example_iface example_iface
           [104; 105] (reader_start 0)).
  - reflexivity.
  - reflexivity.
  - apply (reach_init 0%Q (Some true) writes_all (configuration_of "abc" (Some 5))).
    reflexivity.
  - reflexivity.
  - reflexivity.
  - reflexivity.
  - split; discriminate.
Defined.

(** The frame for the payload [hi], and what the reader makes of it. *)
Example hi_round_trip :
  kiss_frame example_iface [104; 105] =
    [0xC0; 0x00; 0x82; 0xA0; 0xB4; 0xA4; 0x9C; 0xA6; 0x60;
     0x82; 0x84; 0x86; 0x20; 0x20; 0x20; 0x6B; 0x03; 0xF0; 104; 105; 0xC0] /\
  io_log (snd (snd (readLoop_run writes_all (rx_all (kiss_frame example_iface [104; 105]))
                      (reader_start 0) example_iface))) =
    io_log example_iface ++ [Inbound [104; 105]].
Proof. split; vm_compute; reflexivity. Qed.

(** C1 (as stated) fails: the buffer holds at most [HW_MTU + HEADER_SIZE]
    bytes, so of a payload of 565 bytes the reader delivers the first 564. *)
Lemma long_payload_cut_short :
  let payload := repeat 7 565%nat in
  let res := readLoop_run writes_all (rx_all (kiss_frame example_iface payload))
               (reader_start 0) example_iface in
  AX25.HEADER_SIZE < len (header example_iface ++ payload) /\
  io_log (snd (process_outgoing writes_all 0%Q payload example_iface)) =
    io_log example_iface ++ [Write (kiss_frame example_iface payload)] /\
  fst res = inr tt /\
  io_log (snd (snd res)) = io_log example_iface ++ [Inbound (repeat 7 564%nat)] /\
  io_log (snd (snd res)) <> io_log example_iface ++ [Inbound payload].
Proof.
  intros payload res.
  assert (Hlog : io_log (snd (snd res)) =
                 io_log example_iface ++ [Inbound (repeat 7 564%nat)])
    by (vm_compute; reflexivity).
  split; [reflexivity|]. split; [vm_compute; reflexivity|].
  split; [vm_compute; reflexivity|]. split; [exact Hlog|].
  rewrite Hlog. intros H. apply app_inv_head in H.
  assert (Hlen : List.length (repeat 7 564%nat) = List.length payload) by congruence.
  subst payload. rewrite !repeat_length in Hlen. discriminate Hlen.
Qed.

(** * Further properties of the methods *)

(** ** Device configuration *)

Lemma clamp_byte_max_min (v : Z) : clamp_byte v = Z.max 0 (Z.min 255 v).
Proof.
  unfold clamp_byte.
  destruct (Z.ltb_spec v 0); destruct (Z.ltb_spec 255 0); try lia;
    destruct (Z.ltb_spec 255 v); lia.
Qed.

(** ** Division by ten *)

Lemma float_exponent_spec (n : Z) :
  2 ^ 64 <= n ->
  60 <= float_exponent n /\
  10 * 2 ^ float_exponent n <= n < 10 * 2 ^ (float_exponent n + 1).
Proof.
  intros Hn. unfold float_exponent.
  assert (Hpos : 0 < n) by (pose proof (Z.pow_pos_nonneg 2 64); lia).
  pose proof (Z.log2_spec n Hpos) as [Hlo Hhi].
  assert (Hl : 64 <= Z.log2 n).
  { rewrite <- (Z.log2_pow2 64) by lia. now apply Z.log2_le_mono. }
  set (l := Z.log2 n) in *.
  assert (Hp : 0 < 2 ^ (l - 4)) by (apply Z.pow_pos_nonneg; lia).
  assert (E3 : 2 ^ (l - 3) = 2 * 2 ^ (l - 4)).
  { replace (l - 3) with (Z.succ (l - 4)) by lia. rewrite Z.pow_succ_r by lia. lia. }
  assert (E2 : 2 ^ (l - 3 + 1) = 4 * 2 ^ (l - 4)).
  { replace (l - 3 + 1) with (Z.succ (l - 3)) by lia.
    rewrite Z.pow_succ_r by lia. lia. }
  assert (E0 : 2 ^ l = 16 * 2 ^ (l - 4)).
  { replace l with (l - 4 + 4) at 1 by lia. rewrite Z.pow_add_r by lia.
    change (2 ^ 4) with 16. lia. }
  assert (E1 : 2 ^ Z.succ l = 32 * 2 ^ (l - 4)).
  { rewrite Z.pow_succ_r by lia. lia. }
  destruct (Z.leb_spec (10 * 2 ^ (l - 3)) n);
    [|replace (l - 4 + 1) with (l - 3) by lia]; split; lia.
Qed.

Lemma round_half_even_bounds (n d : Z) :
  n / d <= round_half_even n d <= n / d + 1.
Proof.
  unfold round_half_even.
  destruct (2 * (n mod d) <? d); [lia|].
  destruct (d <? 2 * (n mod d)); [lia|].
  destruct (Z.even (n / d)); lia.
Qed.

(** The significand has 53 bits: the rounded quotient lies between
    [2^e] and [2^(e+1)]. *)
Lemma float_div10_bounds (a : Z) :
  1 <= a ->
  let n := a * 2 ^ 64 in
  let e := float_exponent n in
  let v := round_half_even n (10 * 2 ^ (e - 52)) * 2 ^ (e - 52) in
  2 ^ e <= v <= 2 ^ (e + 1).
Proof.
  intros Ha n e v.
  assert (H64 : 0 < 2 ^ 64) by (apply Z.pow_pos_nonneg; lia).
  assert (Hn : 2 ^ 64 <= n) by (subst n; nia).
  destruct (float_exponent_spec n Hn) as [He [Hlo Hhi]]. fold e in He, Hlo, Hhi.
  assert (Hq : 0 < 2 ^ (e - 52)) by (apply Z.pow_pos_nonneg; lia).
  assert (Ee : 2 ^ e = 2 ^ 52 * 2 ^ (e - 52)).
  { rewrite <- Z.pow_add_r by lia. f_equal. lia. }
  assert (Ee1 : 2 ^ (e + 1) = 2 ^ 53 * 2 ^ (e - 52)).
  { rewrite <- Z.pow_add_r by lia. f_equal. lia. }
  set (q := 2 ^ (e - 52)) in *.
  pose proof (round_half_even_bounds n (10 * q)) as [Hm1 Hm2].
  assert (Hk1 : 2 ^ 52 <= n / (10 * q)).
  { apply Z.div_le_lower_bound; lia. }
  assert (Hk2 : n / (10 * q) < 2 ^ 53).
  { apply Z.div_lt_upper_bound; lia. }
  subst v. fold q. rewrite Ee, Ee1.
  split; apply Z.mul_le_mono_nonneg_r; lia.
Qed.

(** The division raises exactly from [division_limit] on. *)
Lemma float_div10_overflow (a : Z) :
  1 <= a -> (float_div10 a = None <-> division_limit <= a).
Proof.
  intros Ha. unfold float_div10. cbv zeta.
  pose proof (float_div10_bounds a Ha) as Hv. cbv zeta in Hv.
  assert (H64 : 0 < 2 ^ 64) by (apply Z.pow_pos_nonneg; lia).
  assert (Hn : 2 ^ 64 <= a * 2 ^ 64) by nia.
  destruct (float_exponent_spec _ Hn) as [He [Hlo Hhi]].
  assert (HL : division_limit <= a <->
               5 * 2 ^ 1035 * 18014398509481983 <= a * 2 ^ 64).
  { assert (E : 5 * 2 ^ 1035 * 18014398509481983 = division_limit * 2 ^ 64)
      by (vm_compute; reflexivity).
    rewrite E. split; intros H.
    - apply Z.mul_le_mono_nonneg_r; lia.
    - apply Z.mul_le_mono_pos_r in H; lia. }
  rewrite HL. clear HL.
  set (n := a * 2 ^ 64) in *. set (e := float_exponent n) in *.
  change (1024 + 64) with 1088.
  assert (E87 : 2 ^ 1087 = 4503599627370496 * 2 ^ 1035) by (vm_compute; reflexivity).
  assert (E88 : 2 ^ 1088 = 9007199254740992 * 2 ^ 1035) by (vm_compute; reflexivity).
  assert (P0 : 0 < 2 ^ 1035) by (vm_compute; reflexivity).
  remember (2 ^ 1035) as P eqn:EP.
  transitivity (2 ^ 1088 <= round_half_even n (10 * 2 ^ (e - 52)) * 2 ^ (e - 52)).
  { destruct (Z.leb_spec (2 ^ 1088)
                (round_half_even n (10 * 2 ^ (e - 52)) * 2 ^ (e - 52)));
      split; intros H'; try reflexivity; try discriminate H'; lia. }
  destruct (Z_lt_le_dec e 1087) as [Hlt|Hge].
  { assert (2 ^ (e + 1) <= 2 ^ 1087) by (apply Z.pow_le_mono_r; lia). lia. }
  destruct (Z.eq_dec e 1087) as [Ee|Hne].
  2:{ assert (2 ^ 1088 <= 2 ^ e) by (apply Z.pow_le_mono_r; lia). lia. }
  rewrite Ee in *. change (1087 - 52) with 1035 in *. rewrite <- EP in *.
  change (1087 + 1) with 1088 in *.
  unfold round_half_even in *.
  pose proof (Z.div_mod n (10 * P) ltac:(lia)) as Hdm.
  pose proof (Z.mod_pos_bound n (10 * P) ltac:(lia)) as Hr.
  set (k := n / (10 * P)) in *. set (r := n mod (10 * P)) in *.
  assert (Hk1 : 4503599627370496 <= k).
  { apply Z.div_le_lower_bound; lia. }
  assert (Hk2 : k < 9007199254740992).
  { apply Z.div_lt_upper_bound; lia. }
  destruct (Z.eq_dec k 9007199254740991) as [Ek|Nk].
  - rewrite Ek in *. cbn [Z.even].
    destruct (Z.ltb_spec (2 * r) (10 * P));
      [|destruct (Z.ltb_spec (10 * P) (2 * r))]; lia.
  - assert (Hk3 : P * k <= P * 9007199254740990)
      by (apply Z.mul_le_mono_nonneg_l; lia).
    assert (Hk4 : P * 4503599627370496 <= P * k)
      by (apply Z.mul_le_mono_nonneg_l; lia).
    destruct (Z.ltb_spec (2 * r) (10 * P));
      [|destruct (Z.ltb_spec (10 * P) (2 * r)); [|destruct (Z.even k)]]; lia.
Qed.

Lemma int_div10_overflow (x : Z) :
  int_div10 x = None <-> division_limit <= Z.abs x.
Proof.
  assert (HL : 0 < division_limit) by (vm_compute; reflexivity).
  unfold int_div10. destruct (Z.eqb_spec x 0) as [->|Hx].
  - cbn [Z.abs]. split; [discriminate | lia].
  - rewrite <- float_div10_overflow by lia.
    destruct (float_div10 (Z.abs x)); split; intros H;
      first [discriminate H | reflexivity].
Qed.

Lemma int_div10_some (x : Z) :
  Z.abs x < division_limit -> exists v, int_div10 x = Some v.
Proof.
  intros H. destruct (int_div10 x) as [v|] eqn:E; [now exists v|].
  apply int_div10_overflow in E. lia.
Qed.

(** Up to 2559 in magnitude the float quotient truncates to the integer
    quotient: every case is computed. *)
Lemma int_div10_small (x : Z) :
  -2560 < x < 2560 -> int_div10 x = Some (Z.quot x 10).
Proof.
  intros Hx.
  assert (Hall : forallb (fun x => match int_div10 x with
                                   | Some v => v =? Z.quot x 10
                                   | None => false
                                   end)
                         (map (fun k => Z.of_nat k - 2559) (seq 0 (Z.to_nat 5119))) = true)
    by (vm_compute; reflexivity).
  rewrite forallb_forall in Hall. specialize (Hall x).
  destruct (int_div10 x) as [v|].
  - f_equal. apply Z.eqb_eq. apply Hall. apply in_map_iff.
    exists (Z.to_nat (x + 2559)). split; [cbv beta; lia|]. apply in_seq. lia.
  - assert (false = true); [|discriminate]. apply Hall. apply in_map_iff.
    exists (Z.to_nat (x + 2559)). split; [cbv beta; lia|]. apply in_seq. lia.
Qed.

(** From 2560 on the float quotient is at least 256. *)
Lemma float_div10_large (a v : Z) :
  2560 <= a -> float_div10 a = Some v -> 256 <= v / 2 ^ 64.
Proof.
  intros Ha. unfold float_div10. cbv zeta.
  pose proof (float_div10_bounds a ltac:(lia)) as Hv. cbv zeta in Hv.
  assert (H64 : 0 < 2 ^ 64) by (apply Z.pow_pos_nonneg; lia).
  assert (Hn : 2 ^ 64 <= a * 2 ^ 64) by nia.
  destruct (float_exponent_spec _ Hn) as [He [Hlo Hhi]].
  set (n := a * 2 ^ 64) in *. set (e := float_exponent n) in *.
  destruct (2 ^ (1024 + 64) <=? _); [discriminate|].
  intros H.
  assert (Ev : v = round_half_even n (10 * 2 ^ (e - 52)) * 2 ^ (e - 52))
    by congruence.
  rewrite Ev. clear H Ev.
  assert (He72 : 72 <= e).
  { destruct (Z_lt_le_dec e 72) as [Hlt|]; [|assumption].
    assert (2 ^ (e + 1) <= 2 ^ 72) by (apply Z.pow_le_mono_r; lia).
    assert (E72 : 2 ^ 72 = 256 * 2 ^ 64) by (vm_compute; reflexivity).
    subst n. nia. }
  assert (2 ^ 72 <= 2 ^ e) by (apply Z.pow_le_mono_r; lia).
  apply Z.div_le_lower_bound; [lia|].
  assert (E72 : 2 ^ 72 = 2 ^ 64 * 256) by (vm_compute; reflexivity). lia.
Qed.

(** The command value of a timing setting: the tens of milliseconds, kept
    within a byte, whenever the division returns. *)
Lemma int_div10_clamp (x v : Z) :
  int_div10 x = Some v -> clamp_byte v = tens_byte x.
Proof.
  intros H.
  rewrite clamp_byte_max_min. unfold tens_byte.
  destruct (Z_lt_le_dec x 2560) as [Hhi|Hhi];
    [destruct (Z_lt_le_dec (-2560) x) as [Hlo|Hlo]|].
  - rewrite int_div10_small in H by lia. now injection H as <-.
  - unfold int_div10 in H. destruct (Z.eqb_spec x 0); [lia|].
    destruct (float_div10 (Z.abs x)) as [w|] eqn:E; [|discriminate].
    injection H as <-. apply float_div10_large in E; [|lia].
    assert (Z.quot x 10 <= 0).
    { rewrite <- (Z.opp_involutive x), Z.quot_opp_l by lia.
      pose proof (Z.quot_pos (- x) 10). lia. }
    replace (Z.sgn x) with (-1) by (symmetry; apply Z.sgn_neg; lia). lia.
  - unfold int_div10 in H. destruct (Z.eqb_spec x 0); [lia|].
    destruct (float_div10 (Z.abs x)) as [w|] eqn:E; [|discriminate].
    injection H as <-. apply float_div10_large in E; [|lia].
    assert (256 <= Z.quot x 10).
    { apply Z.quot_le_lower_bound; lia. }
    replace (Z.sgn x) with 1 by (symmetry; apply Z.sgn_pos; lia). lia.
Qed.

Example division_at_the_limit :
  int_div10 division_limit = None /\
  int_div10 (division_limit - 1) = Some (2 ^ 1024 - 2 ^ 971) /\
  int_div10 (10 ^ 400) = None /\
  int_div10 (- 10 ^ 400) = None /\
  int_div10 350 = Some 35 /\ int_div10 (-45) = Some (-4) /\
  int_div10 (10 ^ 24) = Some 99999999999999991611392.
Proof. vm_compute. repeat split; reflexivity. Qed.

Lemma timing_frame_some (cmd x : Z) :
  Z.abs x < division_limit ->
  timing_frame cmd x = Some (command_frame cmd (tens_byte x)).
Proof.
  intros H. unfold timing_frame. destruct (int_div10_some x H) as [v Hv].
  rewrite Hv. now rewrite (int_div10_clamp x v Hv).
Qed.

Lemma timing_frame_none (cmd x : Z) :
  division_limit <= Z.abs x -> timing_frame cmd x = None.
Proof.
  intros H. unfold timing_frame. apply int_div10_overflow in H. now rewrite H.
Qed.

(** Taking the cases of a command's outcome and moving on in the chain. *)
Ltac command_cases O :=
  cbv beta iota delta [command_outcome] in O;
  match type of O with
  | match ?fr with _ => _ end =>
      destruct fr as [?f|] eqn:?;
      [destruct O as [[? O]|[? [?msg O]]] | idtac]
  | _ => destruct O as [[? O]|[? [?msg O]]]
  end; rewrite O; clear O; cbv beta iota.

Ltac next_command :=
  let O := fresh "O" in
  match goal with
  | |- context [setPreamble ?wr ?x ?t] => pose proof (setPreamble_outcome wr x t) as O
  | |- context [setTxTail ?wr ?x ?t] => pose proof (setTxTail_outcome wr x t) as O
  | |- context [setPersistence ?wr ?x ?t] =>
      pose proof (setPersistence_outcome wr x t) as O
  | |- context [setSlotTime ?wr ?x ?t] => pose proof (setSlotTime_outcome wr x t) as O
  | |- context [setFlowControl ?wr ?x ?t] =>
      pose proof (setFlowControl_outcome wr x t) as O
  end; command_cases O.

(** The settings whose tenth [configure_device] can compute. *)
Lemma configure_device_ok (wr : bytes -> Z) (s : iface) :
  (forall f, wr f = len f) ->
  timings_in_float_range s ->
  configure_device wr s =
  (inr tt,
   set_interface_ready true
     (set_io_log
        (io_log s ++
         [StartReader;
          Write [0xC0; 0x01; tens_byte (preamble s); 0xC0];
          Write [0xC0; 0x04; tens_byte (txtail s); 0xC0];
          Write [0xC0; 0x02; clamp_byte (persistence s); 0xC0];
          Write [0xC0; 0x03; tens_byte (slottime s); 0xC0];
          Write [0xC0; 0x0F; 0x01; 0xC0]])
        (set_online true s))).
Proof.
  intros Hwr (Hp & Ht & Hs).
  pose proof (timing_frame_some KISS.CMD_TXDELAY _ Hp) as T1.
  pose proof (timing_frame_some KISS.CMD_TXTAIL _ Ht) as T2.
  pose proof (timing_frame_some KISS.CMD_SLOTTIME _ Hs) as T3.
  rewrite configure_device_chain. cbv zeta.
  next_command; [|exfalso; auto|congruence].
  next_command; [|exfalso; auto|congruence].
  next_command; [|exfalso; auto].
  next_command; [|exfalso; auto|congruence].
  next_command; [|exfalso; auto].
  injection T1 as ->. injection T2 as ->. injection T3 as ->.
  fields. repeat rewrite <- app_assoc. reflexivity.
Qed.

(** X1: on a transport that takes every write, and for timing settings
    small enough for their tenth to be a float, [configure_device] starts
    the reader, marks the interface online, writes the five commands in
    the order TX delay, TX tail, persistence, slot time, ready, each as a
    delimiter, the command, one value byte and a delimiter, and then marks
    the interface ready.  The timing values are the configured
    milliseconds divided by ten and the persistence is taken as it is,
    each kept within 0..255. *)
Theorem configure_device_commands (wr : bytes -> Z) (s : iface) :
  (forall f, wr f = len f) ->
  timings_in_float_range s ->
  let res := configure_device wr s in
  fst res = inr tt /\
  online (snd res) = true /\
  interface_ready (snd res) = true /\
  packet_queue (snd res) = packet_queue s /\
  io_log (snd res) =
    io_log s ++
    [StartReader;
     Write [KISS.FEND; KISS.CMD_TXDELAY; tens_byte (preamble s); KISS.FEND];
     Write [KISS.FEND; KISS.CMD_TXTAIL; tens_byte (txtail s); KISS.FEND];
     Write [KISS.FEND; KISS.CMD_P; Z.max 0 (Z.min 255 (persistence s)); KISS.FEND];
     Write [KISS.FEND; KISS.CMD_SLOTTIME; tens_byte (slottime s); KISS.FEND];
     Write [KISS.FEND; KISS.CMD_READY; 1; KISS.FEND]] /\
  is_byte (tens_byte (preamble s)) /\ is_byte (tens_byte (txtail s)) /\
  is_byte (Z.max 0 (Z.min 255 (persistence s))) /\ is_byte (tens_byte (slottime s)).
Proof.
  intros Hwr Hrange res. subst res. rewrite configure_device_ok by assumption.
  fields. unfold tens_byte, is_byte. rewrite clamp_byte_max_min.
  repeat split; try reflexivity; lia.
Qed.

Lemma configure_device_commands_witness :
  (forall f, writes_all f = len f) /\
  timings_in_float_range (set_tuning 350 (-40) 300 20 fresh) /\
  io_log (snd (configure_device writes_all
                 (set_tuning 350 (-40) 300 20 fresh))) =
    [StartReader; Write [0xC0; 0x01; 35; 0xC0]; Write [0xC0; 0x04; 0; 0xC0];
     Write [0xC0; 0x02; 255; 0xC0]; Write [0xC0; 0x03; 2; 0xC0];
     Write [0xC0; 0x0F; 1; 0xC0]].
Proof.
  assert (Hrange : timings_in_float_range (set_tuning 350 (-40) 300 20 fresh))
    by (vm_compute; repeat split; reflexivity).
  split; [intros f; reflexivity|]. split; [exact Hrange|].
  exact (proj1 (proj2 (proj2 (proj2 (proj2
           (configure_device_commands writes_all (set_tuning 350 (-40) 300 20 fresh)
              (fun f => eq_refl) Hrange)))))).
Defined.

(** A preamble too large for its tenth to be a float stops the
    configuration before anything is written. *)
Example configure_device_overflow :
  configure_device writes_all (set_tuning (10 ^ 400) 20 64 20 fresh) =
  (inl division_overflow,
   set_online true (set_io_log [StartReader] (set_tuning (10 ^ 400) 20 64 20 fresh))).
Proof. vm_compute. reflexivity. Qed.

(** The command at which [configure_device] stops, and a command it
    passes. *)
Ltac command_fails O cmd Hcmd :=
  unfold command_outcome in O;
  let f := fresh "f" in
  let Hok := fresh "Hok" in
  let msg := fresh "msg" in
  destruct cmd as [f|];
  [ destruct O as [[Hok _]|[_ [msg ->]]]; [exfalso; exact (Hcmd f eq_refl Hok)|];
    cbv beta iota; fields; repeat rewrite <- app_assoc; cbn [map app];
    (split; [split; [eexists; reflexivity | reflexivity] | repeat split])
  | rewrite O; cbv beta iota; fields; repeat rewrite <- app_assoc; cbn [map app];
    (split; [split; reflexivity | repeat split]) ].

Ltac command_taken O Htaken :=
  let Ht := fresh "Ht" in
  let Hno := fresh "Hno" in
  apply Forall_cons_iff in Htaken; destruct Htaken as [Ht Htaken];
  unfold command_outcome in O;
  destruct O as [[_ ->]|[Hno _]]; [|exfalso; exact (Hno Ht)];
  cbv beta iota.

(** X2: [configure_device] stops at the first of its five commands that
    fails.  A command fails by a write that the transport does not take
    whole, which raises [IOError] after the frame has been written, or,
    for a timing command, by a setting too large for its tenth to be a
    float, which raises [OverflowError] with nothing written for it.  The
    commands before it were written in order and taken, no later command
    is written, the interface is already marked online, and its ready
    flag and queue are as they were. *)
Theorem configure_device_failure (wr : bytes -> Z) (s : iface)
    (taken : list bytes) (cmd : option bytes) (rest : list (option bytes)) :
  command_frames s = map Some taken ++ cmd :: rest ->
  Forall (fun g => wr g = len g) taken ->
  (forall f, cmd = Some f -> wr f <> len f) ->
  let res := configure_device wr s in
  match cmd with
  | Some f =>
      (exists msg, fst res = inl (IOError msg)) /\
      io_log (snd res) = io_log s ++ StartReader :: map Write (taken ++ [f])
  | None =>
      fst res = inl division_overflow /\
      io_log (snd res) = io_log s ++ StartReader :: map Write taken
  end /\
  online (snd res) = true /\
  interface_ready (snd res) = interface_ready s /\
  packet_queue (snd res) = packet_queue s.
Proof.
  intros Hcf Htaken Hcmd res. subst res.
  rewrite configure_device_chain. cbv zeta. unfold command_frames in Hcf.
  pose proof (setPreamble_outcome wr (preamble s)
                (set_online true (set_io_log (io_log s ++ [StartReader]) s))) as O.
  destruct taken as [|t1 taken]; cbn [map app] in Hcf; injection Hcf as E Hcf;
    rewrite E in O; [command_fails O cmd Hcmd|].
  command_taken O Htaken. clear E.
  match goal with
  | |- context [setTxTail wr _ ?t] => pose proof (setTxTail_outcome wr (txtail s) t) as O
  end.
  destruct taken as [|t2 taken]; cbn [map app] in Hcf; injection Hcf as E Hcf;
    rewrite E in O; [command_fails O cmd Hcmd|].
  command_taken O Htaken. clear E.
  match goal with
  | |- context [setPersistence wr _ ?t] =>
      pose proof (setPersistence_outcome wr (persistence s) t) as O
  end.
  destruct taken as [|t3 taken]; cbn [map app] in Hcf; injection Hcf as E Hcf;
    rewrite E in O; [command_fails O cmd Hcmd|].
  command_taken O Htaken. clear E.
  match goal with
  | |- context [setSlotTime wr _ ?t] =>
      pose proof (setSlotTime_outcome wr (slottime s) t) as O
  end.
  destruct taken as [|t4 taken]; cbn [map app] in Hcf; injection Hcf as E Hcf;
    rewrite E in O; [command_fails O cmd Hcmd|].
  command_taken O Htaken. clear E.
  match goal with
  | |- context [setFlowControl wr _ ?t] =>
      pose proof (setFlowControl_outcome wr (flow_control s) t) as O
  end.
  destruct taken as [|t5 taken]; cbn [map app] in Hcf; injection Hcf as E Hcf;
    rewrite E in O; [command_fails O cmd Hcmd|].
  destruct taken; discriminate Hcf.
Qed.

Lemma configure_device_failure_witness :
  let wr := fun f : bytes => if index f 1 =? KISS.CMD_P then 0 else len f in
  let s := set_tuning 350 20 64 20 fresh in
  command_frames s =
    map Some [[0xC0; 0x01; 35; 0xC0]; [0xC0; 0x04; 2; 0xC0]] ++
    Some [0xC0; 0x02; 64; 0xC0] ::
    [Some [0xC0; 0x03; 2; 0xC0]; Some [0xC0; 0x0F; 1; 0xC0]] /\
  Forall (fun g => wr g = len g) [[0xC0; 0x01; 35; 0xC0]; [0xC0; 0x04; 2; 0xC0]] /\
  (forall f, Some [0xC0; 0x02; 64; 0xC0] = Some f -> wr f <> len f) /\
  ((exists msg, fst (configure_device wr s) = inl (IOError msg)) /\
   io_log (snd (configure_device wr s)) =
     io_log s ++ StartReader ::
     map Write ([[0xC0; 0x01; 35; 0xC0]; [0xC0; 0x04; 2; 0xC0]] ++
                [[0xC0; 0x02; 64; 0xC0]])) /\
  online (snd (configure_device wr s)) = true /\
  interface_ready (snd (configure_device wr s)) = interface_ready s /\
  packet_queue (snd (configure_device wr s)) = packet_queue s.
Proof.
  intros wr s.
  assert (Hcf : command_frames s =
                map Some [[0xC0; 0x01; 35; 0xC0]; [0xC0; 0x04; 2; 0xC0]] ++
                Some [0xC0; 0x02; 64; 0xC0] ::
                [Some [0xC0; 0x03; 2; 0xC0]; Some [0xC0; 0x0F; 1; 0xC0]])
    by (vm_compute; reflexivity).
  assert (Htaken : Forall (fun g => wr g = len g)
                     [[0xC0; 0x01; 35; 0xC0]; [0xC0; 0x04; 2; 0xC0]])
    by (repeat constructor).
  assert (Hcmd : forall f, Some [0xC0; 0x02; 64; 0xC0] = Some f -> wr f <> len f).
  { intros f Hf. injection Hf as <-. vm_compute. discriminate. }
  split; [exact Hcf|]. split; [exact Htaken|]. split; [exact Hcmd|].
  exact (configure_device_failure wr s _ _ _ Hcf Htaken Hcmd).
Defined.

(** ** Sending and queueing *)

Lemma process_outgoing_offline (wr : bytes -> Z) (now : Q) (data : bytes) (s : iface) :
  online s = false -> process_outgoing wr now data s = (inr tt, s).
Proof. intros H. unfold process_outgoing. run_M. now rewrite H. Qed.

Lemma process_outgoing_busy (wr : bytes -> Z) (now : Q) (data : bytes) (s : iface) :
  online s = true ->
  interface_ready s = false ->
  process_outgoing wr now data s =
  (inr tt, set_packet_queue (packet_queue s ++ [data]) s).
Proof. intros H1 H2. unfold process_outgoing, queue. run_M. now rewrite H1, H2. Qed.

(** X3: while the interface is offline, payloads handed to
    [process_outgoing] vanish: no exception, nothing written, nothing
    queued, the interface exactly as it was, however many are sent. *)
Theorem offline_sends_are_dropped (wr : bytes -> Z) (now : Q) (ds : list bytes)
    (s : iface) :
  online s = false ->
  send_all wr now ds s = s /\
  Forall (fun d => fst (process_outgoing wr now d s) = inr tt) ds.
Proof.
  intros Hoff. split.
  - unfold send_all. induction ds as [|d ds IH]; [reflexivity|].
    cbn [fold_left]. now rewrite process_outgoing_offline.
  - apply Forall_forall. intros d _. now rewrite process_outgoing_offline.
Qed.

Lemma offline_sends_are_dropped_witness :
  let s := set_online false example_iface in
  online s = false /\
  send_all writes_all 0%Q [[1]; [2]; [3]] s = s.
Proof.
  intros s.
  assert (Hoff : online s = false) by (vm_compute; reflexivity).
  split; [exact Hoff|].
  exact (proj1 (offline_sends_are_dropped writes_all 0%Q [[1]; [2]; [3]] s Hoff)).
Defined.

Lemma send_all_busy (wr : bytes -> Z) (now : Q) (ds : list bytes) (s : iface) :
  online s = true ->
  interface_ready s = false ->
  send_all wr now ds s = set_packet_queue (packet_queue s ++ ds) s.
Proof.
  unfold send_all. revert s. induction ds as [|d ds IH]; intros s Hon Hbusy.
  - cbn [fold_left]. rewrite app_nil_r. now destruct s.
  - cbn [fold_left]. rewrite process_outgoing_busy by assumption. cbn [snd].
    rewrite IH by (fields; assumption). fields. now rewrite <- app_assoc.
Qed.

(** X4: while the interface is online and not ready, payloads handed to
    [process_outgoing] are appended to the queue in the order sent, behind
    what is queued already; nothing is written and nothing else about the
    interface changes. *)
Theorem busy_sends_queue_in_order (wr : bytes -> Z) (now : Q) (ds : list bytes)
    (s : iface) :
  online s = true ->
  interface_ready s = false ->
  send_all wr now ds s = set_packet_queue (packet_queue s ++ ds) s /\
  packet_queue (send_all wr now ds s) = packet_queue s ++ ds /\
  io_log (send_all wr now ds s) = io_log s /\
  interface_ready (send_all wr now ds s) = false.
Proof.
  intros Hon Hbusy. rewrite send_all_busy by assumption. fields.
  repeat split; auto.
Qed.

Lemma busy_sends_queue_in_order_witness :
  online example_busy = true /\
  interface_ready example_busy = false /\
  packet_queue example_busy = [[2]; [3]] /\
  packet_queue (send_all writes_all 0%Q [[4]; [5]] example_busy) =
    packet_queue example_busy ++ [[4]; [5]] /\
  io_log (send_all writes_all 0%Q [[4]; [5]] example_busy) = io_log example_busy.
Proof.
  assert (Hon : online example_busy = true) by (vm_compute; reflexivity).
  assert (Hbusy : interface_ready example_busy = false) by (vm_compute; reflexivity).
  assert (Hq : packet_queue example_busy = [[2]; [3]]) by (vm_compute; reflexivity).
  pose proof (busy_sends_queue_in_order writes_all 0%Q [[4]; [5]] example_busy Hon Hbusy)
    as (_ & H1 & H2 & _).
  split; [exact Hon|]. split; [exact Hbusy|]. split; [exact Hq|].
  split; [exact H1 | exact H2].
Defined.

(** X5: with flow control on, of a run of payloads sent to an online,
    ready interface whose transport takes the write, the first goes out
    and takes the lock (flag down, lock time set) and the others queue up
    behind it in the order sent. *)
Theorem flow_control_first_goes_rest_wait (wr : bytes -> Z) (now : Q) (d : bytes)
    (ds : list bytes) (s : iface) :
  flow_control s = true ->
  online s = true ->
  interface_ready s = true ->
  wr (kiss_frame s d) = len (kiss_frame s d) ->
  let s' := send_all wr now (d :: ds) s in
  io_log s' = io_log s ++ [Write (kiss_frame s d)] /\
  packet_queue s' = packet_queue s ++ ds /\
  interface_ready s' = false /\
  flow_control_locked s' = now /\
  txb s' = txb s + len d.
Proof.
  intros Hfc Hon Hrdy Hwr s'. subst s'. unfold send_all. cbn [fold_left].
  rewrite process_outgoing_sends by assumption. cbv zeta.
  rewrite Hfc, Hwr, Z.eqb_refl. cbn [negb snd].
  fold (send_all wr now ds
          (set_txb
             (txb (set_flow_control_locked now (set_interface_ready false s)) + len d)
             (set_io_log
                (io_log (set_flow_control_locked now (set_interface_ready false s)) ++
                 [Write (kiss_frame s d)])
                (set_flow_control_locked now (set_interface_ready false s))))).
  rewrite send_all_busy by (fields; assumption || reflexivity).
  fields. repeat split; reflexivity.
Qed.

Lemma flow_control_first_goes_rest_wait_witness :
  let s := set_interface_ready true (set_packet_queue [] example_busy) in
  let s' := send_all writes_all (7 # 2) [[1]; [2]; [3]] s in
  flow_control s = true /\ online s = true /\ interface_ready s = true /\
  io_log s' = io_log s ++ [Write (kiss_frame s [1])] /\
  packet_queue s' = packet_queue s ++ [[2]; [3]] /\
  interface_ready s' = false /\
  flow_control_locked s' = (7 # 2)%Q.
Proof.
  intros s s'.
  assert (Hfc : flow_control s = true) by (vm_compute; reflexivity).
  assert (Hon : online s = true) by (vm_compute; reflexivity).
  assert (Hrdy : interface_ready s = true) by (vm_compute; reflexivity).
  assert (Hwr : writes_all (kiss_frame s [1]) = len (kiss_frame s [1])) by reflexivity.
  pose proof (flow_control_first_goes_rest_wait writes_all (7 # 2) [1] [[2]; [3]] s
                Hfc Hon Hrdy Hwr) as H.
  cbv zeta in H. destruct H as (H1 & H2 & H3 & H4 & _).
  split; [exact Hfc|]. split; [exact Hon|]. split; [exact Hrdy|].
  split; [exact H1|]. split; [exact H2|]. split; [exact H3 | exact H4].
Defined.

(** X6: with flow control on, a send whose write comes back short puts the
    ready flag up again before it raises, so the interface is not left
    locked; a send whose write is whole leaves the flag down.  Either way
    the lock time is set and the payload length is added to [txb]. *)
Theorem short_write_unlocks (wr : bytes -> Z) (now : Q) (data : bytes) (s : iface) :
  flow_control s = true ->
  online s = true ->
  interface_ready s = true ->
  let res := process_outgoing wr now data s in
  interface_ready (snd res) = negb (wr (kiss_frame s data) =? len (kiss_frame s data)) /\
  (fst res = inr tt <-> wr (kiss_frame s data) = len (kiss_frame s data)) /\
  flow_control_locked (snd res) = now /\
  txb (snd res) = txb s + len data /\
  packet_queue (snd res) = packet_queue s.
Proof.
  intros Hfc Hon Hrdy res. subst res.
  rewrite process_outgoing_sends by assumption. cbv zeta. rewrite Hfc.
  destruct (Z.eqb_spec (wr (kiss_frame s data)) (len (kiss_frame s data)));
    cbn [negb fst snd]; fields; repeat split; auto; try discriminate; try tauto.
Qed.

Lemma short_write_unlocks_witness :
  let s := set_interface_ready true (set_packet_queue [] example_busy) in
  let res := process_outgoing (fun _ => 3) 0%Q [104; 105] s in
  flow_control s = true /\ online s = true /\ interface_ready s = true /\
  interface_ready (snd res) = true /\
  fst res = inl (IOError "AX.25 interface only wrote 3 bytes of 21").
Proof.
  intros s res.
  assert (Hfc : flow_control s = true) by (vm_compute; reflexivity).
  assert (Hon : online s = true) by (vm_compute; reflexivity).
  assert (Hrdy : interface_ready s = true) by (vm_compute; reflexivity).
  split; [exact Hfc|]. split; [exact Hon|]. split; [exact Hrdy|].
  subst res. split; [|vm_compute; reflexivity].
  rewrite (proj1 (short_write_unlocks (fun _ => 3) 0%Q [104; 105] s Hfc Hon Hrdy)).
  vm_compute; reflexivity.
Defined.

(** X7: [process_queue] on an offline interface takes the oldest payload
    off the queue and loses it: the ready flag goes up, nothing is
    written, no exception is raised. *)
Theorem process_queue_offline_loses_payload (wr : bytes -> Z) (now : Q) (d : bytes)
    (rest : list bytes) (s : iface) :
  online s = false ->
  packet_queue s = d :: rest ->
  process_queue wr now s = (inr tt, set_interface_ready true (set_packet_queue rest s)).
Proof.
  intros Hoff Hq. rewrite process_queue_eq, Hq.
  now rewrite process_outgoing_offline by exact Hoff.
Qed.

Lemma process_queue_offline_loses_payload_witness :
  online example_offline = false /\
  packet_queue example_offline = [[2]; [3]] /\
  process_queue writes_all 0%Q example_offline =
    (inr tt, set_interface_ready true (set_packet_queue [[3]] example_offline)).
Proof.
  assert (Hoff : online example_offline = false) by (vm_compute; reflexivity).
  assert (Hq : packet_queue example_offline = [[2]; [3]]) by (vm_compute; reflexivity).
  split; [exact Hoff|]. split; [exact Hq|].
  exact (process_queue_offline_loses_payload writes_all 0%Q [2] [[3]] example_offline
           Hoff Hq).
Defined.

(** X8: one round of the flow-control handshake.  With flow control on and
    the interface online, [process_queue] writes the oldest queued payload
    and leaves the flag down and the lock time set, waiting for the next
    ready signal; with nothing queued it only puts the flag up. *)
Theorem handshake_round (wr : bytes -> Z) (now : Q) (s : iface) :
  flow_control s = true ->
  online s = true ->
  (forall f, wr f = len f) ->
  let res := process_queue wr now s in
  fst res = inr tt /\
  (forall d rest, packet_queue s = d :: rest ->
     io_log (snd res) = io_log s ++ [Write (kiss_frame s d)] /\
     packet_queue (snd res) = rest /\
     interface_ready (snd res) = false /\
     flow_control_locked (snd res) = now) /\
  (packet_queue s = [] -> snd res = set_interface_ready true s).
Proof.
  intros Hfc Hon Hwr res. subst res. rewrite process_queue_eq.
  destruct (packet_queue s) as [|d rest] eqn:Hq.
  - split; [reflexivity|]. split; [intros ? ? H; discriminate H | reflexivity].
  - rewrite process_outgoing_sends by (fields; assumption || reflexivity).
    cbv zeta. fields. rewrite Hfc, Hwr, Z.eqb_refl. cbn [negb fst snd].
    split; [reflexivity|]. split; [|intros H; discriminate H].
    intros d' rest' H. injection H as <- <-. fields. repeat split; reflexivity.
Qed.

Lemma handshake_round_witness :
  flow_control example_busy = true /\ online example_busy = true /\
  packet_queue (snd (process_queue writes_all (9 # 1) example_busy)) = [[3]] /\
  interface_ready (snd (process_queue writes_all (9 # 1) example_busy)) = false /\
  io_log (snd (process_queue writes_all (9 # 1) example_busy)) =
    io_log example_busy ++ [Write (kiss_frame example_busy [2])].
Proof.
  assert (Hfc : flow_control example_busy = true) by (vm_compute; reflexivity).
  assert (Hon : online example_busy = true) by (vm_compute; reflexivity).
  assert (Hq : packet_queue example_busy = [[2]; [3]]) by (vm_compute; reflexivity).
  pose proof (handshake_round writes_all (9 # 1) example_busy Hfc Hon
                (fun f => eq_refl)) as H.
  cbv zeta in H. destruct H as (_ & H & _).
  destruct (H [2] [[3]] Hq) as (H1 & H2 & H3 & _).
  split; [exact Hfc|]. split; [exact Hon|].
  split; [exact H2|]. split; [exact H3 | exact H1].
Defined.

(** ** The reader on arbitrary streams *)

Lemma body_noise (wr : bytes -> Z) (b ms : Z) (t : Q) (r : reader) (s : iface) :
  in_frame r = false ->
  b <> KISS.FEND ->
  readLoop_body wr (Rx b ms t) r s =
  (inr tt, (mk_reader false (escape r) (command r) (data_buffer r) ms, s)).
Proof.
  intros Hin Hb. unfold readLoop_body.
  cbn [in_frame command escape data_buffer last_read_ms]. rewrite Hin.
  destruct (Z.eqb_spec b KISS.FEND); [contradiction|]. reflexivity.
Qed.

(** X9: bytes that arrive while the reader is outside a frame and are not
    the delimiter are ignored: the interface is untouched and the reader
    keeps its frame state. *)
Theorem noise_between_frames_ignored (wr : bytes -> Z) (bs : bytes)
    (evs : list event) (r : reader) (s : iface) :
  in_frame r = false ->
  Forall (fun b => b <> KISS.FEND) bs ->
  map rx_byte evs = map Some bs ->
  let res := readLoop_run wr evs r s in
  fst res = inr tt /\
  snd (snd res) = s /\
  in_frame (fst (snd res)) = false /\
  escape (fst (snd res)) = escape r /\
  command (fst (snd res)) = command r /\
  data_buffer (fst (snd res)) = data_buffer r.
Proof.
  intros Hin Hbs. revert evs r Hin.
  induction Hbs as [|b bs Hb _ IH]; intros evs r Hin Hevs.
  - destruct evs; [|discriminate]. cbn. repeat split; auto.
  - cbn [map] in Hevs. apply rx_inv in Hevs.
    destruct Hevs as (ms & t & evs' & -> & Hevs).
    cbn [readLoop_run]. destruct (serial_is_open s); [|cbn; repeat split; auto].
    rewrite body_noise by assumption.
    specialize (IH evs' (mk_reader false (escape r) (command r) (data_buffer r) ms)
                  eq_refl Hevs).
    exact IH.
Qed.

Lemma noise_between_frames_ignored_witness :
  in_frame (reader_start 0) = false /\
  Forall (fun b => b <> KISS.FEND) [0x00; 0xDB; 0x41] /\
  let res := readLoop_run writes_all (rx_all [0x00; 0xDB; 0x41]) (reader_start 0)
               example_busy in
  fst res = inr tt /\
  snd (snd res) = example_busy /\
  in_frame (fst (snd res)) = false /\
  escape (fst (snd res)) = escape (reader_start 0) /\
  command (fst (snd res)) = command (reader_start 0) /\
  data_buffer (fst (snd res)) = data_buffer (reader_start 0).
Proof.
  assert (Hbs : Forall (fun b => b <> KISS.FEND) [0x00; 0xDB; 0x41])
    by (repeat constructor; discriminate).
  split; [reflexivity|]. split; [exact Hbs|].
  exact (noise_between_frames_ignored writes_all [0x00; 0xDB; 0x41]
           (rx_all [0x00; 0xDB; 0x41]) (reader_start 0) example_busy
           eq_refl Hbs eq_refl).
Defined.

Lemma command_nibble_range (c : Z) : 0 <= Z.land c 0x0F < 16.
Proof.
  change 0x0F with (Z.ones 4). rewrite Z.land_ones by lia.
  apply Z.mod_pos_bound. reflexivity.
Qed.

Lemma body_other_command (wr : bytes -> Z) (b ms : Z) (t : Q) (esc : bool) (k : Z)
    (buf : bytes) (ms0 : Z) (s : iface) :
  b <> KISS.FEND ->
  k <> KISS.CMD_UNKNOWN -> k <> KISS.CMD_DATA -> k <> KISS.CMD_READY ->
  readLoop_body wr (Rx b ms t) (mk_reader true esc k buf ms0) s =
  (inr tt, (mk_reader true esc k buf ms, s)).
Proof.
  intros Hb Hu Hd Hr. unfold readLoop_body.
  cbn [in_frame command escape data_buffer last_read_ms].
  destruct (Z.eqb_spec b KISS.FEND); [contradiction|].
  destruct (Z.eqb_spec k KISS.CMD_UNKNOWN); [contradiction|].
  destruct (Z.eqb_spec k KISS.CMD_DATA); [contradiction|].
  destruct (Z.eqb_spec k KISS.CMD_READY); [contradiction|].
  cbn [andb].
  destruct (len buf <? HW_MTU s + AX25.HEADER_SIZE); [|reflexivity].
  destruct (len buf =? 0); reflexivity.
Qed.

Lemma run_other_command (wr : bytes -> Z) (s : iface) (k : Z) (vs : bytes) :
  serial_is_open s = true ->
  k <> KISS.CMD_UNKNOWN -> k <> KISS.CMD_DATA -> k <> KISS.CMD_READY ->
  Forall (fun b => b <> KISS.FEND) vs ->
  forall (evs more : list event) (esc : bool) (ms0 : Z),
  map rx_byte evs = map Some vs ->
  exists ms,
    readLoop_run wr (evs ++ more) (mk_reader true esc k [] ms0) s =
    readLoop_run wr more (mk_reader true esc k [] ms) s.
Proof.
  intros Hopen Hu Hd Hr Hvs.
  induction Hvs as [|b vs Hb _ IH]; intros evs more esc ms0 Hevs.
  - destruct evs; [|discriminate]. now exists ms0.
  - cbn [map] in Hevs. apply rx_inv in Hevs.
    destruct Hevs as (ms & t & evs' & -> & Hevs).
    cbn [app readLoop_run]. rewrite Hopen.
    rewrite body_other_command by assumption. now apply IH.
Qed.

(** X10: a frame whose command nibble is neither data nor ready is read
    and dropped: whatever bytes it carries, nothing is delivered, written
    or queued, and its closing delimiter leaves the reader at the start of
    a frame with an empty buffer. *)
Theorem other_command_frames_ignored (wr : bytes -> Z) (c : Z) (vs : bytes)
    (evs : list event) (r : reader) (s : iface) :
  between_frames r ->
  serial_is_open s = true ->
  0 < HW_MTU s + AX25.HEADER_SIZE ->
  c <> KISS.FEND ->
  Z.land c 0x0F <> KISS.CMD_DATA ->
  Z.land c 0x0F <> KISS.CMD_READY ->
  Forall (fun b => b <> KISS.FEND) vs ->
  map rx_byte evs = map Some ([KISS.FEND; c] ++ vs ++ [KISS.FEND]) ->
  exists ms,
    readLoop_run wr evs r s =
    (inr tt, (mk_reader true (escape r) KISS.CMD_UNKNOWN [] ms, s)).
Proof.
  intros Hr Hopen Hcap Hc Hd Hrdy Hvs Hevs.
  cbn [app map] in Hevs.
  apply rx_inv in Hevs. destruct Hevs as (m1 & t1 & evs1 & -> & Hevs).
  apply rx_inv in Hevs. destruct Hevs as (m2 & t2 & evs2 & -> & Hevs).
  rewrite map_app in Hevs. apply map_eq_app in Hevs.
  destruct Hevs as (body & last & -> & Hbody & Hlast).
  cbn [map] in Hlast. apply rx_inv in Hlast.
  destruct Hlast as (m3 & t3 & evs3 & -> & Hnil). destruct evs3; [|discriminate].
  cbn [readLoop_run]. rewrite Hopen.
  rewrite body_frame_start by exact Hr. rewrite Hopen.
  rewrite body_command by assumption.
  assert (Hu : Z.land c 0x0F <> KISS.CMD_UNKNOWN).
  { pose proof (command_nibble_range c). unfold KISS.CMD_UNKNOWN. lia. }
  destruct (run_other_command wr s (Z.land c 0x0F) vs Hopen Hu Hd Hrdy Hvs body
              [Rx KISS.FEND m3 t3] (escape r) m2 Hbody) as [ms ->].
  cbn [readLoop_run]. rewrite Hopen.
  rewrite body_frame_start by (right; exact Hd).
  exists m3. reflexivity.
Qed.

Lemma other_command_frames_ignored_witness :
  between_frames (reader_start 0) /\
  serial_is_open example_busy = true /\
  0 < HW_MTU example_busy + AX25.HEADER_SIZE /\
  exists ms,
    readLoop_run writes_all (rx_all ([KISS.FEND; 0x06] ++ [1; 2; 3] ++ [KISS.FEND]))
      (reader_start 0) example_busy =
    (inr tt, (mk_reader true (escape (reader_start 0)) KISS.CMD_UNKNOWN [] ms,
              example_busy)).
Proof.
  assert (Hr : between_frames (reader_start 0)) by (left; reflexivity).
  assert (Hopen : serial_is_open example_busy = true) by (vm_compute; reflexivity).
  assert (Hcap : 0 < HW_MTU example_busy + AX25.HEADER_SIZE) by (vm_compute; reflexivity).
  split; [exact Hr|]. split; [exact Hopen|]. split; [exact Hcap|].
  apply (other_command_frames_ignored writes_all 0x06 [1; 2; 3]
           (rx_all ([KISS.FEND; 0x06] ++ [1; 2; 3] ++ [KISS.FEND]))
           (reader_start 0) example_busy Hr Hopen Hcap).
  - discriminate.
  - discriminate.
  - discriminate.
  - repeat constructor; discriminate.
  - reflexivity.
Defined.

Lemma readLoop_body_HW_MTU (wr : bytes -> Z) (ev : event) (r : reader) (s : iface) :
  HW_MTU (snd (snd (readLoop_body wr ev r s))) = HW_MTU s.
Proof. apply settings_HW_MTU. apply readLoop_body_steady. Qed.

Lemma readLoop_body_cap (wr : bytes -> Z) (ev : event) (r : reader) (s : iface) :
  0 <= HW_MTU s + AX25.HEADER_SIZE ->
  len (data_buffer r) <= HW_MTU s + AX25.HEADER_SIZE ->
  len (data_buffer (fst (snd (readLoop_body wr ev r s)))) <= HW_MTU s + AX25.HEADER_SIZE.
Proof.
  intros Hcap Hlen. unfold readLoop_body, with_locals.
  destruct ev as [byte now_ms now | now_ms now_check now].
  - cbn [in_frame command escape data_buffer last_read_ms].
    destruct (in_frame r && (byte =? KISS.FEND) && (command r =? KISS.CMD_DATA));
      [exact Hlen|].
    destruct (byte =? KISS.FEND); [exact Hcap|].
    destruct (in_frame r); cbn [andb]; [|exact Hlen].
    destruct (Z.ltb_spec (len (data_buffer r)) (HW_MTU s + AX25.HEADER_SIZE));
      [|exact Hlen].
    destruct ((len (data_buffer r) =? 0) && (command r =? KISS.CMD_UNKNOWN));
      [exact Hlen|].
    destruct (command r =? KISS.CMD_DATA).
    + destruct (byte =? KISS.FESC); [exact Hlen|].
      destruct (escape r); cbn [fst snd data_buffer];
        rewrite len_app; change (len [_]) with 1; lia.
    + destruct (command r =? KISS.CMD_READY); exact Hlen.
  - assert (Hr : len (data_buffer
                        (if (0 <? len (data_buffer r)) &&
                            (timeout s <? now_ms - last_read_ms r)
                         then mk_reader false false KISS.CMD_UNKNOWN [] (last_read_ms r)
                         else r)) <= HW_MTU s + AX25.HEADER_SIZE).
    { destruct (_ && _); [exact Hcap | exact Hlen]. }
    destruct (flow_control s); [|exact Hr].
    destruct (negb (interface_ready s)); [|exact Hr].
    destruct (negb (Qle_bool _ _)); exact Hr.
Qed.

(** X11: the reader's buffer is bounded.  Starting within
    [HW_MTU + HEADER_SIZE] bytes, it stays within that many bytes whatever
    arrives and however long the stream is; bytes beyond the cap are
    dropped. *)
Theorem reader_buffer_bounded (wr : bytes -> Z) (evs : list event) (r : reader)
    (s : iface) :
  0 <= HW_MTU s + AX25.HEADER_SIZE ->
  len (data_buffer r) <= HW_MTU s + AX25.HEADER_SIZE ->
  len (data_buffer (fst (snd (readLoop_run wr evs r s)))) <= HW_MTU s + AX25.HEADER_SIZE.
Proof.
  revert r s. induction evs as [|ev evs IH]; intros r s Hcap Hlen;
    cbn [readLoop_run]; [exact Hlen|].
  destruct (serial_is_open s); [|exact Hlen].
  pose proof (readLoop_body_cap wr ev r s Hcap Hlen) as Hb.
  pose proof (readLoop_body_HW_MTU wr ev r s) as Hm.
  destruct (readLoop_body wr ev r s) as [[e|u] [r' s']]; cbn [fst snd] in *.
  - exact Hb.
  - rewrite <- Hm. apply IH; rewrite Hm; assumption.
Qed.

Lemma reader_buffer_bounded_witness :
  0 <= HW_MTU example_iface + AX25.HEADER_SIZE /\
  len (data_buffer (reader_start 0)) <= HW_MTU example_iface + AX25.HEADER_SIZE /\
  len (data_buffer (fst (snd (readLoop_run writes_all
                                (rx_all ([0xC0; 0x00] ++ repeat 7 600%nat))
                                (reader_start 0) example_iface))))
    <= HW_MTU example_iface + AX25.HEADER_SIZE.
Proof.
  assert (Hcap : 0 <= HW_MTU example_iface + AX25.HEADER_SIZE)
    by (vm_compute; discriminate).
  assert (Hlen : len (data_buffer (reader_start 0))
                 <= HW_MTU example_iface + AX25.HEADER_SIZE)
    by (vm_compute; discriminate).
  split; [exact Hcap|]. split; [exact Hlen|].
  exact (reader_buffer_bounded writes_all (rx_all ([0xC0; 0x00] ++ repeat 7 600%nat))
           (reader_start 0) example_iface Hcap Hlen).
Defined.

Lemma readLoop_body_no_raise (wr : bytes -> Z) (ev : event) (r : reader) (s : iface) :
  (forall f, wr f = len f) ->
  fst (readLoop_body wr ev r s) = inr tt.
Proof.
  intros Hwr.
  assert (Hq : forall t, fst (process_queue wr t s) = inr tt).
  { intros t. pose proof (process_queue_spec wr t s) as H. cbv zeta in H.
    now apply H. }
  assert (Hi : forall d, fst (process_incoming d s) = inr tt).
  { intros d. unfold process_incoming. run_M.
    destruct (AX25.HEADER_SIZE <? len d); reflexivity. }
  unfold readLoop_body, with_locals.
  destruct ev as [byte now_ms now | now_ms now_check now];
    split_ifs; cbn [fst]; auto.
Qed.

(** X12: of the interface's own code, only a short write makes the reader
    loop raise: on a transport that takes every write, no stream of bytes
    and idle iterations, whatever it holds, makes the loop body raise. *)
Theorem reader_never_raises (wr : bytes -> Z) (evs : list event) (r : reader)
    (s : iface) :
  (forall f, wr f = len f) ->
  fst (readLoop_run wr evs r s) = inr tt.
Proof.
  intros Hwr. revert r s. induction evs as [|ev evs IH]; intros r s;
    cbn [readLoop_run]; [reflexivity|].
  destruct (serial_is_open s); [|reflexivity].
  pose proof (readLoop_body_no_raise wr ev r s Hwr) as Hb.
  destruct (readLoop_body wr ev r s) as [[e|u] [r' s']]; cbn [fst] in Hb.
  - discriminate Hb.
  - apply IH.
Qed.

Lemma reader_never_raises_witness :
  (forall f, writes_all f = len f) /\
  fst (readLoop_run writes_all
         (rx_all [0xC0; 0x0F; 0x01; 0xDB; 0xC0; 0x00; 0xDB; 0xC0; 0xFF])
         (reader_start 0) example_busy) = inr tt.
Proof.
  split; [intros f; reflexivity|].
  exact (reader_never_raises writes_all
           (rx_all [0xC0; 0x0F; 0x01; 0xDB; 0xC0; 0x00; 0xDB; 0xC0; 0xFF])
           (reader_start 0) example_busy (fun f => eq_refl)).
Defined.

(** ** Data frames in general *)

(** A data frame, read from outside a frame with the escape flag down:
    the buffer ends up holding the unescaped content and is handed to
    [process_incoming]. *)
Lemma frame_decoded (wr : bytes -> Z) (c : Z) (data : bytes) (evs : list event)
    (r : reader) (s : iface) :
  serial_is_open s = true ->
  between_frames r ->
  escape r = false ->
  Z.land c 0x0F = KISS.CMD_DATA ->
  c <> KISS.FEND ->
  0 < HW_MTU s + AX25.HEADER_SIZE ->
  len data <= HW_MTU s + AX25.HEADER_SIZE ->
  map rx_byte evs = map Some ([KISS.FEND; c] ++ KISS.escape data ++ [KISS.FEND]) ->
  exists ms,
    readLoop_run wr evs r s =
    (inr tt, (mk_reader false false KISS.CMD_DATA data ms,
              snd (process_incoming data s))).
Proof.
  intros Hopen Hr Hesc Hc Hc' Hcap Hlen Hevs.
  cbn [app map] in Hevs.
  apply rx_inv in Hevs. destruct Hevs as (m1 & t1 & evs1 & -> & Hevs).
  apply rx_inv in Hevs. destruct Hevs as (m2 & t2 & evs2 & -> & Hevs).
  rewrite map_app in Hevs. apply map_eq_app in Hevs.
  destruct Hevs as (body & last & -> & Hbody & Hlast).
  cbn [map] in Hlast. apply rx_inv in Hlast.
  destruct Hlast as (m3 & t3 & evs3 & -> & Hnil). destruct evs3; [|discriminate].
  cbn [readLoop_run]. rewrite Hopen.
  rewrite body_frame_start by exact Hr. rewrite Hopen, Hesc.
  rewrite body_command by assumption. rewrite Hc.
  destruct (run_escaped wr s data Hopen body [Rx KISS.FEND m3 t3] [] m2 Hbody)
    as [ms ->].
  { change (len (@nil Z)) with 0. lia. }
  cbn [app readLoop_run]. rewrite Hopen, body_data_end. unfold with_locals.
  exists m3. f_equal.
  unfold process_incoming. run_M.
  destruct (AX25.HEADER_SIZE <? len data); reflexivity.
Qed.



(** X14: a stream of data frames, each built by [process_outgoing] for a
    payload of 1 to [HW_MTU] bytes and each with its own two delimiters,
    is delivered frame by frame: one delivery per frame, the payloads in
    the order the frames arrive, and nothing else. *)
Theorem frames_delivered_in_order (wr : bytes -> Z) (tx : iface)
    (payloads : list bytes) (frames : list (list event)) :
  Forall2 (fun evs p => map rx_byte evs = map Some (kiss_frame tx p)) frames payloads ->
  forall (r : reader) (rx : iface),
  serial_is_open rx = true ->
  in_frame r = false ->
  escape r = false ->
  Forall (fun p => 1 <= len p <= HW_MTU rx) payloads ->
  let res := readLoop_run wr (List.concat frames) r rx in
  fst res = inr tt /\
  io_log (snd (snd res)) = io_log rx ++ map Inbound payloads /\
  in_frame (fst (snd res)) = false.
Proof.
  induction 1 as [|evs p frames payloads Hevs _ IH]; intros r rx Hopen Hin Hesc Hlens.
  - cbn. rewrite app_nil_r. auto.
  - inversion Hlens as [|? ? Hp Hrest]; subst.
    cbn [List.concat map]. rewrite readLoop_run_app.
    rewrite kiss_frame_eq in Hevs.
    assert (Hcap : 0 < HW_MTU rx + AX25.HEADER_SIZE) by (unfold AX25.HEADER_SIZE; lia).
    assert (Hlen : len (header tx ++ p) <= HW_MTU rx + AX25.HEADER_SIZE)
      by (rewrite len_app, header_length; lia).
    destruct (frame_decoded wr 0 (header tx ++ p) evs r rx Hopen (or_introl Hin) Hesc
                eq_refl ltac:(discriminate) Hcap Hlen Hevs) as [ms ->].
    rewrite process_incoming_long
      by (rewrite len_app, header_length; unfold AX25.HEADER_SIZE; lia).
    cbn [snd].
    rewrite skipn_app, <- (header_length_nat tx), skipn_all, Nat.sub_diag.
    cbn [app skipn].
    match goal with |- context [readLoop_run wr _ ?r1 ?s1] =>
      specialize (IH r1 s1 Hopen eq_refl eq_refl Hrest) end.
    cbv zeta in IH. destruct IH as (IH1 & IH2 & IH3).
    split; [exact IH1|]. split; [|exact IH3].
    rewrite IH2. fields. now rewrite <- app_assoc.
Qed.

Lemma frames_delivered_in_order_witness :
  Forall2 (fun evs p => map rx_byte evs = map Some (kiss_frame example_busy p))
    [rx_all (kiss_frame example_busy [104; 105]); rx_all (kiss_frame example_busy [0xC0])]
    [[104; 105]; [0xC0]] /\
  serial_is_open example_iface = true /\
  Forall (fun p => 1 <= len p <= HW_MTU example_iface) [[104; 105]; [0xC0]] /\
  let res := readLoop_run writes_all
               (List.concat [rx_all (kiss_frame example_busy [104; 105]);
                             rx_all (kiss_frame example_busy [0xC0])])
               (reader_start 0) example_iface in
  fst res = inr tt /\
  io_log (snd (snd res)) = io_log example_iface ++ map Inbound [[104; 105]; [0xC0]] /\
  in_frame (fst (snd res)) = false.
Proof.
  assert (Hf : Forall2 (fun evs p => map rx_byte evs = map Some (kiss_frame example_busy p))
                 [rx_all (kiss_frame example_busy [104; 105]);
                  rx_all (kiss_frame example_busy [0xC0])]
                 [[104; 105]; [0xC0]])
    by (repeat constructor; vm_compute; reflexivity).
  assert (Hopen : serial_is_open example_iface = true) by (vm_compute; reflexivity).
  assert (Hl : Forall (fun p => 1 <= len p <= HW_MTU example_iface) [[104; 105]; [0xC0]])
    by (repeat constructor; vm_compute; discriminate).
  split; [exact Hf|]. split; [exact Hopen|]. split; [exact Hl|].
  exact (frames_delivered_in_order writes_all example_busy [[104; 105]; [0xC0]] _ Hf
           (reader_start 0) example_iface Hopen eq_refl eq_refl Hl).
Defined.

(** ** Construction, continued *)

Lemma init_valid_prefix (now : Q) (opens : option bool) (wr : bytes -> Z)
    (c : configuration) (p : string) (callsign : text) (src : bytes) (ssid : Z) :
  c_port c = Some p ->
  c_callsign c = Some callsign ->
  c_ssid c = Some ssid ->
  encode_ascii (upper callsign) = Some src ->
  3 <= len src <= 6 ->
  0 <= ssid <= 15 ->
  __init__ now opens wr c fresh =
  (open_port opens ;;
   is_open <- gets serial_is_open ;;
   if is_open then configure_device wr
   else raise (IOError "Could not open serial port"))
    (set_tuning (or_default (c_preamble c) 350) (or_default (c_txtail c) 20)
       (or_default (c_persistence c) 64) (or_default (c_slottime c) 20)
       (mk_iface (c_name c) (Some p) src ssid [65; 80; 90; 82; 78; 83] 0 564 100
          false [] (or_default (c_flow_control c) false) false 5 now 0 0 0 0
          None 0 0 [])).
Proof.
  intros Hp Hc Hs Henc Hlen Hssid.
  unfold __init__. rewrite Hp, Hc, Hs. cbn [or_default]. rewrite Henc.
  unfold bind at 1. unfold modify at 1. unfold bind at 1. unfold gets at 1.
  cbn [src_call src_ssid].
  destruct (Z.ltb_spec (len src) 3); [lia|].
  destruct (Z.ltb_spec 6 (len src)); [lia|].
  destruct (Z.ltb_spec ssid 0); [lia|].
  destruct (Z.ltb_spec 15 ssid); [lia|].
  cbn [orb]. unfold bind at 1. unfold modify at 1. reflexivity.
Qed.

(** X15: every configuration with a port, a callsign whose upper case is
    an ASCII string of 3 to 6 characters (an ASCII callsign of 3 to 6
    characters among them), an SSID within 0..15 and timing settings,
    given or defaulted, small enough for their tenth to be a float is
    accepted when the port opens and the transport takes every write:
    construction returns with the interface online and ready, the queue
    empty, the callsign stored in upper case, and the transport has been
    opened once and sent the five configuration commands, with the
    defaults 350, 20, 64 and 20 for the keys that are absent. *)
Theorem init_accepts_valid (now : Q) (wr : bytes -> Z) (c : configuration)
    (p : string) (callsign : text) (src : bytes) (ssid : Z) :
  c_port c = Some p ->
  c_callsign c = Some callsign ->
  c_ssid c = Some ssid ->
  encode_ascii (upper callsign) = Some src ->
  3 <= len src <= 6 ->
  0 <= ssid <= 15 ->
  Z.abs (or_default (c_preamble c) 350) < division_limit ->
  Z.abs (or_default (c_txtail c) 20) < division_limit ->
  Z.abs (or_default (c_slottime c) 20) < division_limit ->
  (forall f, wr f = len f) ->
  let res := __init__ now (Some true) wr c fresh in
  fst res = inr tt /\
  online (snd res) = true /\
  interface_ready (snd res) = true /\
  packet_queue (snd res) = [] /\
  serial (snd res) = Some true /\
  flow_control (snd res) = or_default (c_flow_control c) false /\
  src_call (snd res) = src /\
  (ascii_text callsign = true -> len src = len callsign) /\
  src_ssid (snd res) = ssid /\
  io_log (snd res) =
    [OpenPort p; StartReader;
     Write [KISS.FEND; KISS.CMD_TXDELAY; tens_byte (or_default (c_preamble c) 350);
            KISS.FEND];
     Write [KISS.FEND; KISS.CMD_TXTAIL; tens_byte (or_default (c_txtail c) 20);
            KISS.FEND];
     Write [KISS.FEND; KISS.CMD_P;
            Z.max 0 (Z.min 255 (or_default (c_persistence c) 64)); KISS.FEND];
     Write [KISS.FEND; KISS.CMD_SLOTTIME; tens_byte (or_default (c_slottime c) 20);
            KISS.FEND];
     Write [KISS.FEND; KISS.CMD_READY; 1; KISS.FEND]].
Proof.
  intros Hp Hc Hs Henc Hlen Hssid Hpre Htail Hslot Hwr res. subst res.
  rewrite (init_valid_prefix now (Some true) wr c p callsign src ssid Hp Hc Hs Henc
             Hlen Hssid).
  unfold open_port. run_M. fields. unfold serial_is_open. fields.
  rewrite configure_device_ok;
    [|exact Hwr|unfold timings_in_float_range; fields; repeat split; assumption].
  fields. rewrite clamp_byte_max_min.
  repeat split; try reflexivity.
  intros Ha. destruct (encode_upper callsign Ha) as (src' & Henc' & Hl & _).
  congruence.
Qed.

Lemma init_accepts_valid_witness :
  encode_ascii (upper (text_of "n0call")) = Some [78; 48; 67; 65; 76; 76] /\
  3 <= len [78; 48; 67; 65; 76; 76] <= 6 /\
  0 <= 15 <= 15 /\
  let res := __init__ 0%Q (Some true) writes_all (configuration_of "n0call" (Some 15))
               fresh in
  fst res = inr tt /\
  online (snd res) = true /\
  interface_ready (snd res) = true /\
  src_call (snd res) = [78; 48; 67; 65; 76; 76] /\
  io_log (snd res) =
    [OpenPort "/dev/ttyUSB0"; StartReader; Write [0xC0; 0x01; 35; 0xC0];
     Write [0xC0; 0x04; 2; 0xC0]; Write [0xC0; 0x02; 64; 0xC0];
     Write [0xC0; 0x03; 2; 0xC0]; Write [0xC0; 0x0F; 1; 0xC0]].
Proof.
  assert (Henc : encode_ascii (upper (text_of "n0call")) = Some [78; 48; 67; 65; 76; 76])
    by (vm_compute; reflexivity).
  assert (Hlen : 3 <= len [78; 48; 67; 65; 76; 76] <= 6) by (vm_compute; split; discriminate).
  assert (Hssid : 0 <= 15 <= 15) by lia.
  assert (Hlim : Z.abs 350 < division_limit /\ Z.abs 20 < division_limit)
    by (vm_compute; split; reflexivity).
  split; [exact Henc|]. split; [exact Hlen|]. split; [exact Hssid|].
  pose proof (init_accepts_valid 0%Q writes_all (configuration_of "n0call" (Some 15))
                "/dev/ttyUSB0" (text_of "n0call") [78; 48; 67; 65; 76; 76] 15
                eq_refl eq_refl eq_refl Henc Hlen Hssid
                (proj1 Hlim) (proj2 Hlim) (proj2 Hlim) (fun f => eq_refl)) as H.
  cbv zeta in H. destruct H as (H1 & H2 & H3 & _ & _ & _ & H7 & _ & _ & H9).
  cbv zeta. split; [exact H1|]. split; [exact H2|]. split; [exact H3|].
  split; [exact H7 | exact H9].
Defined.

(** X16: with a valid configuration, a port that does not open makes
    construction fail after the one attempt and before any write: the
    transport's own exception is passed on when opening raises, and
    [IOError] is raised when the [Serial] object comes back closed.  The
    interface is left offline and not ready. *)
Theorem init_port_does_not_open (now : Q) (opens : option bool) (wr : bytes -> Z)
    (c : configuration) (p : string) (callsign : text) (ssid : Z) :
  c_port c = Some p ->
  c_callsign c = Some callsign ->
  c_ssid c = Some ssid ->
  ascii_text callsign = true ->
  3 <= len callsign <= 6 ->
  0 <= ssid <= 15 ->
  opens <> Some true ->
  let res := __init__ now opens wr c fresh in
  fst res = inl (match opens with
                 | None => SerialException
                 | Some _ => IOError "Could not open serial port"
                 end) /\
  io_log (snd res) = [OpenPort p] /\
  online (snd res) = false /\
  interface_ready (snd res) = false.
Proof.
  intros Hp Hc Hs Hascii Hlen Hssid Hopens res. subst res.
  destruct (encode_upper callsign Hascii) as (src & Henc & Hsl & _).
  rewrite (init_valid_prefix now opens wr c p callsign src ssid Hp Hc Hs Henc
             ltac:(lia) Hssid).
  unfold open_port. run_M. fields.
  destruct opens as [[|]|]; [contradiction | |];
    unfold serial_is_open; fields; repeat split; reflexivity.
Qed.

Lemma init_port_does_not_open_witness :
  ascii_text (text_of "abc") = true /\
  3 <= len (text_of "abc") <= 6 /\
  0 <= 5 <= 15 /\
  @None bool <> Some true /\
  let res := __init__ 0%Q None writes_all (configuration_of "abc" (Some 5)) fresh in
  fst res = inl SerialException /\
  io_log (snd res) = [OpenPort "/dev/ttyUSB0"] /\
  online (snd res) = false /\
  interface_ready (snd res) = false.
Proof.
  assert (Hlen : 3 <= len (text_of "abc") <= 6) by (vm_compute; split; discriminate).
  assert (Hssid : 0 <= 5 <= 15) by lia.
  assert (Hno : @None bool <> Some true) by discriminate.
  split; [reflexivity|]. split; [exact Hlen|]. split; [exact Hssid|].
  split; [exact Hno|].
  exact (init_port_does_not_open 0%Q None writes_all (configuration_of "abc" (Some 5))
           "/dev/ttyUSB0" (text_of "abc") 5 eq_refl eq_refl eq_refl eq_refl Hlen Hssid
           Hno).
Defined.

(** X17: the order of the configuration checks, for a configuration whose
    values have the types [__init__] expects.  A missing port is reported
    whatever else is wrong.  With a port, a callsign whose upper case has
    a character outside ASCII raises [UnicodeEncodeError] whatever the
    SSID; a stored callsign of the wrong length is reported before a bad
    SSID; the message names the interface.  Nothing is asked of the
    transport in any of these cases. *)
Theorem init_error_precedence (now : Q) (opens : option bool) (wr : bytes -> Z)
    (c : configuration) :
  let callsign := or_default (c_callsign c) [] in
  let ssid := or_default (c_ssid c) (-1) in
  let res := __init__ now opens wr c fresh in
  (c_port c = None ->
   res = (inl (ValueError "No port specified for serial interface"), fresh)) /\
  (c_port c <> None ->
   encode_ascii (upper callsign) = None ->
   fst res = inl UnicodeEncodeError /\ io_log (snd res) = []) /\
  (forall src,
     c_port c <> None ->
     encode_ascii (upper callsign) = Some src ->
     len src < 3 \/ 6 < len src ->
     fst res =
     inl (ValueError ("Invalid callsign for AX25KISSInterface[" ++ c_name c ++ "]")) /\
     io_log (snd res) = []) /\
  (forall src,
     c_port c <> None ->
     encode_ascii (upper callsign) = Some src ->
     3 <= len src <= 6 ->
     ssid < 0 \/ 15 < ssid ->
     fst res =
     inl (ValueError ("Invalid SSID for AX25KISSInterface[" ++ c_name c ++ "]")) /\
     io_log (snd res) = []).
Proof.
  intros callsign ssid res. subst res. split; [|split; [|split]].
  - intros Hp. unfold __init__. now rewrite Hp.
  - intros Hp Henc. unfold __init__.
    destruct (c_port c) as [p|]; [|contradiction]. fold callsign. rewrite Henc.
    split; reflexivity.
  - intros src Hp Henc Hlen. unfold __init__.
    destruct (c_port c) as [p|]; [|contradiction]. fold callsign. rewrite Henc.
    cbv [bind modify gets raise]. cbn [src_call src_ssid].
    destruct (Z.ltb_spec (len src) 3); [split; reflexivity|].
    destruct (Z.ltb_spec 6 (len src)); [split; reflexivity|]. lia.
  - intros src Hp Henc Hlen Hssid. unfold __init__.
    destruct (c_port c) as [p|]; [|contradiction]. fold callsign ssid. rewrite Henc.
    cbv [bind modify gets raise]. cbn [src_call src_ssid].
    destruct (Z.ltb_spec (len src) 3); [lia|].
    destruct (Z.ltb_spec 6 (len src)); [lia|]. cbn [orb].
    destruct (Z.ltb_spec ssid 0); [split; reflexivity|].
    destruct (Z.ltb_spec 15 ssid); [split; reflexivity|]. lia.
Qed.

(** The callsign [a], sharp s with the SSID 16: the stored callsign [ASS]
    has three characters and the SSID is what is reported. *)
Example init_reports_ssid_after_upper_case :
  fst (__init__ 0%Q (Some true) writes_all
         (mk_configuration "ax25" None None None None None
            (Some "/dev/ttyUSB0"%string) (Some [97; 0xDF]) (Some 16)) fresh) =
  inl (ValueError "Invalid SSID for AX25KISSInterface[ax25]").
Proof. vm_compute. reflexivity. Qed.

(** ** Reconnecting *)

Lemma configure_device_log (wr : bytes -> Z) (s : iface) :
  exists tail, io_log (snd (configure_device wr s)) = io_log s ++ StartReader :: tail.
Proof.
  rewrite configure_device_chain. cbv zeta.
  repeat next_command; fields; repeat rewrite <- app_assoc; cbn [app];
    eexists; reflexivity.
Qed.

Lemma reconnect_port_online (answers : list (option bool * (bytes -> Z))) (s : iface) :
  online s = true -> reconnect_port answers s = Some s.
Proof. intros H. destruct answers; cbn [reconnect_port]; now rewrite H. Qed.

Lemma reconnect_attempt_closed (opens : option bool) (wr : bytes -> Z) (s : iface) :
  opens <> Some true ->
  let s' := snd (reconnect_attempt opens wr s) in
  online s' = online s /\
  packet_queue s' = packet_queue s /\
  interface_ready s' = interface_ready s /\
  settings s' = settings s /\
  io_log s' = io_log s ++ [OpenPort (or_default (port s) EmptyString)] /\
  (timings_in_float_range s -> timings_in_float_range s').
Proof.
  intros Hopens. unfold reconnect_attempt, open_port. run_M. unfold serial_is_open.
  destruct opens as [[|]|]; [contradiction | |]; fields; repeat split;
    try reflexivity; apply H.
Qed.

Lemma reconnect_attempt_open (wr : bytes -> Z) (s : iface) :
  let s' := snd (reconnect_attempt (Some true) wr s) in
  online s' = true /\
  serial s' = Some true /\
  packet_queue s' = packet_queue s /\
  settings s' = settings s /\
  (interface_ready s = true -> interface_ready s' = true) /\
  ((forall f, wr f = len f) -> timings_in_float_range s ->
   interface_ready s' = true) /\
  exists tail,
    io_log s' =
    io_log s ++ OpenPort (or_default (port s) EmptyString) :: StartReader :: tail.
Proof.
  unfold reconnect_attempt, open_port. run_M. unfold serial_is_open. fields.
  match goal with |- context [configure_device wr ?s0] => set (s1 := s0) end.
  pose proof (configure_device_spec wr s1) as H. cbv zeta in H.
  destruct H as (Hset & Hq & Hser & Hon & Hok & Hrdy).
  destruct (configure_device_log wr s1) as [tail Hlog].
  repeat split; try assumption.
  - intros Hwr Hrange. rewrite configure_device_ok; [reflexivity | exact Hwr |].
    exact Hrange.
  - exists tail. rewrite Hlog. subst s1. fields. now rewrite <- app_assoc.
Qed.

(** X18: [reconnect_port] keeps trying while the port does not open, each
    failed round only asking the transport to open, and never gives up:
    with nothing but failures it is still looping.  It ends with the
    first round in which the port opens, whatever the configuration
    writes of that round return: the interface is online with its port
    open, the reader started, and the queue and settings as they were
    when it went offline; the flag is up if it was up before, or if the
    writes were all taken and the timing settings are small enough for
    their tenth to be a float. *)
Theorem reconnect_port_until_open (failed rest : list (option bool * (bytes -> Z)))
    (wr : bytes -> Z) (s : iface) :
  online s = false ->
  Forall (fun a => fst a <> Some true) failed ->
  reconnect_port failed s = None /\
  exists s',
    reconnect_port (failed ++ (Some true, wr) :: rest) s = Some s' /\
    online s' = true /\
    serial s' = Some true /\
    packet_queue s' = packet_queue s /\
    settings s' = settings s /\
    (interface_ready s = true -> interface_ready s' = true) /\
    ((forall f, wr f = len f) -> timings_in_float_range s ->
     interface_ready s' = true) /\
    exists tail,
      io_log s' =
      io_log s ++
      repeat (OpenPort (or_default (port s) EmptyString)) (List.length failed) ++
      OpenPort (or_default (port s) EmptyString) :: StartReader :: tail.
Proof.
  intros Hoff Hfailed. revert s Hoff.
  induction Hfailed as [|[opens w] failed Ha _ IH]; intros s Hoff.
  - split; [cbn; now rewrite Hoff|].
    cbn [app reconnect_port]. rewrite Hoff.
    pose proof (reconnect_attempt_open wr s) as H. cbv zeta in H.
    destruct H as (Hon & Hser & Hq & Hset & Hr1 & Hr2 & tail & Hlog).
    exists (snd (reconnect_attempt (Some true) wr s)).
    rewrite reconnect_port_online by exact Hon.
    repeat split; try assumption. exists tail. exact Hlog.
  - cbn [fst] in Ha.
    pose proof (reconnect_attempt_closed opens w s Ha) as H. cbv zeta in H.
    destruct H as (Hon & Hq & Hrdy & Hset & Hlog & Hrange).
    assert (Hoff' : online (snd (reconnect_attempt opens w s)) = false) by congruence.
    destruct (IH _ Hoff') as (Hnone & s' & Hrun & H1 & H2 & H3 & H4 & H5 & H6 & tail & H7).
    split; [cbn [reconnect_port]; now rewrite Hoff|].
    exists s'. cbn [app reconnect_port]. rewrite Hoff.
    split; [exact Hrun|]. split; [exact H1|]. split; [exact H2|].
    split; [congruence|]. split; [congruence|].
    split; [intros Hr; apply H5; congruence|].
    split; [intros Hwr Hr; exact (H6 Hwr (Hrange Hr))|].
    exists tail. rewrite H7, Hlog.
    assert (Hport : port (snd (reconnect_attempt opens w s)) = port s).
    { unfold settings in Hset. injection Hset as E1 E2 E3 E4 E5 E6 E7 E8 E9 E10.
      exact E2. }
    rewrite Hport. cbn [List.length repeat]. rewrite <- app_assoc. reflexivity.
Qed.

Lemma reconnect_port_until_open_witness :
  online example_offline = false /\
  Forall (fun a : option bool * (bytes -> Z) => fst a <> Some true)
    [(None, writes_all); (Some false, writes_all)] /\
  reconnect_port [(None, writes_all); (Some false, writes_all)] example_offline = None /\
  exists s',
    reconnect_port ([(None, writes_all); (Some false, writes_all)] ++
                    (Some true, fun _ => 0) :: []) example_offline = Some s' /\
    online s' = true /\
    serial s' = Some true /\
    packet_queue s' = packet_queue example_offline /\
    settings s' = settings example_offline /\
    (interface_ready example_offline = true -> interface_ready s' = true) /\
    ((forall f, (fun _ : bytes => 0) f = len f) ->
     timings_in_float_range example_offline -> interface_ready s' = true) /\
    exists tail,
      io_log s' =
      io_log example_offline ++
      repeat (OpenPort (or_default (port example_offline) EmptyString))
        (List.length [(@None bool, writes_all); (Some false, writes_all)]) ++
      OpenPort (or_default (port example_offline) EmptyString) :: StartReader :: tail.
Proof.
  assert (Hoff : online example_offline = false) by (vm_compute; reflexivity).
  assert (Hf : Forall (fun a : option bool * (bytes -> Z) => fst a <> Some true)
                 [(None, writes_all); (Some false, writes_all)])
    by (repeat constructor; discriminate).
  split; [exact Hoff|]. split; [exact Hf|].
  exact (reconnect_port_until_open [(None, writes_all); (Some false, writes_all)] []
           (fun _ => 0) example_offline Hoff Hf).
Defined.

(** ** The flow-control time-out *)

Lemma Qle_bool_false_lt (x y : Q) : (y < x)%Q -> Qle_bool x y = false.
Proof.
  intros H. destruct (Qle_bool x y) eqn:E; [|reflexivity].
  apply Qle_bool_iff in E. exfalso. exact (Qlt_not_le _ _ H E).
Qed.



(** ** Escaping, continued *)

Lemma count_occ_cons_Z (x y : Z) (l : bytes) :
  Z.of_nat (count_occ Z.eq_dec (x :: l) y) =
  (if x =? y then 1 else 0) + Z.of_nat (count_occ Z.eq_dec l y).
Proof.
  cbn [count_occ]. destruct (Z.eq_dec x y) as [->|Hne].
  - rewrite Z.eqb_refl. lia.
  - destruct (Z.eqb_spec x y); [contradiction | lia].
Qed.

(** X20: escaping lengthens the data by one byte for each delimiter and
    each escape byte in it and by nothing else, so the frame for a payload
    has 19 bytes (two delimiters, the command byte, the 16-byte header)
    plus the payload plus one byte for each reserved byte in header and
    payload. *)
Theorem escape_length (self : iface) (data : bytes) :
  len (KISS.escape data) =
    len data + Z.of_nat (count_occ Z.eq_dec data KISS.FEND)
             + Z.of_nat (count_occ Z.eq_dec data KISS.FESC) /\
  len (kiss_frame self data) =
    19 + len data
       + Z.of_nat (count_occ Z.eq_dec (header self ++ data) KISS.FEND)
       + Z.of_nat (count_occ Z.eq_dec (header self ++ data) KISS.FESC).
Proof.
  assert (H : forall d, len (KISS.escape d) =
                len d + Z.of_nat (count_occ Z.eq_dec d KISS.FEND)
                      + Z.of_nat (count_occ Z.eq_dec d KISS.FESC)).
  { induction d as [|x d IH]; [reflexivity|].
    rewrite escape_cons, len_app, IH, !count_occ_cons_Z.
    change (x :: d) with ([x] ++ d). rewrite len_app. change (len [x]) with 1.
    unfold escape_byte.
    destruct (Z.eqb_spec x KISS.FESC) as [->|Hesc].
    - change (KISS.FESC =? KISS.FEND) with false. change (len [_; _]) with 2. lia.
    - destruct (Z.eqb_spec x KISS.FEND) as [->|Hend].
      + change (len [_; _]) with 2. lia.
      + change (len [x]) with 1. lia. }
  split; [apply H|].
  rewrite kiss_frame_eq, !len_app, H, len_app, header_length.
  change (len [KISS.FEND; 0]) with 2. change (len [KISS.FEND]) with 1.
  unfold AX25.HEADER_SIZE. lia.
Qed.

Lemma escape_byte_head (x : Z) : exists h t, escape_byte x = h :: t.
Proof.
  unfold escape_byte.
  destruct (x =? KISS.FESC); [|destruct (x =? KISS.FEND)]; eexists; eexists; reflexivity.
Qed.

Lemma escape_injective (a : bytes) :
  forall b, KISS.escape a = KISS.escape b -> a = b.
Proof.
  induction a as [|x a IH]; intros [|y b] H.
  - reflexivity.
  - rewrite escape_cons in H. destruct (escape_byte_head y) as (h & t & E).
    rewrite E in H. discriminate H.
  - rewrite escape_cons in H. destruct (escape_byte_head x) as (h & t & E).
    rewrite E in H. discriminate H.
  - rewrite !escape_cons in H. unfold escape_byte in H.
    destruct (Z.eqb_spec x KISS.FESC) as [->|Hx];
      [|destruct (Z.eqb_spec x KISS.FEND) as [->|Hx']];
      (destruct (Z.eqb_spec y KISS.FESC) as [->|Hy];
       [|destruct (Z.eqb_spec y KISS.FEND) as [->|Hy']]);
      cbn [app] in H; injection H; intros; subst;
      try discriminate; try congruence;
      try (f_equal; apply IH; assumption).
Qed.

(** X21: escaping loses nothing: two byte strings with the same escaped
    form are the same, and two payloads for which an interface builds the
    same frame are the same payload. *)
Theorem frames_tell_payloads_apart (self : iface) (a b : bytes) :
  (KISS.escape a = KISS.escape b -> a = b) /\
  (kiss_frame self a = kiss_frame self b -> a = b).
Proof.
  split; [apply escape_injective|].
  rewrite !kiss_frame_eq. intros H.
  apply app_inv_head in H. apply app_inv_tail in H.
  apply escape_injective in H. now apply app_inv_head in H.
Qed.

(** ** The address field, continued *)

Lemma shifted_even (x : Z) : Z.even (Z.shiftl x 1) = true.
Proof.
  rewrite Z.shiftl_mul_pow2 by lia. rewrite Z.even_mul.
  change (Z.even (2 ^ 1)) with true. apply orb_true_r.
Qed.

Lemma address_eq (self : iface) :
  address self =
  map (fun i => if i <? len (dst_call self)
                then Z.shiftl (index (dst_call self) i) 1 else 0x20) (range 0 6)
  ++ [Z.lor 0x60 (Z.shiftl (dst_ssid self) 1)]
  ++ map (fun i => if i <? len (src_call self)
                   then Z.shiftl (index (src_call self) i) 1 else 0x20) (range 0 6)
  ++ [Z.lor (Z.lor 0x60 (Z.shiftl (src_ssid self) 1)) 0x01].
Proof.
  unfold address. rewrite !append_call_eq. cbn [app]. now rewrite <- !app_assoc.
Qed.

(** X22: the address field is 14 bytes, and the end-of-address bit, the
    low bit of a byte, is set in the last byte and in no other, whatever
    the callsigns and SSIDs are. *)
Theorem address_extension_bit (self : iface) :
  exists body last,
    address self = body ++ [last] /\
    List.length body = 13%nat /\
    Forall (fun b => Z.even b = true) body /\
    Z.odd last = true.
Proof.
  set (enc := fun call : bytes =>
     map (fun i => if i <? len call then Z.shiftl (index call i) 1 else 0x20)
         (range 0 6)).
  assert (Henc : forall call, Forall (fun b => Z.even b = true) (enc call)).
  { intros call. apply Forall_forall. intros b Hb. apply in_map_iff in Hb.
    destruct Hb as (i & <- & _).
    destruct (i <? len call); [apply shifted_even | reflexivity]. }
  exists (enc (dst_call self) ++ [Z.lor 0x60 (Z.shiftl (dst_ssid self) 1)]
          ++ enc (src_call self)),
         (Z.lor (Z.lor 0x60 (Z.shiftl (src_ssid self) 1)) 0x01).
  split; [|split; [|split]].
  - rewrite address_eq. fold (enc (dst_call self)). fold (enc (src_call self)).
    now rewrite <- !app_assoc.
  - rewrite !length_app. unfold enc. rewrite !length_map. reflexivity.
  - repeat (apply Forall_app; split); try apply Henc.
    constructor; [|constructor].
    rewrite <- Z.negb_odd, <- Z.bit0_odd, Z.lor_spec.
    rewrite (Z.bit0_odd (Z.shiftl _ 1)), <- Z.negb_even, shifted_even.
    reflexivity.
  - rewrite <- Z.bit0_odd, Z.lor_spec. apply orb_true_r.
Qed.

(** ** Flow control from end to end *)

(** X23: with flow control on, payloads leave in the order they were sent,
    one per ready signal.  Sent in a run to an online, ready interface
    with an empty queue whose transport takes every write, the first goes
    out at once and the others wait; as many ready frames as payloads are
    waiting then let them all out, and the transport has been handed the
    frames of all the payloads in the order sent. *)
Theorem flow_control_sends_in_order (wr : bytes -> Z) (now : Q) (d : bytes)
    (ds : list bytes) (frames : list (list event)) (r : reader) (s : iface) :
  (forall f, wr f = len f) ->
  flow_control s = true ->
  online s = true ->
  interface_ready s = true ->
  packet_queue s = [] ->
  serial_is_open s = true ->
  0 < HW_MTU s + AX25.HEADER_SIZE ->
  between_frames r ->
  Forall is_ready_frame frames ->
  List.length frames = List.length ds ->
  let res := readLoop_run wr (List.concat frames) r (send_all wr now (d :: ds) s) in
  fst res = inr tt /\
  packet_queue (snd (snd res)) = [] /\
  io_log (snd (snd res)) =
    io_log s ++ map (fun p => Write (kiss_frame s p)) (d :: ds).
Proof.
  intros Hwr Hfc Hon Hrdy Hq Hopen Hcap Hr Hframes Hn res. subst res.
  unfold send_all. cbn [fold_left].
  rewrite process_outgoing_sends by assumption. cbv zeta.
  rewrite Hfc, Hwr, Z.eqb_refl. cbn [negb snd].
  match goal with |- context [fold_left _ ds ?s0] =>
    fold (send_all wr now ds s0); set (s1 := s0) end.
  rewrite send_all_busy by (subst s1; fields; assumption || reflexivity).
  match goal with |- context [readLoop_run wr _ r ?s0] => set (s2 := s0) end.
  pose proof (ready_frames_drain wr frames Hwr r s2 Hframes Hr) as H.
  assert (Hopen2 : serial_is_open s2 = true) by exact Hopen.
  assert (Hon2 : online s2 = true) by exact Hon.
  assert (Hcap2 : 0 < HW_MTU s2 + AX25.HEADER_SIZE) by exact Hcap.
  specialize (H Hopen2 Hon2 Hcap2). cbv zeta in H. destruct H as (H1 & H2 & H3).
  split; [exact H1|]. rewrite H2, H3. subst s2 s1. fields. rewrite Hq, Hn.
  cbn [app]. rewrite skipn_all, firstn_all. split; [reflexivity|].
  rewrite <- app_assoc. reflexivity.
Qed.

Lemma flow_control_sends_in_order_witness :
  (forall f, writes_all f = len f) /\
  flow_control example_ready = true /\
  online example_ready = true /\
  interface_ready example_ready = true /\
  packet_queue example_ready = [] /\
  serial_is_open example_ready = true /\
  0 < HW_MTU example_ready + AX25.HEADER_SIZE /\
  between_frames (reader_start 0) /\
  Forall is_ready_frame [ready_frame_events; ready_frame_events] /\
  let res := readLoop_run writes_all
               (List.concat [ready_frame_events; ready_frame_events])
               (reader_start 0)
               (send_all writes_all 0%Q ([7] :: [[8]; [9]]) example_ready) in
  fst res = inr tt /\
  packet_queue (snd (snd res)) = [] /\
  io_log (snd (snd res)) =
    io_log example_ready ++
    map (fun p => Write (kiss_frame example_ready p)) ([7] :: [[8]; [9]]).
Proof.
  assert (Hwr : forall f, writes_all f = len f) by (intros f; reflexivity).
  assert (Hfc : flow_control example_ready = true) by (vm_compute; reflexivity).
  assert (Hon : online example_ready = true) by (vm_compute; reflexivity).
  assert (Hrdy : interface_ready example_ready = true) by (vm_compute; reflexivity).
  assert (Hq : packet_queue example_ready = []) by (vm_compute; reflexivity).
  assert (Hopen : serial_is_open example_ready = true) by (vm_compute; reflexivity).
  assert (Hcap : 0 < HW_MTU example_ready + AX25.HEADER_SIZE)
    by (vm_compute; reflexivity).
  assert (Hr : between_frames (reader_start 0)) by (left; reflexivity).
  assert (Hf : Forall is_ready_frame [ready_frame_events; ready_frame_events])
    by (repeat constructor; exists 0x0F, 0x01; repeat split; try reflexivity;
        discriminate).
  split; [exact Hwr|]. split; [exact Hfc|]. split; [exact Hon|]. split; [exact Hrdy|].
  split; [exact Hq|]. split; [exact Hopen|]. split; [exact Hcap|]. split; [exact Hr|].
  split; [exact Hf|].
  exact (flow_control_sends_in_order writes_all 0%Q [7] [[8]; [9]]
           [ready_frame_events; ready_frame_events] (reader_start 0) example_ready
           Hwr Hfc Hon Hrdy Hq Hopen Hcap Hr Hf eq_refl).
Defined.
